(** * dex-generator: merge-request / OIDC client reconciler

    A shallow embedding of [src/main.py].  The script polls GitLab for the
    open merge requests of one project, creates a Dex client for every merge
    request it has not seen before and deletes the client of every merge
    request that is no longer open.

    The script talks to the outside world (GitLab, the Dex gRPC stub, the file
    system, the clock, the random source).  Those calls are the fields of an
    [Env] record over an abstract state of the world, so that every theorem
    holds whatever the two services answer.  The script itself is written in a
    small monad that threads that state, propagates Python exceptions and
    records a trace: every external request with its answer, every printed
    line, and every entry into [process_and_create_client] and
    [delete_client].

    - The blocking requests ([projects.get], [mergerequests.list], [open],
      the three stub methods, [time.sleep]) may answer with any exception,
      [KeyboardInterrupt] included; [print], [secrets.token_urlsafe] and
      [time.strftime] always answer.
    - Integers are [Z], sets of merge-request numbers are [gset Z]; the order
      in which a [for] loop visits a set is a field of [Env].
    - [main] never returns: it is observed for a given number of rounds of its
      loop. *)

From stdpp Require Import base gmap sets list strings pretty.

Open Scope string_scope.
Open Scope list_scope.

(** ** Python values used by the script *)

(** The exceptions the script names or can meet.  [GitlabError], [RpcError],
    [ValueError] and [OtherException] are subclasses of [Exception];
    [KeyboardInterrupt] and [SystemExit] derive from [BaseException] only. *)
Inductive exn : Type :=
| GitlabError (msg : string)
| RpcError (msg : string)
| ValueError (msg : string)
| OtherException (msg : string)
| KeyboardInterrupt
| SystemExit (code : Z).

(** [isinstance(e, Exception)] *)
Definition is_Exception (e : exn) : bool :=
  match e with
  | KeyboardInterrupt | SystemExit _ => false
  | _ => true
  end.

(** [isinstance(e, grpc.RpcError)] *)
Definition is_RpcError (e : exn) : bool :=
  match e with RpcError _ => true | _ => false end.

(** [isinstance(e, gitlab.exceptions.GitlabError)] *)
Definition is_GitlabError (e : exn) : bool :=
  match e with GitlabError _ => true | _ => false end.

(** [str(e)], as the f-strings of the handlers format it. *)
Definition exn_str (e : exn) : string :=
  match e with
  | GitlabError m | RpcError m | ValueError m | OtherException m => m
  | KeyboardInterrupt => ""
  | SystemExit c => pretty c
  end.

Inductive result (A : Type) : Type :=
| Ok (a : A)
| Raise (e : exn).
Arguments Ok {A} a.
Arguments Raise {A} e.

(** The exception carried by a result, if any. *)
Definition raised_by {A} (r : result A) : option exn :=
  match r with Ok _ => None | Raise e => Some e end.

(** A result without its value: only whether, and with what, it raised. *)
Definition forget {A} (r : result A) : result unit :=
  match r with Ok _ => Ok tt | Raise e => Raise e end.

(** Truthiness of a value returned by [os.getenv]: [None] and the empty
    string are false. *)
Definition truthy (o : option string) : bool :=
  match o with
  | Some s => negb (bool_decide (s = ""))
  | None => false
  end.

(** The string behind a value already known to be truthy. *)
Definition the_str (o : option string) : string := default "" o.

(** The line feed of the Python literals. *)
Definition nl : string := String (Ascii.ascii_of_nat 10) "".

(** A merge request as the script reads it: [mr.iid] and [mr.title]. *)
Record MR : Type := { iid : Z; title : string }.

(** The messages of [dex.api.v2.api_pb2] the script builds or reads. *)
Module api_pb2.
Record Client : Type := {
  id : string;
  secret : string;
  redirect_uris : list string;
  trusted_peers : list string;
  public : bool;
  name : string;
  logo_url : string
}.
Record CreateClientResp : Type := { client : Client }.
End api_pb2.

(** [gitlab.Gitlab(url, private_token=..., ssl_verify=...)]; [ssl_verify] is
    [None] for the library's default verification. *)
Record Gitlab : Type := {
  gl_url : string;
  private_token : string;
  ssl_verify : option string
}.

(** [api_pb2_grpc.DexStub(channel)]: the target of the secure channel and the
    root certificates of its credentials ([None]: system certificates). *)
Record DexStub : Type := {
  target : string;
  root_certificates : option string
}.

(** The client id, redirect URI and display name derived from a merge request:
    the f-strings [f"mr-{mr.iid}"], [f"https://mr-{mr.iid}.preview.example.com/callback"]
    and [f"MR !{mr.iid} - {mr.title}"]. *)
Definition client_id_of (n : Z) : string := "mr-" +:+ pretty n.
Definition redirect_uri_of (n : Z) : string :=
  "https://mr-" +:+ pretty n +:+ ".preview.example.com/callback".
Definition client_name_of (n : Z) (t : string) : string :=
  "MR !" +:+ pretty n +:+ " - " +:+ t.

(** ** The trace *)

Inductive event : Type :=
| EvPrint (line : string)
| EvProjectsGet (gl : Gitlab) (project_id : string) (r : result unit)
| EvMergeRequestsList (state : string) (get_all : bool) (r : result (list MR))
| EvOpenRead (path : string) (r : result string)
| EvListClients (stub : DexStub) (r : result (list api_pb2.Client))
| EvCreateClient (stub : DexStub) (c : api_pb2.Client)
    (r : result api_pb2.CreateClientResp)
| EvDeleteClient (stub : DexStub) (client_id : string) (r : result unit)
| EvTokenUrlsafe (nbytes : nat) (token : string)
| EvSleep (secs : Z) (r : result unit)
| EvStrftime (fmt : string) (now : string)
| EvEnter_process_and_create_client (mr : MR)
| EvEnter_delete_client (client_id : string).

(** The exception an external request answered with, if it raised. *)
Definition raised (ev : event) : option exn :=
  match ev with
  | EvProjectsGet _ _ r => raised_by r
  | EvMergeRequestsList _ _ r => raised_by r
  | EvOpenRead _ r => raised_by r
  | EvListClients _ r => raised_by r
  | EvCreateClient _ _ r => raised_by r
  | EvDeleteClient _ _ r => raised_by r
  | EvSleep _ r => raised_by r
  | _ => None
  end.

(** Every request of the trace that failed did so with a [grpc.RpcError]. *)
Definition failures_are_rpc (tr : list event) : bool :=
  forallb (λ ev, from_option is_RpcError true (raised ev)) tr.

Definition is_registry_call (ev : event) : bool :=
  match ev with
  | EvListClients _ _ | EvCreateClient _ _ _ | EvDeleteClient _ _ _ => true
  | _ => false
  end.

Definition is_sleep (ev : event) : bool :=
  match ev with EvSleep _ _ => true | _ => false end.

(** The merge requests [process_and_create_client] was entered with, in order. *)
Definition ensure_calls (tr : list event) : list MR :=
  omap (λ ev, match ev with
              | EvEnter_process_and_create_client mr => Some mr
              | _ => None
              end) tr.

(** The client ids [delete_client] was entered with, in order. *)
Definition remove_calls (tr : list event) : list string :=
  omap (λ ev, match ev with
              | EvEnter_delete_client cid => Some cid
              | _ => None
              end) tr.

(** The clients of the create requests sent to the registry, in order. *)
Definition create_requests (tr : list event) : list api_pb2.Client :=
  omap (λ ev, match ev with
              | EvCreateClient _ c _ => Some c
              | _ => None
              end) tr.

(** The client ids of the delete requests sent to the registry, in order. *)
Definition delete_requests (tr : list event) : list string :=
  omap (λ ev, match ev with
              | EvDeleteClient _ cid _ => Some cid
              | _ => None
              end) tr.

(** How many times [process_and_create_client] was entered for the merge
    request number [n]. *)
Definition ensure_count (n : Z) (tr : list event) : nat :=
  length (List.filter (λ mr, bool_decide (iid mr = n)) (ensure_calls tr)).

(** How many times [delete_client] was entered for the client of the merge
    request number [n]. *)
Definition remove_count (n : Z) (tr : list event) : nat :=
  length (List.filter (λ cid, bool_decide (cid = client_id_of n)) (remove_calls tr)).

(** The requests that put a run to sleep. *)
Definition sleeps (tr : list event) : list event :=
  List.filter is_sleep tr.

(** The requests that were interrupted: answered with [KeyboardInterrupt]. *)
Definition is_interrupt (ev : event) : bool :=
  match raised ev with Some KeyboardInterrupt => true | _ => false end.

Definition interrupts (tr : list event) : list event :=
  List.filter is_interrupt tr.

(** The requests sent to the registry. *)
Definition registry_calls (tr : list event) : list event :=
  List.filter is_registry_call tr.

(** The clients of the create requests the registry accepted, in order. *)
Definition created_ok (tr : list event) : list api_pb2.Client :=
  omap (λ ev, match ev with
              | EvCreateClient _ c (Ok _) => Some c
              | _ => None
              end) tr.

(** The snapshots the polls of a run returned, in order. *)
Definition snapshots (tr : list event) : list (list MR) :=
  omap (λ ev, match ev with
              | EvMergeRequestsList _ _ (Ok mrs) => Some mrs
              | _ => None
              end) tr.

(** The tokens drawn, with the number of bytes asked for. *)
Definition tokens (tr : list event) : list (nat * string) :=
  omap (λ ev, match ev with
              | EvTokenUrlsafe n token => Some (n, token)
              | _ => None
              end) tr.

(** The request is sent where the configuration says: to the project [pid]
    through the GitLab client [gl], for the opened merge requests, all pages;
    to the registry through the stub [dex]; and a file that is read is
    [cert]. *)
Definition addressed_to (gl : Gitlab) (pid : string) (dex : DexStub)
    (cert : string) (ev : event) : Prop :=
  match ev with
  | EvProjectsGet g p _ => g = gl ∧ p = pid
  | EvMergeRequestsList state get_all _ => state = "opened" ∧ get_all = true
  | EvListClients s _ | EvCreateClient s _ _ | EvDeleteClient s _ _ => s = dex
  | EvOpenRead path _ => path = cert
  | _ => True
  end.

(** The names of the settings [main] requires. *)
Definition required_settings : list string :=
  ["GITLAB_TOKEN"; "GITLAB_URL"; "GITLAB_PROJECT_ID"; "DEX_HOST"].

(** Whether a list has an element. *)
Definition some_in {A} (l : list A) : bool :=
  match l with [] => false | _ :: _ => true end.

(** The lines [main] prints before it sets up the Dex client. *)
Definition main_banner (environ : gmap string string) (check_interval : Z)
  : list event :=
  [EvPrint ("Starting MR monitor for project: "
            +:+ the_str (environ !! "GITLAB_PROJECT_ID"));
   EvPrint ("Dex gRPC host: " +:+ the_str (environ !! "DEX_HOST"));
   EvPrint ("Checking for new MRs every " +:+ pretty check_interval +:+ " seconds")]
  ++ (if truthy (environ !! "GITLAB_CERT_PATH")
      then [EvPrint ("Using GitLab certificate: "
                     +:+ the_str (environ !! "GITLAB_CERT_PATH"))]
      else [])
  ++ (if truthy (environ !! "DEX_CERT_PATH")
      then [EvPrint ("Using Dex certificate: "
                     +:+ the_str (environ !! "DEX_CERT_PATH"))]
      else [])
  ++ [EvPrint ("Press Ctrl+C to stop" +:+ nl)].

(** The lines printed, in order. *)
Definition printed (tr : list event) : list string :=
  omap (λ ev, match ev with EvPrint s => Some s | _ => None end) tr.

(** ** The outside world *)

Record Env : Type := {
  W : Type;
  Project : Type;
  (** [gl.projects.get(project_id)] *)
  projects_get : Gitlab → string → W → result Project * W;
  (** [project.mergerequests.list(state=..., get_all=...)] *)
  mergerequests_list : Project → string → bool → W → result (list MR) * W;
  (** [open(path, 'rb').read()] *)
  open_read : string → W → result string * W;
  ListClients : DexStub → W → result (list api_pb2.Client) * W;
  CreateClient : DexStub → api_pb2.Client → W → result api_pb2.CreateClientResp * W;
  DeleteClient : DexStub → string → W → result unit * W;
  (** [secrets.token_urlsafe(nbytes)] *)
  token_urlsafe : nat → W → string * W;
  (** [time.sleep(secs)] *)
  sleep : Z → W → result unit * W;
  (** [time.strftime(fmt)] *)
  strftime : string → W → string * W;
  (** [int(s)]: the integer, or the message of the [ValueError] *)
  int_of_str : string → string + Z;
  (** the order in which [for ... in s] visits a set: each element once *)
  iter_order : gset Z → list Z;
  iter_order_perm : ∀ s, iter_order s ≡ₚ elements s
}.

(** ** The monad of the script *)

(** What running a piece of the script from a given outside world gives: its
    outcome, the outside world it leaves, and the trace it produced. *)
Record Run (Wd A : Type) : Type := MkRun {
  outcome : result A;
  final : Wd;
  events : list event
}.
Arguments MkRun {Wd A} outcome final events.
Arguments outcome {Wd A} r.
Arguments final {Wd A} r.
Arguments events {Wd A} r.

(** A run in which any request answered with [KeyboardInterrupt] ended the
    run with that exception. *)
Definition interrupt_leaves {Wd A} (r : Run Wd A) : Prop :=
  interrupts (events r) = [] ∨ outcome r = Raise KeyboardInterrupt.

(** A run in which a request answered with [KeyboardInterrupt] is the last
    thing that happened: the run ended there, with that exception. *)
Definition interrupt_ends {Wd A} (r : Run Wd A) : Prop :=
  interrupts (events r) = [] ∨
  (outcome r = Raise KeyboardInterrupt ∧
   ∃ before ev, events r = before ++ [ev] ∧ interrupts before = [] ∧
                is_interrupt ev = true).

Section Script.
Context (E : Env).

Definition M (A : Type) : Type := W E → Run (W E) A.

Definition ret {A} (a : A) : M A := λ w, MkRun (Ok a) w [].

Definition bind {A B} (m : M A) (f : A → M B) : M B := λ w,
  match m w with
  | MkRun (Ok a) w1 t1 =>
      match f a w1 with
      | MkRun o w2 t2 => MkRun o w2 (t1 ++ t2)
      end
  | MkRun (Raise e) w1 t1 => MkRun (Raise e) w1 t1
  end.

#[export] Instance M_ret : MRet M := @ret.
#[export] Instance M_bind : MBind M := λ A B f m, bind m f.

(** [raise e] *)
Definition raise {A} (e : exn) : M A := λ w, MkRun (Raise e) w [].

(** [try: m  except <classes selected by h> as e: h e] *)
Definition try_except {A} (m : M A) (h : exn → option (M A)) : M A := λ w,
  match m w with
  | MkRun (Ok a) w1 t1 => MkRun (Ok a) w1 t1
  | MkRun (Raise e) w1 t1 =>
      match h e with
      | Some k =>
          match k w1 with
          | MkRun o w2 t2 => MkRun o w2 (t1 ++ t2)
          end
      | None => MkRun (Raise e) w1 t1
      end
  end.

(** A request to the outside world that may raise. *)
Definition call {A} (f : W E → result A * W E) (ev : result A → event) : M A :=
  λ w, let '(r, w') := f w in MkRun r w' [ev r].

(** A request to the outside world that always answers. *)
Definition ask {A} (f : W E → A * W E) (ev : A → event) : M A :=
  λ w, let '(a, w') := f w in MkRun (Ok a) w' [ev a].

(** [print(line)] *)
Definition print (line : string) : M unit := λ w, MkRun (Ok tt) w [EvPrint line].

(** Records the entry into a function of the script. *)
Definition enter (ev : event) : M unit := λ w, MkRun (Ok tt) w [ev].

(** [sys.exit(code)] *)
Definition sys_exit {A} (code : Z) : M A := raise (SystemExit code).

(** ** The script *)

Definition setup_dex_client (dex_host : string) (dex_cert_path : option string)
  : M DexStub :=
  if truthy dex_cert_path then
    ca_cert ← call (open_read E (the_str dex_cert_path))
                   (EvOpenRead (the_str dex_cert_path));
    mret {| target := dex_host; root_certificates := Some ca_cert |}
  else
    mret {| target := dex_host; root_certificates := None |}.

Definition get_open_merge_requests (gitlab_url gitlab_token project_id : string)
    (gitlab_cert_path : option string) : M (list MR) :=
  let gl :=
    if truthy gitlab_cert_path then
      {| gl_url := gitlab_url; private_token := gitlab_token;
         ssl_verify := gitlab_cert_path |}
    else
      {| gl_url := gitlab_url; private_token := gitlab_token;
         ssl_verify := None |} in
  project ← call (projects_get E gl project_id)
                 (λ r, EvProjectsGet gl project_id (forget r));
  mrs ← call (mergerequests_list E project "opened" true)
             (EvMergeRequestsList "opened" true);
  mret mrs.

Definition client_with_id_exists (dex_client : DexStub) (client_id : string)
  : M (bool * option api_pb2.Client) :=
  try_except
    (response ← call (ListClients E dex_client) (EvListClients dex_client);
     match find (λ c, bool_decide (api_pb2.id c = client_id)) response with
     | Some c => mret (true, Some c)
     | None => mret (false, None)
     end)
    (λ e, match e with
          | RpcError _ =>
              Some (print ("Failed to list clients: " +:+ exn_str e);;
                    mret (false, None))
          | _ => None
          end).

Definition delete_client (dex_client : DexStub) (client_id : string) : M bool :=
  enter (EvEnter_delete_client client_id);;
  try_except
    (call (DeleteClient E dex_client client_id) (EvDeleteClient dex_client client_id);;
     print ("🗑️  Deleted client: " +:+ client_id);;
     mret true)
    (λ e, match e with
          | RpcError _ =>
              Some (print ("Failed to delete client " +:+ client_id +:+ ": "
                           +:+ exn_str e);;
                    mret false)
          | _ => None
          end).

Definition generate_client_secret (mr_number : Z) : M string :=
  ask (token_urlsafe E 32) (EvTokenUrlsafe 32).

Definition process_and_create_client (dex_client : DexStub) (mr : MR) : M bool :=
  enter (EvEnter_process_and_create_client mr);;
  let client_id := client_id_of (iid mr) in
  client_secret ← generate_client_secret (iid mr);
  let redirect_uri := redirect_uri_of (iid mr) in
  '(exists_, existing_client) ← client_with_id_exists dex_client client_id;
  if exists_ : bool then
    match existing_client with
    | Some c =>
        print ("Client for MR !" +:+ pretty (iid mr) +:+ " already exists (ID: "
               +:+ api_pb2.id c +:+ "). Skipping.");;
        mret false
    | None => raise (OtherException "'NoneType' object has no attribute 'id'")
    end
  else
    let new_client :=
      {| api_pb2.id := client_id;
         api_pb2.secret := client_secret;
         api_pb2.redirect_uris := [redirect_uri];
         api_pb2.trusted_peers := [];
         api_pb2.public := false;
         api_pb2.name := client_name_of (iid mr) (title mr);
         api_pb2.logo_url := "" |} in
    try_except
      (response ← call (CreateClient E dex_client new_client)
                       (EvCreateClient dex_client new_client);
       print ("✓ Created client for MR !" +:+ pretty (iid mr) +:+ ": "
              +:+ api_pb2.name (api_pb2.client response) +:+ " (ID: "
              +:+ api_pb2.id (api_pb2.client response) +:+ ")");;
       print ("  Redirect URI: " +:+ redirect_uri);;
       mret true)
      (λ e, match e with
            | RpcError _ =>
                Some (print ("Failed to create client for MR !" +:+ pretty (iid mr)
                             +:+ ": " +:+ exn_str e);;
                      mret false)
            | _ => None
            end).

(** The [for mr in mrs] loop of [process_merge_requests], with the two
    locals it updates. *)
Fixpoint for_mr_in (dex_client : DexStub) (known_mr_ids : gset Z) (mrs : list MR)
    (current_mr_ids : gset Z) (new_mrs_found : bool) : M (gset Z * bool) :=
  match mrs with
  | [] => mret (current_mr_ids, new_mrs_found)
  | mr :: rest =>
      let current_mr_ids := current_mr_ids ∪ {[ iid mr ]} in
      if bool_decide (iid mr ∉ known_mr_ids) then
        print (nl +:+ "🆕 New MR detected: !" +:+ pretty (iid mr) +:+ " - "
               +:+ title mr);;
        created ← process_and_create_client dex_client mr;
        for_mr_in dex_client known_mr_ids rest current_mr_ids
                  (if created : bool then true else new_mrs_found)
      else
        for_mr_in dex_client known_mr_ids rest current_mr_ids new_mrs_found
  end.

(** The [for mr_iid in closed_mrs] loop. *)
Fixpoint for_mr_iid_in (dex_client : DexStub) (closed_mrs : list Z) : M unit :=
  match closed_mrs with
  | [] => mret tt
  | mr_iid :: rest =>
      let client_id := client_id_of mr_iid in
      delete_client dex_client client_id;;
      for_mr_iid_in dex_client rest
  end.

(** [', '.join(parts)] *)
Fixpoint join (sep : string) (parts : list string) : string :=
  match parts with
  | [] => ""
  | [p] => p
  | p :: rest => p +:+ sep +:+ join sep rest
  end.

(** The body of the [try] of [process_merge_requests].  The closed set is
    iterated twice, by [join] and by the loop, in the order [iter_order]. *)
Definition process_merge_requests_body (gitlab_url gitlab_token project_id : string)
    (dex_client : DexStub) (known_mr_ids : gset Z) (gitlab_cert_path : option string)
  : M (gset Z * bool) :=
  mrs ← get_open_merge_requests gitlab_url gitlab_token project_id gitlab_cert_path;
  '(current_mr_ids, new_mrs_found) ← for_mr_in dex_client known_mr_ids mrs ∅ false;
  let closed_mrs := known_mr_ids ∖ current_mr_ids in
  (if bool_decide (closed_mrs ≠ ∅) then
     print (nl +:+ "📋 MRs no longer open: "
            +:+ join ", " ((λ n, "!" +:+ pretty n) <$> iter_order E closed_mrs));;
     for_mr_iid_in dex_client (iter_order E closed_mrs)
   else mret tt);;
  mret (current_mr_ids, new_mrs_found).

Definition process_merge_requests (gitlab_url gitlab_token project_id : string)
    (dex_client : DexStub) (known_mr_ids : gset Z) (gitlab_cert_path : option string)
  : M (gset Z * bool) :=
  try_except
    (process_merge_requests_body gitlab_url gitlab_token project_id dex_client
       known_mr_ids gitlab_cert_path)
    (λ e,
      if is_GitlabError e then
        Some (print ("GitLab API error: " +:+ exn_str e);;
              mret (known_mr_ids, false))
      else if is_Exception e then
        Some (print ("Error processing merge requests: " +:+ exn_str e);;
              mret (known_mr_ids, false))
      else None).

(** The first [iterations] rounds of the [while True] loop of [main]; the
    result is the known set the next round would start from. *)
Fixpoint monitoring_loop (iterations : nat) (check_interval : Z)
    (gitlab_url gitlab_token project_id : string) (dex_client : DexStub)
    (known_mr_ids : gset Z) (gitlab_cert : option string) : M (gset Z) :=
  match iterations with
  | O => mret known_mr_ids
  | S iterations =>
      call (sleep E check_interval) (EvSleep check_interval);;
      now ← ask (strftime E "%Y-%m-%d %H:%M:%S") (EvStrftime "%Y-%m-%d %H:%M:%S");
      print (nl +:+ "[" +:+ now +:+ "] Checking for new MRs...");;
      '(known_mr_ids, new_mrs) ←
        process_merge_requests gitlab_url gitlab_token project_id dex_client
          known_mr_ids gitlab_cert;
      (if negb new_mrs then
         print ("No new MRs. Currently monitoring " +:+ pretty (size known_mr_ids)
                +:+ " open MR(s)")
       else mret tt);;
      monitoring_loop iterations check_interval gitlab_url gitlab_token project_id
        dex_client known_mr_ids gitlab_cert
  end.

Definition config_error_message : string :=
  "Error: GITLAB_TOKEN, GITLAB_URL, GITLAB_PROJECT_ID, and DEX_HOST environment variables must be set".

Definition goodbye_message : string :=
  nl +:+ nl +:+ "Stopping MR monitor. Goodbye!".

(** [main], observed for the first [iterations] rounds of its loop.  [environ]
    is [os.environ] after [load_dotenv()].  An [Ok] outcome means that the
    loop is still running after those rounds. *)
Definition main (environ : gmap string string) (iterations : nat) : M (gset Z) :=
  let gitlab_token := environ !! "GITLAB_TOKEN" in
  let gitlab_url := environ !! "GITLAB_URL" in
  let project_id := environ !! "GITLAB_PROJECT_ID" in
  let gitlab_cert := environ !! "GITLAB_CERT_PATH" in
  let dex_host := environ !! "DEX_HOST" in
  let dex_cert := environ !! "DEX_CERT_PATH" in
  check_interval ←
    match int_of_str E (default "30" (environ !! "CHECK_INTERVAL")) with
    | inr n => mret n
    | inl msg => raise (ValueError msg)
    end;
  if negb (forallb truthy [gitlab_token; gitlab_url; project_id; dex_host]) then
    print config_error_message;;
    sys_exit 1
  else
    print ("Starting MR monitor for project: " +:+ the_str project_id);;
    print ("Dex gRPC host: " +:+ the_str dex_host);;
    print ("Checking for new MRs every " +:+ pretty check_interval +:+ " seconds");;
    (if truthy gitlab_cert then
       print ("Using GitLab certificate: " +:+ the_str gitlab_cert)
     else mret tt);;
    (if truthy dex_cert then
       print ("Using Dex certificate: " +:+ the_str dex_cert)
     else mret tt);;
    print ("Press Ctrl+C to stop" +:+ nl);;
    dex_client ← setup_dex_client (the_str dex_host) dex_cert;
    let known_mr_ids : gset Z := ∅ in
    print "Performing initial check...";;
    '(known_mr_ids, _) ←
      process_merge_requests (the_str gitlab_url) (the_str gitlab_token)
        (the_str project_id) dex_client known_mr_ids gitlab_cert;
    print (nl +:+ "Monitoring " +:+ pretty (size known_mr_ids) +:+ " open MR(s)");;
    try_except
      (monitoring_loop iterations check_interval (the_str gitlab_url)
         (the_str gitlab_token) (the_str project_id) dex_client known_mr_ids
         gitlab_cert)
      (λ e, match e with
            | KeyboardInterrupt => Some (print goodbye_message;; sys_exit 0)
            | _ => None
            end).
End Script.

Arguments ret {E A} a.
Arguments raise {E A} e.

(** How the process ends, given the outcome of the module's call of [main]:
    [sys.exit(code)] ends it with that status; any other exception that leaves
    [main] is reported by the interpreter with a traceback and status 1, except
    [KeyboardInterrupt]; an [Ok] outcome is a loop that is still polling. *)
Inductive termination : Type :=
| Exited (status : Z) (traceback : option exn)
| Interrupted
| Running.

Definition interpreter {A} (r : result A) : termination :=
  match r with
  | Ok _ => Running
  | Raise (SystemExit code) => Exited code None
  | Raise KeyboardInterrupt => Interrupted
  | Raise e => Exited 1 (Some e)
  end.

Definition exit_status (t : termination) : option Z :=
  match t with Exited status _ => Some status | _ => None end.

(** ** A simulated outside world

    Used to run the script on concrete inputs.  GitLab answers the successive
    polls from a list; the registry keeps a list of clients, refuses to create
    an id it has and to delete an id it lacks, and can be made to fail any of
    its requests through a list of faults consumed one per request; sleeps are
    answered from a list; tokens are numbered. *)
Module Sim.
Record World : Type := {
  feed : list (result (list MR));
  registry : list api_pb2.Client;
  faults : list (option exn);
  naps : list (result unit);
  drawn : nat
}.

Definition set_feed (w : World) (f : list (result (list MR))) : World :=
  {| feed := f; registry := registry w; faults := faults w;
     naps := naps w; drawn := drawn w |}.
Definition set_registry (w : World) (cs : list api_pb2.Client) : World :=
  {| feed := feed w; registry := cs; faults := faults w;
     naps := naps w; drawn := drawn w |}.
Definition set_faults (w : World) (fs : list (option exn)) : World :=
  {| feed := feed w; registry := registry w; faults := fs;
     naps := naps w; drawn := drawn w |}.
Definition set_naps (w : World) (ns : list (result unit)) : World :=
  {| feed := feed w; registry := registry w; faults := faults w;
     naps := ns; drawn := drawn w |}.
Definition set_drawn (w : World) (n : nat) : World :=
  {| feed := feed w; registry := registry w; faults := faults w;
     naps := naps w; drawn := n |}.

Definition has_id (cid : string) (c : api_pb2.Client) : bool :=
  bool_decide (api_pb2.id c = cid).

(** One registry request: the next fault, if any, else the answer. *)
Definition request {A} (answer : World → result A * World) (w : World)
  : result A * World :=
  match faults w with
  | Some e :: rest => (Raise e, set_faults w rest)
  | None :: rest => answer (set_faults w rest)
  | [] => answer w
  end.

Definition list_clients (w : World) : result (list api_pb2.Client) * World :=
  (Ok (registry w), w).

Definition create_client (c : api_pb2.Client) (w : World)
  : result api_pb2.CreateClientResp * World :=
  if existsb (has_id (api_pb2.id c)) (registry w) then
    (Raise (RpcError "ALREADY_EXISTS"), w)
  else
    (Ok {| api_pb2.client := c |}, set_registry w (registry w ++ [c])).

Definition delete_client (cid : string) (w : World) : result unit * World :=
  if existsb (has_id cid) (registry w) then
    (Ok tt, set_registry w (List.filter (λ c, negb (has_id cid c)) (registry w)))
  else
    (Raise (RpcError "NOT_FOUND"), w).

Definition poll (w : World) : result (list MR) * World :=
  match feed w with
  | r :: rest => (r, set_feed w rest)
  | [] => (Ok [], w)
  end.

Definition nap (w : World) : result unit * World :=
  match naps w with
  | r :: rest => (r, set_naps w rest)
  | [] => (Ok tt, w)
  end.

Definition digit_of (a : Ascii.ascii) : option Z :=
  let n := Z.of_nat (Ascii.nat_of_ascii a) in
  if bool_decide (48 ≤ n ≤ 57)%Z then Some (n - 48)%Z else None.

Fixpoint digits (s : string) (acc : Z) : option Z :=
  match s with
  | EmptyString => Some acc
  | String a rest =>
      match digit_of a with
      | Some d => digits rest (10 * acc + d)%Z
      | None => None
      end
  end.

(** [int] on plain decimal literals. *)
Definition parse_int (s : string) : string + Z :=
  match s with
  | EmptyString => inl ("invalid literal for int() with base 10: ''")
  | _ =>
      match digits s 0 with
      | Some n => inr n
      | None => inl ("invalid literal for int() with base 10: '" +:+ s +:+ "'")
      end
  end.

Definition env : Env := {|
  W := World;
  Project := unit;
  projects_get := λ _ _ w, (Ok tt, w);
  mergerequests_list := λ _ _ _, poll;
  open_read := λ _ w, (Ok "PEM", w);
  ListClients := λ _, request list_clients;
  CreateClient := λ _ c, request (create_client c);
  DeleteClient := λ _ cid, request (delete_client cid);
  token_urlsafe := λ _ w, ("token-" +:+ pretty (drawn w), set_drawn w (S (drawn w)));
  sleep := λ _, nap;
  strftime := λ _ w, ("2024-01-01 00:00:00", w);
  int_of_str := parse_int;
  iter_order := λ s : gset Z, elements s;
  iter_order_perm := λ s : gset Z, Permutation_refl (elements s)
|}.

Definition world0 : World :=
  {| feed := []; registry := []; faults := []; naps := []; drawn := 0 |}.

Definition stub : DexStub := {| target := "dex:5557"; root_certificates := None |}.

Definition run {A} (m : M env A) (w : World) : Run World A := m w.
End Sim.


(** ** Concrete inputs *)

Definition mr7 : MR := {| iid := 7; title := "fix bug" |}.
Definition mr7_again : MR := {| iid := 7; title := "fix bug (reopened)" |}.
Definition mr9 : MR := {| iid := 9; title := "add tests" |}.

Definition client7 (token : string) : api_pb2.Client :=
  {| api_pb2.id := "mr-7";
     api_pb2.secret := token;
     api_pb2.redirect_uris := ["https://mr-7.preview.example.com/callback"];
     api_pb2.trusted_peers := [];
     api_pb2.public := false;
     api_pb2.name := "MR !7 - fix bug";
     api_pb2.logo_url := "" |}.

(** The registry is unreachable for the next request. *)
Definition registry_down : Sim.World :=
  Sim.set_faults Sim.world0 [Some (RpcError "unavailable")].

(** The registry already holds the client of merge request 7. *)
Definition registry_with_7 : Sim.World :=
  Sim.set_registry Sim.world0 [client7 "old-token"].

(** One poll that returns the given snapshot. *)
Definition polled (mrs : list MR) : Sim.World :=
  Sim.set_feed Sim.world0 [Ok mrs].

(** A cycle of the simulated world, with the configuration left aside. *)
Definition sim_cycle (known : gset Z) (w : Sim.World) : Run Sim.World (gset Z * bool) :=
  process_merge_requests Sim.env "https://gitlab.example.com" "glpat" "42" Sim.stub
    known None w.

Definition sim_poll (w : Sim.World) : Run Sim.World (list MR) :=
  get_open_merge_requests Sim.env "https://gitlab.example.com" "glpat" "42" None w.

(** The client the script derives from a merge request and a token. *)
Definition derived_client (mr : MR) (token : string) : api_pb2.Client :=
  {| api_pb2.id := client_id_of (iid mr);
     api_pb2.secret := token;
     api_pb2.redirect_uris := [redirect_uri_of (iid mr)];
     api_pb2.trusted_peers := [];
     api_pb2.public := false;
     api_pb2.name := client_name_of (iid mr) (title mr);
     api_pb2.logo_url := "" |}.

Definition mr4 : MR := {| iid := 4; title := "docs" |}.
Definition mr5 : MR := {| iid := 5; title := "ci" |}.

(** The registry holds the clients of merge requests 4 and 5 but not of 3;
    GitLab reports no open merge request. *)
Definition all_closed : Sim.World :=
  Sim.set_registry (polled []) [derived_client mr4 "t4"; derived_client mr5 "t5"].

(** Merge request 7 is open; the registry refuses every write. *)
Definition writes_refused : Sim.World :=
  Sim.set_faults (polled [mr7])
    [None; Some (RpcError "unavailable"); Some (RpcError "unavailable")].

(** A complete configuration, and one without [DEX_HOST]. *)
Definition environ_ok : gmap string string :=
  list_to_map [("GITLAB_TOKEN", "glpat"); ("GITLAB_URL", "https://gitlab.example.com");
               ("GITLAB_PROJECT_ID", "42"); ("DEX_HOST", "dex:5557")].
Definition environ_no_host : gmap string string :=
  list_to_map [("GITLAB_TOKEN", "glpat"); ("GITLAB_URL", "https://gitlab.example.com");
               ("GITLAB_PROJECT_ID", "42"); ("CHECK_INTERVAL", "60")].

(** Merge request 7 stays open; the second sleep is interrupted. *)
Definition interrupted_asleep : Sim.World :=
  Sim.set_naps (Sim.set_feed Sim.world0 [Ok [mr7]; Ok [mr7]])
    [Ok tt; Raise KeyboardInterrupt].

(** The poll of the first round of the loop is interrupted. *)
Definition interrupted_polling : Sim.World :=
  Sim.set_feed Sim.world0 [Ok [mr7]; Raise KeyboardInterrupt].

(** [DEX_HOST] is set, but to the empty string. *)
Definition environ_empty_host : gmap string string :=
  <["DEX_HOST" := ""]> environ_ok.

(** A complete configuration with a poll interval and a Dex certificate. *)
Definition environ_with_cert : gmap string string :=
  <["CHECK_INTERVAL" := "60"]> (<["DEX_CERT_PATH" := "/etc/dex/ca.pem"]> environ_ok).

(** The simulated world, except that no file can be read. *)
Definition sim_env_unreadable : Env := {|
  W := Sim.World;
  Project := unit;
  projects_get := projects_get Sim.env;
  mergerequests_list := mergerequests_list Sim.env;
  open_read := λ path w,
    (Raise (OtherException ("[Errno 2] No such file or directory: '" +:+ path +:+ "'")),
     w);
  ListClients := ListClients Sim.env;
  CreateClient := CreateClient Sim.env;
  DeleteClient := DeleteClient Sim.env;
  token_urlsafe := token_urlsafe Sim.env;
  sleep := sleep Sim.env;
  strftime := strftime Sim.env;
  int_of_str := int_of_str Sim.env;
  iter_order := iter_order Sim.env;
  iter_order_perm := iter_order_perm Sim.env
|}.

(** GitLab fails three polls in a row, in two different ways. *)
Definition gitlab_down : Sim.World :=
  Sim.set_feed Sim.world0
    [Raise (GitlabError "502 Bad Gateway");
     Raise (OtherException "Connection reset by peer");
     Raise (GitlabError "502 Bad Gateway")].

(** Merge request 7 is open at two polls in a row; the registry refuses the
    writes of the first cycle. *)
Definition writes_refused_twice : Sim.World :=
  Sim.set_faults (Sim.set_feed Sim.world0 [Ok [mr7]; Ok [mr7_again]])
    [None; Some (RpcError "unavailable"); Some (RpcError "unavailable")].

(** The very first poll is interrupted. *)
Definition interrupted_at_start : Sim.World :=
  Sim.set_feed Sim.world0 [Raise KeyboardInterrupt].

(** Two polls: merge requests 7 and 9, then 9 alone. *)
Definition two_snapshots : Sim.World :=
  Sim.set_feed Sim.world0 [Ok [mr7; mr9]; Ok [mr9]].

(** Rounds of the loop of [main] on the simulated world. *)
Definition sim_loop (n : nat) (known : gset Z) (w : Sim.World)
  : Run Sim.World (gset Z) :=
  monitoring_loop Sim.env n 30 "https://gitlab.example.com" "glpat" "42" Sim.stub
    known None w.

(** * Properties *)

Ltac unfold_monad :=
  unfold mbind, mret, M_bind, M_ret, bind, ret, try_except, call, ask, print,
    enter, sys_exit, raise in *.

Lemma ensure_calls_app tr1 tr2 :
  ensure_calls (tr1 ++ tr2) = ensure_calls tr1 ++ ensure_calls tr2.
Proof. apply omap_app. Qed.

Lemma remove_calls_app tr1 tr2 :
  remove_calls (tr1 ++ tr2) = remove_calls tr1 ++ remove_calls tr2.
Proof. apply omap_app. Qed.

Lemma create_requests_app tr1 tr2 :
  create_requests (tr1 ++ tr2) = create_requests tr1 ++ create_requests tr2.
Proof. apply omap_app. Qed.

Lemma delete_requests_app tr1 tr2 :
  delete_requests (tr1 ++ tr2) = delete_requests tr1 ++ delete_requests tr2.
Proof. apply omap_app. Qed.

Lemma sleeps_app tr1 tr2 : sleeps (tr1 ++ tr2) = sleeps tr1 ++ sleeps tr2.
Proof. apply List.filter_app. Qed.

Lemma interrupts_app tr1 tr2 :
  interrupts (tr1 ++ tr2) = interrupts tr1 ++ interrupts tr2.
Proof. apply List.filter_app. Qed.

Lemma registry_calls_app tr1 tr2 :
  registry_calls (tr1 ++ tr2) = registry_calls tr1 ++ registry_calls tr2.
Proof. apply List.filter_app. Qed.

Lemma failures_are_rpc_app tr1 tr2 :
  failures_are_rpc (tr1 ++ tr2) = failures_are_rpc tr1 && failures_are_rpc tr2.
Proof. apply forallb_app. Qed.

Create Rewrite HintDb trace.
#[export] Hint Rewrite ensure_calls_app remove_calls_app create_requests_app
  delete_requests_app sleeps_app interrupts_app registry_calls_app
  failures_are_rpc_app : trace.

Section Facts.
Context (E : Env).
Implicit Types (w : W E) (dex : DexStub) (mr : MR) (tr : list event).
Implicit Types (known cur : gset Z).

(** *** The iteration of a set *)

Lemma iter_order_NoDup (s : gset Z) : NoDup (iter_order E s).
Proof. rewrite iter_order_perm. apply NoDup_elements. Qed.

Lemma elem_of_iter_order (s : gset Z) n : n ∈ iter_order E s ↔ n ∈ s.
Proof. by rewrite iter_order_perm, elem_of_elements. Qed.

Lemma length_iter_order (s : gset Z) : length (iter_order E s) = size s.
Proof. by rewrite iter_order_perm. Qed.

Lemma iter_order_empty : iter_order E ∅ = [].
Proof.
  apply Permutation_nil_r. by rewrite iter_order_perm, elements_empty.
Qed.

(** *** [process_and_create_client] *)

Ltac run_ensure dex mr w :=
  unfold process_and_create_client, generate_client_secret, client_with_id_exists;
  unfold_monad; cbn;
  let s := fresh "s" in let w1 := fresh "w" in let Ht := fresh "Htoken" in
  destruct (token_urlsafe E 32 w) as [s w1] eqn:Ht; cbn;
  let cs := fresh "cs" in let e := fresh "e" in let w2 := fresh "w" in
  let Hl := fresh "Hlist" in
  destruct (ListClients E dex w1) as [[cs|e] w2] eqn:Hl; cbn;
  [ let c := fresh "c" in let Hf := fresh "Hfind" in
    destruct (find _ cs) as [c|] eqn:Hf; cbn
  | destruct e; cbn ];
  repeat match goal with
  | |- context [CreateClient E dex ?c ?w'] =>
      let resp := fresh "resp" in let e := fresh "e" in let w3 := fresh "w" in
      let Hc := fresh "Hcreate" in
      destruct (CreateClient E dex c w') as [[resp|e] w3] eqn:Hc; cbn;
      [ | destruct e; cbn ]
  end.

Lemma process_and_create_client_calls dex mr w :
  let r := process_and_create_client E dex mr w in
  ensure_calls (events r) = [mr] ∧ remove_calls (events r) = [] ∧
  delete_requests (events r) = [] ∧ sleeps (events r) = [].
Proof. run_ensure dex mr w; done. Qed.

Lemma process_and_create_client_returns dex mr w :
  let r := process_and_create_client E dex mr w in
  failures_are_rpc (events r) = true → ∃ created, outcome r = Ok created.
Proof. run_ensure dex mr w; intros; try done; eauto. Qed.

Lemma process_and_create_client_request dex mr w c :
  c ∈ create_requests (events (process_and_create_client E dex mr w)) →
  c = {| api_pb2.id := client_id_of (iid mr);
         api_pb2.secret := (token_urlsafe E 32 w).1;
         api_pb2.redirect_uris := [redirect_uri_of (iid mr)];
         api_pb2.trusted_peers := [];
         api_pb2.public := false;
         api_pb2.name := client_name_of (iid mr) (title mr);
         api_pb2.logo_url := "" |}.
Proof.
  run_ensure dex mr w; intros Hin;
    repeat match goal with
    | H : _ ∈ [] |- _ => apply not_elem_of_nil in H; destruct H
    | H : _ ∈ [_] |- _ => apply list_elem_of_singleton in H; subst
    end; done.
Qed.

(** *** [delete_client] *)

Ltac run_remove dex cid w :=
  unfold delete_client; unfold_monad; cbn;
  let e := fresh "e" in let w1 := fresh "w" in let Hd := fresh "Hdelete" in
  destruct (DeleteClient E dex cid w) as [[[]|e] w1] eqn:Hd; cbn;
  [ | destruct e; cbn ].

Lemma delete_client_calls dex cid w :
  let r := delete_client E dex cid w in
  ensure_calls (events r) = [] ∧ remove_calls (events r) = [cid] ∧
  delete_requests (events r) = [cid] ∧ create_requests (events r) = [] ∧
  sleeps (events r) = [].
Proof. run_remove dex cid w; done. Qed.

Lemma delete_client_returns dex cid w :
  let r := delete_client E dex cid w in
  failures_are_rpc (events r) = true → ∃ deleted, outcome r = Ok deleted.
Proof. run_remove dex cid w; intros; try done; eauto. Qed.

(** *** The two loops of a cycle *)

Lemma for_mr_in_calls dex known mrs : ∀ cur found w,
  let r := for_mr_in E dex known mrs cur found w in
  remove_calls (events r) = [] ∧ delete_requests (events r) = [] ∧
  sleeps (events r) = [].
Proof.
  induction mrs as [|mr rest IH]; intros cur found w; cbn [for_mr_in]; [done|].
  case_bool_decide; [|apply IH].
  unfold_monad; cbn [outcome final events].
  pose proof (process_and_create_client_calls dex mr w) as (_ & Hr & Hd & Hs).
  destruct (process_and_create_client E dex mr w) as [[created|e] w1 t1];
    cbn [outcome final events] in *; [|done].
  specialize (IH (cur ∪ {[iid mr]}) (if created then true else found) w1).
  destruct (for_mr_in E dex known rest _ _ w1) as [o w2 t2]; cbn [outcome final events] in *.
  autorewrite with trace. destruct IH as (-> & -> & ->). by rewrite Hr, Hd, Hs.
Qed.

Lemma for_mr_in_returns dex known mrs : ∀ cur found w,
  let r := for_mr_in E dex known mrs cur found w in
  failures_are_rpc (events r) = true →
  ensure_calls (events r) = List.filter (λ mr, bool_decide (iid mr ∉ known)) mrs ∧
  ∃ found', outcome r = Ok (cur ∪ list_to_set (iid <$> mrs), found').
Proof.
  induction mrs as [|mr rest IH]; intros cur found w; cbn [for_mr_in].
  { intros _. split; [done|]. exists found. cbn.
    by rewrite (right_id_L ∅ (∪)). }
  cbn [List.filter fmap list_fmap list_to_set foldr].
  assert (Hset : ∀ s : gset Z,
             cur ∪ {[iid mr]} ∪ s = cur ∪ ({[iid mr]} ∪ s)).
  { intros s. by rewrite (assoc_L (∪)). }
  case_bool_decide.
  - unfold_monad; cbn [outcome final events].
    pose proof (process_and_create_client_calls dex mr w) as (He & _).
    pose proof (process_and_create_client_returns dex mr w) as Hret.
    destruct (process_and_create_client E dex mr w) as [o1 w1 t1]; cbn [outcome final events] in *.
    destruct o1 as [created|e].
    + specialize (IH (cur ∪ {[iid mr]}) (if created then true else found) w1).
      destruct (for_mr_in E dex known rest _ _ w1) as [o w2 t2]; cbn [outcome final events] in *.
      autorewrite with trace. rewrite !andb_true_iff. intros (_ & Ht1 & Ht2).
      destruct (IH Ht2) as (-> & found' & ->).
      rewrite He, Hset. eauto.
    + intros Ht. destruct (Hret Ht) as [? [=]].
  - intros Ht. destruct (IH (cur ∪ {[iid mr]}) found w Ht) as (-> & found' & ->).
    rewrite Hset. eauto.
Qed.

Lemma for_mr_iid_in_calls dex closed : ∀ w,
  let r := for_mr_iid_in E dex closed w in
  ensure_calls (events r) = [] ∧ create_requests (events r) = [] ∧
  sleeps (events r) = [].
Proof.
  induction closed as [|n rest IH]; intros w; cbn [for_mr_iid_in]; [done|].
  unfold_monad; cbn [outcome final events].
  pose proof (delete_client_calls dex (client_id_of n) w) as (He & _ & _ & Hc & Hs).
  destruct (delete_client E dex (client_id_of n) w) as [[deleted|e] w1 t1];
    cbn [outcome final events] in *; [|done].
  specialize (IH w1).
  destruct (for_mr_iid_in E dex rest w1) as [o w2 t2]; cbn [outcome final events] in *.
  autorewrite with trace. destruct IH as (-> & -> & ->). by rewrite He, Hc, Hs.
Qed.

Lemma for_mr_iid_in_returns dex closed : ∀ w,
  let r := for_mr_iid_in E dex closed w in
  failures_are_rpc (events r) = true →
  outcome r = Ok tt ∧
  remove_calls (events r) = client_id_of <$> closed ∧
  delete_requests (events r) = client_id_of <$> closed.
Proof.
  induction closed as [|n rest IH]; intros w; cbn [for_mr_iid_in]; [done|].
  unfold_monad; cbn [outcome final events].
  pose proof (delete_client_calls dex (client_id_of n) w) as (_ & Hr & Hd & _).
  pose proof (delete_client_returns dex (client_id_of n) w) as Hret.
  destruct (delete_client E dex (client_id_of n) w) as [o1 w1 t1]; cbn [outcome final events] in *.
  destruct o1 as [deleted|e].
  - specialize (IH w1).
    destruct (for_mr_iid_in E dex rest w1) as [o w2 t2]; cbn [outcome final events] in *.
    autorewrite with trace. rewrite !andb_true_iff. intros (Ht1 & Ht2).
    destruct (IH Ht2) as (-> & -> & ->). by rewrite Hr, Hd.
  - intros Ht. destruct (Hret Ht) as [? [=]].
Qed.

(** *** One cycle *)

Ltac run_poll url tok pid cert w :=
  unfold get_open_merge_requests; unfold_monad; cbn [outcome final events];
  let p := fresh "p" in let e := fresh "e" in let w1 := fresh "w" in
  let Hp := fresh "Hproject" in
  destruct (projects_get E _ pid w) as [[p|e] w1] eqn:Hp;
    cbn [outcome final events];
  [ let mrs := fresh "mrs" in let e := fresh "e" in let w2 := fresh "w" in
    let Hm := fresh "Hmrs" in
    destruct (mergerequests_list E p "opened" true w1) as [[mrs|e] w2] eqn:Hm;
      cbn [outcome final events]
  | ].

Lemma get_open_merge_requests_calls url tok pid cert w :
  let r := get_open_merge_requests E url tok pid cert w in
  ensure_calls (events r) = [] ∧ remove_calls (events r) = [] ∧
  create_requests (events r) = [] ∧ delete_requests (events r) = [] ∧
  registry_calls (events r) = [] ∧ sleeps (events r) = [].
Proof. run_poll url tok pid cert w; done. Qed.

Lemma process_merge_requests_body_returns url tok pid dex known cert w mrs :
  outcome (get_open_merge_requests E url tok pid cert w) = Ok mrs →
  let r := process_merge_requests_body E url tok pid dex known cert w in
  let cur : gset Z := list_to_set (iid <$> mrs) in
  failures_are_rpc (events r) = true →
  (∃ found, outcome r = Ok (cur, found)) ∧
  ensure_calls (events r) = List.filter (λ mr, bool_decide (iid mr ∉ known)) mrs ∧
  remove_calls (events r) = client_id_of <$> iter_order E (known ∖ cur) ∧
  delete_requests (events r) = client_id_of <$> iter_order E (known ∖ cur).
Proof.
  intros Hpoll. unfold process_merge_requests_body.
  unfold_monad; cbn [outcome final events].
  pose proof (get_open_merge_requests_calls url tok pid cert w)
    as (He0 & Hr0 & _ & Hd0 & _).
  destruct (get_open_merge_requests E url tok pid cert w) as [o0 w0 t0];
    cbn [outcome final events] in *.
  subst o0.
  pose proof (for_mr_in_calls dex known mrs ∅ false w0) as (Hr1 & Hd1 & _).
  pose proof (for_mr_in_returns dex known mrs ∅ false w0) as Hret1.
  destruct (for_mr_in E dex known mrs ∅ false w0) as [o1 w1 t1];
    cbn [outcome final events] in *.
  rewrite (left_id_L ∅ (∪)) in Hret1.
  destruct o1 as [[cur found]|e].
  - case_bool_decide as Hclosed.
    + pose proof (for_mr_iid_in_calls dex (iter_order E (known ∖ cur)) w1) as (He2 & _).
      pose proof (for_mr_iid_in_returns dex (iter_order E (known ∖ cur)) w1) as Hret2.
      destruct (for_mr_iid_in E dex (iter_order E (known ∖ cur)) w1) as [o2 w2 t2];
        cbn [outcome final events] in *.
      destruct o2 as [[]|e]; cbn [outcome final events].
      * autorewrite with trace. rewrite !andb_true_iff.
        intros (_ & Ht1 & (_ & Ht2) & _).
        destruct (Hret1 Ht1) as (-> & found' & [= -> ->]).
        destruct (Hret2 Ht2) as (_ & -> & ->).
        rewrite He0, Hr0, Hd0, Hr1, Hd1, He2. cbn.
        rewrite !app_nil_r. eauto.
      * autorewrite with trace. rewrite !andb_true_iff.
        intros (_ & _ & _ & Ht2). by destruct (Hret2 Ht2) as ([=] & _).
    + cbn [outcome final events].
      autorewrite with trace. rewrite !andb_true_iff.
      intros (_ & Ht1 & _).
      destruct (Hret1 Ht1) as (-> & found' & [= -> ->]).
      rewrite He0, Hr0, Hd0, Hr1, Hd1, Hclosed, iter_order_empty. cbn.
      rewrite !app_nil_r. eauto.
  - cbn [outcome final events]. autorewrite with trace. rewrite !andb_true_iff.
    intros (_ & Ht1). by destruct (Hret1 Ht1) as (_ & ? & [=]).
Qed.

(** The handlers of [process_merge_requests] only add a printed line. *)
Lemma process_merge_requests_unfold url tok pid dex known cert w :
  let body := process_merge_requests_body E url tok pid dex known cert w in
  let r := process_merge_requests E url tok pid dex known cert w in
  match outcome body with
  | Ok a => r = body
  | Raise e =>
      if is_GitlabError e then
        r = MkRun (Ok (known, false)) (final body)
              (events body ++ [EvPrint ("GitLab API error: " +:+ exn_str e)])
      else if is_Exception e then
        r = MkRun (Ok (known, false)) (final body)
              (events body ++
                 [EvPrint ("Error processing merge requests: " +:+ exn_str e)])
      else r = body
  end.
Proof.
  unfold process_merge_requests. unfold_monad.
  destruct (process_merge_requests_body E url tok pid dex known cert w)
    as [[a|e] w1 t1]; cbn [outcome final events]; [done|].
  destruct (is_GitlabError e); [done|]. by destruct (is_Exception e).
Qed.

Lemma process_merge_requests_events url tok pid dex known cert w :
  let body := process_merge_requests_body E url tok pid dex known cert w in
  let r := process_merge_requests E url tok pid dex known cert w in
  events r = events body ∨ ∃ line, events r = events body ++ [EvPrint line].
Proof.
  cbn zeta.
  pose proof (process_merge_requests_unfold url tok pid dex known cert w) as H.
  cbn zeta in H.
  destruct (outcome (process_merge_requests_body E url tok pid dex known cert w))
    as [a|e].
  - left. by rewrite H.
  - destruct (is_GitlabError e); [right; rewrite H; eauto|].
    destruct (is_Exception e); [right; rewrite H; eauto|].
    left. by rewrite H.
Qed.

Lemma process_merge_requests_returns url tok pid dex known cert w mrs :
  outcome (get_open_merge_requests E url tok pid cert w) = Ok mrs →
  let r := process_merge_requests E url tok pid dex known cert w in
  let cur : gset Z := list_to_set (iid <$> mrs) in
  failures_are_rpc (events r) = true →
  (∃ found, outcome r = Ok (cur, found)) ∧
  ensure_calls (events r) = List.filter (λ mr, bool_decide (iid mr ∉ known)) mrs ∧
  remove_calls (events r) = client_id_of <$> iter_order E (known ∖ cur) ∧
  delete_requests (events r) = client_id_of <$> iter_order E (known ∖ cur).
Proof.
  intros Hpoll r cur Hrpc.
  assert (Hbody : failures_are_rpc
            (events (process_merge_requests_body E url tok pid dex known cert w))
          = true).
  { destruct (process_merge_requests_events url tok pid dex known cert w)
      as [Heq|[line Heq]]; fold r in Heq; rewrite Heq in Hrpc; [done|].
    autorewrite with trace in Hrpc. by apply andb_prop in Hrpc as [? _]. }
  pose proof (process_merge_requests_body_returns url tok pid dex known cert w mrs
                Hpoll Hbody) as Hb.
  pose proof (process_merge_requests_unfold url tok pid dex known cert w) as Hu.
  cbn zeta in Hb, Hu. destruct Hb as ([found Hok] & Hb).
  rewrite Hok in Hu. subst r. rewrite Hu. eauto.
Qed.

(** *** Sleeps and interrupts

    No part of a cycle sleeps, and a [KeyboardInterrupt] raised by a request
    of a cycle leaves the cycle ([interrupt_leaves]). *)

Lemma process_and_create_client_interrupt dex mr w :
  interrupt_leaves (process_and_create_client E dex mr w).
Proof. unfold interrupt_leaves. run_ensure dex mr w; by (left + right). Qed.

Lemma delete_client_interrupt dex cid w :
  interrupt_leaves (delete_client E dex cid w).
Proof. unfold interrupt_leaves. run_remove dex cid w; by (left + right). Qed.

Lemma get_open_merge_requests_interrupt url tok pid cert w :
  interrupt_leaves (get_open_merge_requests E url tok pid cert w).
Proof.
  unfold interrupt_leaves. run_poll url tok pid cert w;
    try (by left);
    match goal with e : exn |- _ => destruct e; by (left + right) end.
Qed.

Lemma for_mr_in_interrupt dex known mrs : ∀ cur found w,
  interrupt_leaves (for_mr_in E dex known mrs cur found w).
Proof.
  unfold interrupt_leaves.
  induction mrs as [|mr rest IH]; intros cur found w; cbn [for_mr_in]; [by left|].
  case_bool_decide; [|apply IH].
  unfold_monad; cbn [outcome final events].
  destruct (process_and_create_client_interrupt dex mr w) as [Hi|Hi];
    destruct (process_and_create_client E dex mr w) as [[created|e] w1 t1];
    cbn [outcome final events] in *; try done.
  - specialize (IH (cur ∪ {[iid mr]}) (if created then true else found) w1).
    destruct (for_mr_in E dex known rest _ _ w1) as [o w2 t2];
      cbn [outcome final events] in *.
    autorewrite with trace. rewrite Hi. destruct IH as [-> | ->]; by (left + right).
  - left. autorewrite with trace. by rewrite Hi.
  - injection Hi as ->. by right.
Qed.

Lemma for_mr_iid_in_interrupt dex closed : ∀ w,
  interrupt_leaves (for_mr_iid_in E dex closed w).
Proof.
  unfold interrupt_leaves.
  induction closed as [|n rest IH]; intros w; cbn [for_mr_iid_in]; [by left|].
  unfold_monad; cbn [outcome final events].
  destruct (delete_client_interrupt dex (client_id_of n) w) as [Hi|Hi];
    destruct (delete_client E dex (client_id_of n) w) as [[deleted|e] w1 t1];
    cbn [outcome final events] in *; try done.
  - specialize (IH w1).
    destruct (for_mr_iid_in E dex rest w1) as [o w2 t2];
      cbn [outcome final events] in *.
    autorewrite with trace. rewrite Hi. destruct IH as [-> | ->]; by (left + right).
  - left. autorewrite with trace. by rewrite Hi.
  - injection Hi as ->. by right.
Qed.

Lemma process_merge_requests_body_quiet url tok pid dex known cert w :
  let r := process_merge_requests_body E url tok pid dex known cert w in
  sleeps (events r) = [] ∧ interrupt_leaves r.
Proof.
  unfold interrupt_leaves, process_merge_requests_body.
  unfold_monad; cbn [outcome final events].
  pose proof (get_open_merge_requests_calls url tok pid cert w)
    as (_ & _ & _ & _ & _ & Hs0).
  pose proof (get_open_merge_requests_interrupt url tok pid cert w) as Hi0.
  unfold interrupt_leaves in Hi0.
  destruct (get_open_merge_requests E url tok pid cert w) as [[mrs|e0] w0 t0];
    cbn [outcome final events] in *.
  2: { split; [done|]. destruct Hi0 as [Hi0|[= ->]]; by (left + right). }
  destruct Hi0 as [Hi0|?]; [|done].
  pose proof (for_mr_in_calls dex known mrs ∅ false w0) as (_ & _ & Hs1).
  pose proof (for_mr_in_interrupt dex known mrs ∅ false w0) as Hi1.
  unfold interrupt_leaves in Hi1.
  destruct (for_mr_in E dex known mrs ∅ false w0) as [[[cur found]|e1] w1 t1];
    cbn [outcome final events] in *.
  2: { autorewrite with trace. rewrite Hs0, Hs1, Hi0. split; [done|].
       destruct Hi1 as [->|[= ->]]; by (left + right). }
  destruct Hi1 as [Hi1|?]; [|done].
  case_bool_decide as Hclosed; cbn [outcome final events].
  - pose proof (for_mr_iid_in_calls dex (iter_order E (known ∖ cur)) w1) as (_ & _ & Hs2).
    pose proof (for_mr_iid_in_interrupt dex (iter_order E (known ∖ cur)) w1) as Hi2.
    unfold interrupt_leaves in Hi2.
    destruct (for_mr_iid_in E dex (iter_order E (known ∖ cur)) w1) as [[[]|e2] w2 t2];
      cbn [outcome final events] in *;
      autorewrite with trace; rewrite Hs0, Hs1, Hs2, Hi0, Hi1; (split; [done|]).
    + destruct Hi2 as [->|?]; [by left|done].
    + destruct Hi2 as [->|[= ->]]; by (left + right).
  - autorewrite with trace. rewrite Hs0, Hs1, Hi0, Hi1. split; [done|by left].
Qed.

Lemma process_merge_requests_quiet url tok pid dex known cert w :
  let r := process_merge_requests E url tok pid dex known cert w in
  sleeps (events r) = [] ∧ interrupt_leaves r.
Proof.
  cbn zeta. unfold interrupt_leaves.
  pose proof (process_merge_requests_body_quiet url tok pid dex known cert w)
    as [Hs Hi].
  pose proof (process_merge_requests_unfold url tok pid dex known cert w) as Hu.
  cbn zeta in Hs, Hi, Hu. unfold interrupt_leaves in Hi.
  destruct (outcome (process_merge_requests_body E url tok pid dex known cert w))
    as [a|e] eqn:Hb.
  - rewrite Hu, Hs, Hb. destruct Hi as [->|?]; [by split; [|left]|done].
  - destruct Hi as [Hi|[= ->]].
    + destruct (is_GitlabError e);
        [|destruct (is_Exception e)]; rewrite Hu; cbn [outcome final events];
        autorewrite with trace; rewrite ?Hs, ?Hi; by split; [|left].
    + cbn [is_GitlabError is_Exception] in Hu. rewrite Hu, Hs, Hb. by split; [|right].
Qed.

Lemma setup_dex_client_quiet host cert w :
  let r := setup_dex_client E host cert w in
  sleeps (events r) = [] ∧ interrupt_leaves r.
Proof.
  unfold interrupt_leaves, setup_dex_client.
  destruct (truthy cert); unfold_monad; cbn [outcome final events]; [|by split; [|left]].
  destruct (open_read E (the_str cert) w) as [[ca|e] w1];
    cbn [outcome final events]; [by split; [|left]|].
  destruct e; by split; [|(left + right)].
Qed.

(** *** The loop of [main] *)

Lemma monitoring_loop_interrupted n secs url tok pid dex cert : ∀ known w,
  let r := monitoring_loop E n secs url tok pid dex known cert w in
  interrupts (events r) ≠ [] → outcome r = Raise KeyboardInterrupt.
Proof.
  induction n as [|n IH]; intros known w; cbn [monitoring_loop]; [done|].
  unfold_monad; cbn [outcome final events].
  destruct (sleep E secs w) as [[[]|e] w1]; cbn [outcome final events].
  2: { destruct e; done. }
  destruct (strftime E "%Y-%m-%d %H:%M:%S" w1) as [now w2];
    cbn [outcome final events].
  pose proof (process_merge_requests_quiet url tok pid dex known cert w2)
    as [_ Hi].
  unfold interrupt_leaves in Hi.
  destruct (process_merge_requests E url tok pid dex known cert w2)
    as [[[known' new_mrs]|e] w3 t3]; cbn [outcome final events] in *.
  2: { destruct Hi as [Hi|[= ->]]; [|done].
       autorewrite with trace. rewrite Hi. done. }
  destruct Hi as [Hi|?]; [|done].
  specialize (IH known').
  destruct new_mrs; cbn [negb outcome final events];
    match goal with
    | |- context [monitoring_loop E n secs url tok pid dex known' cert ?w'] =>
        specialize (IH w');
        destruct (monitoring_loop E n secs url tok pid dex known' cert w')
          as [o w4 t4]
    end;
    cbn [outcome final events] in *;
    autorewrite with trace; rewrite Hi; exact IH.
Qed.
End Facts.

(** ** Counting calls *)

Section Counting.
Implicit Types (n : Z) (l : list Z) (mrs : list MR).

Lemma client_id_of_inj : Inj (=) (=) client_id_of.
Proof.
  intros n m Heq. unfold client_id_of in Heq. cbn in Heq.
  injection Heq as Heq. by apply pretty_Z_inj in Heq.
Qed.

Lemma count_NoDup n l :
  NoDup l →
  length (List.filter (λ x, bool_decide (x = n)) l)
  = if bool_decide (n ∈ l) then 1 else 0.
Proof.
  induction 1 as [|x l Hx Hnd IH]; [done|]. cbn [List.filter].
  destruct (decide (x = n)) as [->|Hxn].
  - rewrite (bool_decide_eq_true_2 (n = n)) by done. cbn [length]. rewrite IH.
    rewrite (bool_decide_eq_false_2 (n ∈ l)) by done.
    rewrite bool_decide_eq_true_2; [done|]. by left.
  - rewrite (bool_decide_eq_false_2 (x = n)) by done. rewrite IH.
    destruct (decide (n ∈ l)) as [Hin|Hin].
    + rewrite !bool_decide_eq_true_2; [done|by right|done].
    + rewrite !bool_decide_eq_false_2; [done| |done].
      intros [->|?]%elem_of_cons; done.
Qed.

Lemma count_iid n mrs :
  length (List.filter (λ mr, bool_decide (iid mr = n)) mrs)
  = length (List.filter (λ x, bool_decide (x = n)) (iid <$> mrs)).
Proof.
  induction mrs as [|mr rest IH]; [done|]. cbn [List.filter fmap list_fmap].
  case_bool_decide; cbn [length]; by rewrite IH.
Qed.

Lemma count_client_id n l :
  length (List.filter (λ cid, bool_decide (cid = client_id_of n)) (client_id_of <$> l))
  = length (List.filter (λ x, bool_decide (x = n)) l).
Proof.
  induction l as [|x rest IH]; [done|]. cbn [List.filter fmap list_fmap].
  destruct (decide (x = n)) as [->|Hne].
  - rewrite !bool_decide_eq_true_2 by done. cbn [length]. by rewrite IH.
  - rewrite !bool_decide_eq_false_2; [done|done|].
    intros Heq. by apply client_id_of_inj in Heq.
Qed.

(** Entries of a snapshot that get a call: those not in the known set. *)
Lemma count_new n (known : gset Z) mrs :
  length (List.filter (λ mr, bool_decide (iid mr = n))
            (List.filter (λ mr, bool_decide (iid mr ∉ known)) mrs))
  = if bool_decide (n ∉ known)
    then length (List.filter (λ mr, bool_decide (iid mr = n)) mrs)
    else 0.
Proof.
  induction mrs as [|mr rest IH]; [by case_bool_decide|].
  cbn [List.filter].
  destruct (decide (iid mr = n)) as [Heq|Hne].
  - rewrite (bool_decide_eq_true_2 (iid mr = n)) by done.
    destruct (decide (n ∈ known)) as [Hin|Hin].
    + rewrite (bool_decide_eq_false_2 (iid mr ∉ known)) by (rewrite Heq; tauto).
      rewrite IH. rewrite !bool_decide_eq_false_2; tauto.
    + rewrite (bool_decide_eq_true_2 (iid mr ∉ known)) by by rewrite Heq.
      cbn [List.filter]. rewrite (bool_decide_eq_true_2 (iid mr = n)) by done.
      cbn [length]. rewrite IH. by rewrite !bool_decide_eq_true_2.
  - rewrite (bool_decide_eq_false_2 (iid mr = n)) by done.
    destruct (decide (iid mr ∈ known)) as [Hin|Hin].
    + rewrite (bool_decide_eq_false_2 (iid mr ∉ known)) by tauto. apply IH.
    + rewrite (bool_decide_eq_true_2 (iid mr ∉ known)) by done.
      cbn [List.filter]. rewrite (bool_decide_eq_false_2 (iid mr = n)) by done.
      apply IH.
Qed.

(** The numbers that get a call are those of the snapshot that are not
    known. *)
Lemma new_numbers (known : gset Z) mrs :
  NoDup (iid <$> mrs) →
  iid <$> List.filter (λ mr, bool_decide (iid mr ∉ known)) mrs
  ≡ₚ elements (list_to_set (iid <$> mrs) ∖ known).
Proof.
  intros Hnd. apply NoDup_Permutation.
  - induction mrs as [|mr rest IH]; [constructor|].
    cbn [fmap list_fmap] in Hnd. apply NoDup_cons in Hnd as [Hmr Hnd].
    cbn [List.filter]. case_bool_decide; [|by apply IH].
    cbn [fmap list_fmap]. apply NoDup_cons. split; [|by apply IH].
    intros (mr' & Heq & Hin)%list_elem_of_fmap.
    apply list_elem_of_In, filter_In in Hin as [Hin _].
    apply Hmr, list_elem_of_fmap. exists mr'. by rewrite <-list_elem_of_In in Hin.
  - apply NoDup_elements.
  - intros n. rewrite elem_of_elements, elem_of_difference, elem_of_list_to_set.
    rewrite !list_elem_of_fmap. split.
    + intros (mr & -> & Hin). apply list_elem_of_In, filter_In in Hin as [Hin Hn].
      apply bool_decide_eq_true_1 in Hn. rewrite <-list_elem_of_In in Hin. eauto.
    + intros [(mr & -> & Hin) Hn]. exists mr. split; [done|].
      apply list_elem_of_In, filter_In. rewrite <-list_elem_of_In.
      split; [done|]. by apply bool_decide_eq_true_2.
Qed.
End Counting.

(** * The claims *)

Section Claims.
Context (E : Env).
Implicit Types (w : W E) (dex : DexStub) (mr : MR) (tr : list event).
Implicit Types (known : gset Z) (url tok pid : string) (cert : option string).

Ltac enter_ensure dex mr w :=
  unfold process_and_create_client, generate_client_secret, client_with_id_exists;
  unfold_monad; cbn;
  let s := fresh "s" in let w1 := fresh "w" in let Ht := fresh "Htoken" in
  destruct (token_urlsafe E 32 w) as [s w1] eqn:Ht; cbn.

(** C1, as amended.  When the [ListClients] request of the existence check
    fails with an RPC error, [client_with_id_exists] prints the failure and
    answers [(False, None)], and [process_and_create_client] goes on as for
    an absent client: it sends one create request for the derived client, and
    returns [True] if that request succeeds, [False] if it fails with an RPC
    error. *)
Theorem create_follows_failed_existence_check dex mr w msg w2 :
  ListClients E dex (token_urlsafe E 32 w).2 = (Raise (RpcError msg), w2) →
  let r := process_and_create_client E dex mr w in
  let c := {| api_pb2.id := client_id_of (iid mr);
              api_pb2.secret := (token_urlsafe E 32 w).1;
              api_pb2.redirect_uris := [redirect_uri_of (iid mr)];
              api_pb2.trusted_peers := [];
              api_pb2.public := false;
              api_pb2.name := client_name_of (iid mr) (title mr);
              api_pb2.logo_url := "" |} in
  (∃ rest,
     events r
     = [EvEnter_process_and_create_client mr;
        EvTokenUrlsafe 32 (token_urlsafe E 32 w).1;
        EvListClients dex (Raise (RpcError msg));
        EvPrint ("Failed to list clients: " +:+ msg);
        EvCreateClient dex c (CreateClient E dex c w2).1] ++ rest) ∧
  create_requests (events r) = [c] ∧
  outcome r = match (CreateClient E dex c w2).1 with
              | Ok _ => Ok true
              | Raise e => if is_RpcError e then Ok false else Raise e
              end.
Proof.
  enter_ensure dex mr w. intros ->. cbn.
  destruct (CreateClient E dex _ w2) as [[resp|e] w3]; cbn; [by eauto|].
  destruct e; cbn; by eauto.
Qed.

(** When the listing answers and holds the derived id, nothing is created. *)
Lemma process_and_create_client_present dex mr w cs w2 :
  ListClients E dex (token_urlsafe E 32 w).2 = (Ok cs, w2) →
  client_id_of (iid mr) ∈ api_pb2.id <$> cs →
  process_and_create_client E dex mr w
  = MkRun (Ok false) w2
      [EvEnter_process_and_create_client mr;
       EvTokenUrlsafe 32 (token_urlsafe E 32 w).1;
       EvListClients dex (Ok cs);
       EvPrint ("Client for MR !" +:+ pretty (iid mr) +:+ " already exists (ID: "
                +:+ client_id_of (iid mr) +:+ "). Skipping.")].
Proof.
  enter_ensure dex mr w. intros -> Hin. cbn.
  destruct (find _ cs) as [c|] eqn:Hfind; cbn.
  - apply find_some in Hfind as [_ Hid]. apply bool_decide_eq_true_1 in Hid.
    by rewrite Hid.
  - exfalso. apply list_elem_of_fmap in Hin as (c & Hid & Hc).
    apply list_elem_of_In in Hc.
    pose proof (find_none _ _ Hfind c Hc) as Hno. cbn in Hno.
    apply bool_decide_eq_false_1 in Hno. by rewrite Hid in Hno.
Qed.

(** C5.  [process_and_create_client] is idempotent on a client that is
    present: when the listing of the existence check answers with a list that
    holds the id ["mr-<iid>"], the call sends no create (and no delete)
    request, its only registry request is that listing, it prints the
    "already exists ... Skipping." line and returns [False]; and a second call
    with the same arguments, started where the first one ended, does the
    same. *)
Theorem process_and_create_client_idempotent dex mr w cs1 w1 cs2 w2 :
  let first := process_and_create_client E dex mr w in
  let second := process_and_create_client E dex mr (final first) in
  let skipped :=
    "Client for MR !" +:+ pretty (iid mr) +:+ " already exists (ID: mr-"
    +:+ pretty (iid mr) +:+ "). Skipping." in
  ListClients E dex (token_urlsafe E 32 w).2 = (Ok cs1, w1) →
  "mr-" +:+ pretty (iid mr) ∈ api_pb2.id <$> cs1 →
  ListClients E dex (token_urlsafe E 32 w1).2 = (Ok cs2, w2) →
  "mr-" +:+ pretty (iid mr) ∈ api_pb2.id <$> cs2 →
  (outcome first = Ok false ∧ final first = w1 ∧
   create_requests (events first) = [] ∧ delete_requests (events first) = [] ∧
   registry_calls (events first) = [EvListClients dex (Ok cs1)] ∧
   printed (events first) = [skipped]) ∧
  (outcome second = Ok false ∧ final second = w2 ∧
   create_requests (events second) = [] ∧ delete_requests (events second) = [] ∧
   registry_calls (events second) = [EvListClients dex (Ok cs2)] ∧
   printed (events second) = [skipped]).
Proof.
  intros first second skipped Hl1 Hin1 Hl2 Hin2. subst first second.
  rewrite (process_and_create_client_present dex mr w cs1 w1 Hl1 Hin1).
  cbn [final].
  rewrite (process_and_create_client_present dex mr w1 cs2 w2 Hl2 Hin2).
  done.
Qed.

(** C6.  Every create request [process_and_create_client] sends for a merge
    request with number [n] and title [t] carries id ["mr-<n>"], the single
    redirect URI ["https://mr-<n>.preview.example.com/callback"], no trusted
    peer, [public = False], name ["MR !<n> - <t>"] and an empty logo URL; only
    the secret, the token drawn in that call, depends on anything else. *)
Theorem created_client_is_derived dex mr w c :
  c ∈ create_requests (events (process_and_create_client E dex mr w)) →
  api_pb2.id c = "mr-" +:+ pretty (iid mr) ∧
  api_pb2.redirect_uris c
    = ["https://mr-" +:+ pretty (iid mr) +:+ ".preview.example.com/callback"] ∧
  api_pb2.trusted_peers c = [] ∧
  api_pb2.public c = false ∧
  api_pb2.name c = "MR !" +:+ pretty (iid mr) +:+ " - " +:+ title mr ∧
  api_pb2.logo_url c = "" ∧
  api_pb2.secret c = (token_urlsafe E 32 w).1.
Proof.
  intros Hc. apply process_and_create_client_request in Hc. by subst c.
Qed.

(** C2.  In a cycle whose poll succeeds with a snapshot without duplicate
    numbers, and in which every request that fails does so with an RPC error,
    [process_and_create_client] is entered exactly once for every number of
    the snapshot that is not in the known set, [delete_client] exactly once
    for every known number that is not in the snapshot, and neither is
    entered for a number that is in both (nor for any other number). *)
Theorem reconcile_diff_exact url tok pid dex known cert w mrs :
  let r := process_merge_requests E url tok pid dex known cert w in
  let current : gset Z := list_to_set (iid <$> mrs) in
  outcome (get_open_merge_requests E url tok pid cert w) = Ok mrs →
  NoDup (iid <$> mrs) →
  failures_are_rpc (events r) = true →
  (∀ n, n ∈ current ∖ known →
        ensure_count n (events r) = 1 ∧ remove_count n (events r) = 0) ∧
  (∀ n, n ∈ known ∖ current →
        remove_count n (events r) = 1 ∧ ensure_count n (events r) = 0) ∧
  (∀ n, n ∈ known ∩ current →
        ensure_count n (events r) = 0 ∧ remove_count n (events r) = 0) ∧
  length (ensure_calls (events r)) = size (current ∖ known) ∧
  length (remove_calls (events r)) = size (known ∖ current).
Proof.
  intros r current Hpoll Hnd Hrpc.
  destruct (process_merge_requests_returns E url tok pid dex known cert w mrs
              Hpoll Hrpc) as (_ & He & Hr & _).
  fold r in He, Hr. fold current in Hr.
  assert (Hens : ∀ n, ensure_count n (events r)
                      = if bool_decide (n ∈ current ∖ known) then 1 else 0).
  { intros n. unfold ensure_count. rewrite He, count_new, count_iid, count_NoDup by done.
    destruct (decide (n ∈ known)) as [Hk|Hk].
    - rewrite (bool_decide_eq_false_2 (n ∉ known)) by tauto.
      rewrite bool_decide_eq_false_2; [done|]. rewrite elem_of_difference. tauto.
    - rewrite (bool_decide_eq_true_2 (n ∉ known)) by done.
      rewrite (bool_decide_ext _ (n ∈ current ∖ known)); [done|]. subst current.
      rewrite elem_of_difference, elem_of_list_to_set. tauto. }
  assert (Hrem : ∀ n, remove_count n (events r)
                      = if bool_decide (n ∈ known ∖ current) then 1 else 0).
  { intros n. unfold remove_count.
    rewrite Hr, count_client_id, count_NoDup by apply iter_order_NoDup.
    rewrite (bool_decide_ext _ (n ∈ known ∖ current)); [done|].
    apply elem_of_iter_order. }
  split_and!.
  - intros n Hn. rewrite Hens, Hrem. rewrite bool_decide_eq_true_2 by done.
    rewrite bool_decide_eq_false_2; [done|].
    revert Hn. rewrite !elem_of_difference. tauto.
  - intros n Hn. rewrite Hens, Hrem. rewrite bool_decide_eq_true_2 by done.
    rewrite bool_decide_eq_false_2; [done|].
    revert Hn. rewrite !elem_of_difference. tauto.
  - intros n Hn. rewrite Hens, Hrem.
    rewrite !bool_decide_eq_false_2; [done|..];
      revert Hn; rewrite elem_of_intersection, elem_of_difference; tauto.
  - rewrite <-(length_fmap iid), He. by rewrite new_numbers.
  - by rewrite Hr, length_fmap, length_iter_order.
Qed.

(** C3.  When the poll raises a GitLab API error, the cycle returns the
    previous known set (with [False]), sends no request to the registry and
    enters neither [process_and_create_client] nor [delete_client]; the last
    thing it does is print the error. *)
Theorem poll_failure_keeps_known_set url tok pid dex known cert w msg :
  let r := process_merge_requests E url tok pid dex known cert w in
  outcome (get_open_merge_requests E url tok pid cert w) = Raise (GitlabError msg) →
  outcome r = Ok (known, false) ∧
  registry_calls (events r) = [] ∧
  create_requests (events r) = [] ∧ delete_requests (events r) = [] ∧
  ensure_calls (events r) = [] ∧ remove_calls (events r) = [] ∧
  last (events r) = Some (EvPrint ("GitLab API error: " +:+ msg)).
Proof.
  intros r Hpoll. subst r.
  unfold process_merge_requests, process_merge_requests_body.
  unfold_monad; cbn [outcome final events].
  pose proof (get_open_merge_requests_calls E url tok pid cert w)
    as (He & Hr & Hc & Hd & Hreg & _).
  destruct (get_open_merge_requests E url tok pid cert w) as [o0 w0 t0];
    cbn [outcome final events] in *.
  subst o0. cbn [is_GitlabError outcome final events exn_str].
  rewrite app_nil_r, last_snoc. autorewrite with trace.
  rewrite He, Hr, Hc, Hd, Hreg. done.
Qed.

(** C4.  When the poll succeeds, and every request of the cycle that fails
    does so with an RPC error, the cycle returns the set of the numbers of
    the snapshot, whatever the create and delete requests answered. *)
Theorem known_set_follows_snapshot url tok pid dex known cert w mrs :
  let r := process_merge_requests E url tok pid dex known cert w in
  outcome (get_open_merge_requests E url tok pid cert w) = Ok mrs →
  failures_are_rpc (events r) = true →
  ∃ new_mrs_found, outcome r = Ok (list_to_set (iid <$> mrs), new_mrs_found).
Proof.
  intros r Hpoll Hrpc.
  by destruct (process_merge_requests_returns E url tok pid dex known cert w mrs
                 Hpoll Hrpc) as (Hok & _).
Qed.

(** C7.  In a cycle whose poll succeeds and whose failures are RPC errors,
    if the delete request for a closed merge request [i] fails with an RPC
    error, a delete request is still sent, exactly once, for every other
    closed merge request [j]. *)
Theorem delete_failure_is_isolated url tok pid dex known cert w mrs i j msg :
  let r := process_merge_requests E url tok pid dex known cert w in
  let closed : gset Z := known ∖ list_to_set (iid <$> mrs) in
  outcome (get_open_merge_requests E url tok pid cert w) = Ok mrs →
  failures_are_rpc (events r) = true →
  i ∈ closed → j ∈ closed → i ≠ j →
  EvDeleteClient dex (client_id_of i) (Raise (RpcError msg)) ∈ events r →
  length (List.filter (λ cid, bool_decide (cid = client_id_of j))
            (delete_requests (events r))) = 1.
Proof.
  intros r closed Hpoll Hrpc _ Hj _ _.
  destruct (process_merge_requests_returns E url tok pid dex known cert w mrs
              Hpoll Hrpc) as (_ & _ & _ & Hd).
  fold r in Hd. fold closed in Hd.
  rewrite Hd, count_client_id, count_NoDup by apply iter_order_NoDup.
  rewrite bool_decide_eq_true_2; [done|]. by apply elem_of_iter_order.
Qed.

(** C10.  When the snapshot of a successful poll holds several entries with
    the same number, and that number is not in the known set,
    [process_and_create_client] is entered once per entry, so more than once
    for that number, while the returned known set holds the number once. *)
Theorem duplicate_entries_repeat_create url tok pid dex known cert w mrs n :
  let r := process_merge_requests E url tok pid dex known cert w in
  let entries := length (List.filter (λ mr, bool_decide (iid mr = n)) mrs) in
  outcome (get_open_merge_requests E url tok pid cert w) = Ok mrs →
  failures_are_rpc (events r) = true →
  n ∉ known →
  1 < entries →
  ensure_count n (events r) = entries ∧
  1 < ensure_count n (events r) ∧
  ∃ current new_mrs_found,
    outcome r = Ok (current, new_mrs_found) ∧
    n ∈ current ∧
    length (List.filter (λ x, bool_decide (x = n)) (elements current)) = 1.
Proof.
  intros r entries Hpoll Hrpc Hn Hmany.
  destruct (process_merge_requests_returns E url tok pid dex known cert w mrs
              Hpoll Hrpc) as ([found Hok] & He & _).
  fold r in Hok, He.
  assert (Hcount : ensure_count n (events r) = entries).
  { unfold ensure_count. rewrite He, count_new.
    by rewrite bool_decide_eq_true_2. }
  split_and!; [done|by rewrite Hcount|].
  exists (list_to_set (iid <$> mrs)), found. split; [done|].
  assert (Hin : n ∈ (list_to_set (iid <$> mrs) : gset Z)); last first.
  { split; [done|]. rewrite count_NoDup by apply NoDup_elements.
    rewrite bool_decide_eq_true_2; [done|]. by apply elem_of_elements. }
  apply elem_of_list_to_set.
  subst entries. rewrite count_iid in Hmany.
  destruct (List.filter _ (iid <$> mrs)) as [|x l] eqn:Hf; [cbn in Hmany; lia|].
  assert (Hx : In x (List.filter (λ x, bool_decide (x = n)) (iid <$> mrs)))
    by (rewrite Hf; by left).
  apply filter_In in Hx as [Hx Hxn]. apply bool_decide_eq_true_1 in Hxn.
  subst x. by apply list_elem_of_In.
Qed.

(** The part of [main] from [setup_dex_client] on. *)
Ltac main_loop_entered secs gitlab_cert dex_cert w :=
  let Hs3 := fresh "Hsetup_s" in let Hi3 := fresh "Hsetup_i" in
  let Hs4 := fresh "Hfirst_s" in let Hi4 := fresh "Hfirst_i" in
  let Hloop := fresh "Hloop" in
  match goal with
  | |- context [setup_dex_client E ?h dex_cert w] =>
      pose proof (setup_dex_client_quiet E h dex_cert w) as [Hs3 Hi3];
      unfold interrupt_leaves in Hi3;
      destruct (setup_dex_client E h dex_cert w) as [[?dex|?e] ?w ?t];
      cbn [outcome final events] in *;
      [ destruct Hi3 as [Hi3|?]; [|done]
      | autorewrite with trace; rewrite Hs3; done ]
  end;
  match goal with
  | |- context [process_merge_requests E ?u ?tk ?p ?dx ∅ gitlab_cert ?w3] =>
      pose proof (process_merge_requests_quiet E u tk p dx ∅ gitlab_cert w3)
        as [Hs4 Hi4];
      unfold interrupt_leaves in Hi4;
      destruct (process_merge_requests E u tk p dx ∅ gitlab_cert w3)
        as [[[?known ?found]|?e] ?w ?t];
      cbn [outcome final events] in *;
      [ destruct Hi4 as [Hi4|?]; [|done]
      | autorewrite with trace; rewrite Hs3, Hs4; done ]
  end;
  match goal with
  | |- context [monitoring_loop E ?n secs ?u ?tk ?p ?dx ?kn gitlab_cert ?w4] =>
      pose proof (monitoring_loop_interrupted E n secs u tk p dx
                    gitlab_cert kn w4) as Hloop;
      destruct (monitoring_loop E n secs u tk p dx kn gitlab_cert w4)
        as [[?known|?e] ?w ?t];
      cbn [outcome final events] in *
  end;
  [ intros _; autorewrite with trace; rewrite Hi3, Hi4; cbn;
    intros Hi; by specialize (Hloop Hi)
  | match goal with
    | e : exn |- _ =>
        destruct e; cbn [outcome final events];
        try (intros _; autorewrite with trace; rewrite Hi3, Hi4; cbn;
             intros Hi; by specialize (Hloop Hi))
    end;
    intros _ _; split_and!; [done..|];
    rewrite !app_assoc, app_nil_r; apply last_snoc ].

(** C8.  If one of the four required settings is absent, the process ends
    with status 1 before any request is made (so before the polling loop),
    after a diagnostic: the line of [main] when [CHECK_INTERVAL] is unset or
    an integer literal, the interpreter's traceback of the [ValueError] of
    [int] otherwise.  And whenever a request made after the loop was entered
    is interrupted by [KeyboardInterrupt], [main] prints its farewell and the
    process ends with status 0. *)
Theorem main_exit_status (environ : gmap string string) iterations w :
  let r := main E environ iterations w in
  ((environ !! "GITLAB_TOKEN" = None ∨ environ !! "GITLAB_URL" = None ∨
    environ !! "GITLAB_PROJECT_ID" = None ∨ environ !! "DEX_HOST" = None) →
   exit_status (interpreter (outcome r)) = Some 1%Z ∧
   ((outcome r = Raise (SystemExit 1) ∧ events r = [EvPrint config_error_message]) ∨
    (∃ msg, int_of_str E (default "30" (environ !! "CHECK_INTERVAL")) = inl msg ∧
            interpreter (outcome r) = Exited 1 (Some (ValueError msg)) ∧
            events r = []))) ∧
  (sleeps (events r) ≠ [] → interrupts (events r) ≠ [] →
   outcome r = Raise (SystemExit 0) ∧
   exit_status (interpreter (outcome r)) = Some 0%Z ∧
   last (events r) = Some (EvPrint goodbye_message)).
Proof.
  cbn zeta. unfold main.
  destruct (int_of_str E (default "30" (environ !! "CHECK_INTERVAL")))
    as [msg|secs] eqn:Hint.
  { unfold_monad; cbn [outcome final events]. split; [|done].
    intros _. split; [done|]. right. by exists msg. }
  destruct (forallb truthy _) eqn:Hall; cbn [negb].
  2: { unfold_monad; cbn [outcome final events]. split; [|done].
       intros _. split; [done|]. by left. }
  split.
  { intros Habsent. exfalso. cbn in Hall.
    destruct Habsent as [H|[H|[H|H]]]; rewrite H in Hall; cbn in Hall;
      rewrite ?andb_false_r in Hall; done. }
  unfold_monad; cbn [outcome final events].
  set (gitlab_cert := environ !! "GITLAB_CERT_PATH").
  set (dex_cert := environ !! "DEX_CERT_PATH").
  destruct (truthy gitlab_cert), (truthy dex_cert); cbn [outcome final events];
    main_loop_entered secs gitlab_cert dex_cert w.
Qed.
End Claims.

(** * Runs on the simulated world *)

(** C1, counterexample.  The listing of the existence check fails with an RPC
    error, yet a create request for ["mr-7"] is sent and the call returns
    [True]. *)
Lemma failed_existence_check_counterexample :
  let r := process_and_create_client Sim.env Sim.stub mr7 registry_down in
  events r
  = [EvEnter_process_and_create_client mr7;
     EvTokenUrlsafe 32 "token-0";
     EvListClients Sim.stub (Raise (RpcError "unavailable"));
     EvPrint "Failed to list clients: unavailable";
     EvCreateClient Sim.stub (client7 "token-0")
       (Ok {| api_pb2.client := client7 "token-0" |});
     EvPrint "✓ Created client for MR !7: MR !7 - fix bug (ID: mr-7)";
     EvPrint "  Redirect URI: https://mr-7.preview.example.com/callback"] ∧
  outcome r = Ok true ∧
  Sim.registry (final r) = [client7 "token-0"].
Proof. vm_compute. done. Qed.

(** The registry is down for the listing only: the client of merge request 7 is
    created all the same. *)
Lemma create_follows_failed_existence_check_witness :
  let r := process_and_create_client Sim.env Sim.stub mr7 registry_down in
  ListClients Sim.env Sim.stub (token_urlsafe Sim.env 32 registry_down).2
  = (Raise (RpcError "unavailable"), Sim.set_drawn Sim.world0 1) ∧
  create_requests (events r) = [client7 "token-0"] ∧
  outcome r = Ok true.
Proof.
  assert (Hlist : ListClients Sim.env Sim.stub (token_urlsafe Sim.env 32 registry_down).2
                  = (Raise (RpcError "unavailable"), Sim.set_drawn Sim.world0 1))
    by (by vm_compute).
  destruct (create_follows_failed_existence_check Sim.env Sim.stub mr7 registry_down
              "unavailable" (Sim.set_drawn Sim.world0 1) Hlist) as (_ & Hreq & Hout).
  split; [exact Hlist|]. split; [exact Hreq|exact Hout].
Defined.

(** Two calls for merge request 7 on a registry that holds its client: both
    skip, and the registry is as it was. *)
Lemma process_and_create_client_idempotent_witness :
  let first := process_and_create_client Sim.env Sim.stub mr7 registry_with_7 in
  let second := process_and_create_client Sim.env Sim.stub mr7 (final first) in
  "mr-7" ∈ api_pb2.id <$> Sim.registry registry_with_7 ∧
  (outcome first = Ok false ∧ create_requests (events first) = []) ∧
  (outcome second = Ok false ∧ create_requests (events second) = []) ∧
  printed (events second)
  = ["Client for MR !7 already exists (ID: mr-7). Skipping."] ∧
  Sim.registry (final second) = Sim.registry registry_with_7.
Proof.
  assert (Hin : "mr-7" ∈ api_pb2.id <$> [client7 "old-token"]) by (cbn; by left).
  assert (Hl1 : ListClients Sim.env Sim.stub
                  (token_urlsafe Sim.env 32 registry_with_7).2
                = (Ok [client7 "old-token"], Sim.set_drawn registry_with_7 1))
    by (by vm_compute).
  assert (Hl2 : ListClients Sim.env Sim.stub
                  (token_urlsafe Sim.env 32 (Sim.set_drawn registry_with_7 1)).2
                = (Ok [client7 "old-token"], Sim.set_drawn registry_with_7 2))
    by (by vm_compute).
  destruct (process_and_create_client_idempotent Sim.env Sim.stub mr7 registry_with_7
              [client7 "old-token"] (Sim.set_drawn registry_with_7 1)
              [client7 "old-token"] (Sim.set_drawn registry_with_7 2)
              Hl1 Hin Hl2 Hin)
    as ((Ho1 & Hf1 & Hc1 & _) & (Ho2 & Hf2 & Hc2 & _ & _ & Hp2)).
  split; [exact Hin|]. split; [by split|]. split; [by split|].
  split; [exact Hp2|]. cbv zeta. by rewrite Hf2.
Defined.

(** The client created for merge request 7 on an empty registry. *)
Lemma created_client_is_derived_witness :
  client7 "token-0"
    ∈ create_requests (events (process_and_create_client Sim.env Sim.stub mr7 Sim.world0)) ∧
  api_pb2.id (client7 "token-0") = "mr-7" ∧
  api_pb2.name (client7 "token-0") = "MR !7 - fix bug".
Proof.
  assert (Hin : client7 "token-0" ∈ create_requests
                  (events (process_and_create_client Sim.env Sim.stub mr7 Sim.world0)))
    by (vm_compute; by left).
  destruct (created_client_is_derived Sim.env Sim.stub mr7 Sim.world0
              (client7 "token-0") Hin) as (Hid & _ & _ & _ & Hname & _).
  split; [exact Hin|]. split; [exact Hid|exact Hname].
Defined.

(** Known: 3 and 7; open: 7 and 9.  One create call for 9, one delete call for
    3 (which fails: the registry has no such client), nothing for 7. *)
Lemma reconcile_diff_exact_witness :
  let r := sim_cycle {[3; 7]}%Z (polled [mr7; mr9]) in
  outcome (sim_poll (polled [mr7; mr9])) = Ok [mr7; mr9] ∧
  NoDup (iid <$> [mr7; mr9]) ∧
  failures_are_rpc (events r) = true ∧
  (ensure_count 9 (events r) = 1 ∧ remove_count 9 (events r) = 0) ∧
  (remove_count 3 (events r) = 1 ∧ ensure_count 3 (events r) = 0) ∧
  (ensure_count 7 (events r) = 0 ∧ remove_count 7 (events r) = 0).
Proof.
  assert (Hnd : NoDup (iid <$> [mr7; mr9])).
  { apply (bool_decide_unpack _). by vm_compute. }
  assert (Hpoll : outcome (sim_poll (polled [mr7; mr9])) = Ok [mr7; mr9])
    by (by vm_compute).
  assert (Hrpc : failures_are_rpc (events (sim_cycle {[3; 7]}%Z (polled [mr7; mr9])))
                 = true) by (by vm_compute).
  destruct (reconcile_diff_exact Sim.env "https://gitlab.example.com" "glpat" "42"
              Sim.stub {[3; 7]}%Z None (polled [mr7; mr9]) [mr7; mr9]
              Hpoll Hnd Hrpc) as (Hnew & Hclosed & Hboth & _).
  split; [exact Hpoll|]. split; [exact Hnd|]. split; [exact Hrpc|].
  split; [|split].
  - apply Hnew. apply (bool_decide_unpack _). by vm_compute.
  - apply Hclosed. apply (bool_decide_unpack _). by vm_compute.
  - apply Hboth. apply (bool_decide_unpack _). by vm_compute.
Defined.

(** GitLab answers 503 while 7 is known. *)
Lemma poll_failure_keeps_known_set_witness :
  let w := Sim.set_feed Sim.world0 [Raise (GitlabError "503 Service Unavailable")] in
  let r := sim_cycle {[7%Z]} w in
  outcome (sim_poll w) = Raise (GitlabError "503 Service Unavailable") ∧
  outcome r = Ok ({[7%Z]}, false) ∧
  registry_calls (events r) = [].
Proof.
  assert (Hpoll : outcome (sim_poll (Sim.set_feed Sim.world0
                                      [Raise (GitlabError "503 Service Unavailable")]))
                  = Raise (GitlabError "503 Service Unavailable")) by (by vm_compute).
  destruct (poll_failure_keeps_known_set Sim.env "https://gitlab.example.com" "glpat"
              "42" Sim.stub {[7%Z]} None
              (Sim.set_feed Sim.world0 [Raise (GitlabError "503 Service Unavailable")])
              "503 Service Unavailable" Hpoll) as (Hout & Hreg & _).
  split; [exact Hpoll|]. split; [exact Hout|exact Hreg].
Defined.

(** The create for 7 and the delete for 3 are both refused, yet the new known
    set is the snapshot. *)
Lemma known_set_follows_snapshot_witness :
  let r := sim_cycle {[3%Z]} writes_refused in
  outcome (sim_poll writes_refused) = Ok [mr7] ∧
  failures_are_rpc (events r) = true ∧
  create_requests (events r) = [client7 "token-0"] ∧
  Sim.registry (final r) = [] ∧
  ∃ new_mrs_found, outcome r = Ok (list_to_set (iid <$> [mr7]), new_mrs_found).
Proof.
  assert (Hpoll : outcome (sim_poll writes_refused) = Ok [mr7]) by (by vm_compute).
  assert (Hrpc : failures_are_rpc (events (sim_cycle {[3%Z]} writes_refused)) = true)
    by (by vm_compute).
  split; [exact Hpoll|]. split; [exact Hrpc|]. split; [by vm_compute|].
  split; [by vm_compute|].
  exact (known_set_follows_snapshot Sim.env "https://gitlab.example.com" "glpat" "42"
           Sim.stub {[3%Z]} None writes_refused [mr7] Hpoll Hrpc).
Defined.

(** 3, 4 and 5 are closed; the delete for 3 fails, the one for 4 is sent. *)
Lemma delete_failure_is_isolated_witness :
  let r := sim_cycle {[3; 4; 5]}%Z all_closed in
  outcome (sim_poll all_closed) = Ok [] ∧
  failures_are_rpc (events r) = true ∧
  EvDeleteClient Sim.stub "mr-3" (Raise (RpcError "NOT_FOUND")) ∈ events r ∧
  length (List.filter (λ cid, bool_decide (cid = "mr-4")) (delete_requests (events r))) = 1.
Proof.
  assert (Hfail : EvDeleteClient Sim.stub (client_id_of 3) (Raise (RpcError "NOT_FOUND"))
                  ∈ events (sim_cycle {[3; 4; 5]}%Z all_closed)).
  { apply list_elem_of_In. vm_compute. tauto. }
  assert (H3 : (3:Z) ∈ ({[3; 4; 5]}%Z : gset Z) ∖ list_to_set (iid <$> []))
    by (apply (bool_decide_unpack _); by vm_compute).
  assert (H4 : (4:Z) ∈ ({[3; 4; 5]}%Z : gset Z) ∖ list_to_set (iid <$> []))
    by (apply (bool_decide_unpack _); by vm_compute).
  assert (Hne : (3:Z) ≠ 4%Z) by done.
  assert (Hpoll : outcome (sim_poll all_closed) = Ok []) by (by vm_compute).
  assert (Hrpc : failures_are_rpc (events (sim_cycle {[3; 4; 5]}%Z all_closed)) = true)
    by (by vm_compute).
  split; [exact Hpoll|]. split; [exact Hrpc|]. split; [exact Hfail|].
  exact (delete_failure_is_isolated Sim.env "https://gitlab.example.com" "glpat" "42"
           Sim.stub {[3; 4; 5]}%Z None all_closed [] 3 4 "NOT_FOUND"
           Hpoll Hrpc H3 H4 Hne Hfail).
Defined.

(** Without [DEX_HOST] the script stops at once with status 1; with a complete
    configuration and Ctrl+C during the second sleep it stops with status 0. *)
Lemma main_exit_status_witness :
  (environ_no_host !! "DEX_HOST" = None ∧
   outcome (main Sim.env environ_no_host 3 Sim.world0) = Raise (SystemExit 1) ∧
   events (main Sim.env environ_no_host 3 Sim.world0) = [EvPrint config_error_message]) ∧
  (let r := main Sim.env environ_ok 5 interrupted_asleep in
   sleeps (events r) = [EvSleep 30 (Ok tt); EvSleep 30 (Raise KeyboardInterrupt)] ∧
   interrupts (events r) = [EvSleep 30 (Raise KeyboardInterrupt)] ∧
   outcome r = Raise (SystemExit 0) ∧
   last (events r) = Some (EvPrint goodbye_message)).
Proof.
  split.
  - destruct (main_exit_status Sim.env environ_no_host 3 Sim.world0) as [Habsent _].
    assert (Hhost : environ_no_host !! "DEX_HOST" = None) by (by vm_compute).
    destruct (Habsent (or_intror (or_intror (or_intror Hhost))))
      as (_ & [[Hout Hev]|(msg & Hmsg & _)]).
    + split; [exact Hhost|]. split; [exact Hout|exact Hev].
    + exfalso. vm_compute in Hmsg. discriminate Hmsg.
  - destruct (main_exit_status Sim.env environ_ok 5 interrupted_asleep) as [_ Hint].
    assert (Hs : sleeps (events (main Sim.env environ_ok 5 interrupted_asleep))
                 = [EvSleep 30 (Ok tt); EvSleep 30 (Raise KeyboardInterrupt)])
      by (by vm_compute).
    assert (Hi : interrupts (events (main Sim.env environ_ok 5 interrupted_asleep))
                 = [EvSleep 30 (Raise KeyboardInterrupt)]) by (by vm_compute).
    destruct Hint as (Hout & _ & Hlast).
    + by rewrite Hs.
    + by rewrite Hi.
    + cbv zeta. split; [exact Hs|]. split; [exact Hi|]. split; [exact Hout|exact Hlast].
Defined.

(** C9, counterexample.  A [KeyboardInterrupt] raised by the poll is not caught
    by [process_merge_requests]; raised in the first round of the loop of
    [main], it leaves the cycle and ends the loop (one sleep only, out of the
    five rounds observed). *)
Lemma cycle_exception_counterexample :
  outcome (sim_cycle {[7%Z]} (Sim.set_feed Sim.world0 [Raise KeyboardInterrupt]))
  = Raise KeyboardInterrupt ∧
  (let r := main Sim.env environ_ok 5 interrupted_polling in
   outcome r = Raise (SystemExit 0) ∧
   sleeps (events r) = [EvSleep 30 (Ok tt)] ∧
   interrupts (events r) = [EvMergeRequestsList "opened" true (Raise KeyboardInterrupt)]).
Proof. vm_compute. done. Qed.

(** The snapshot lists merge request 7 twice. *)
Lemma duplicate_entries_repeat_create_witness :
  let r := sim_cycle ∅ (polled [mr7; mr7_again]) in
  outcome (sim_poll (polled [mr7; mr7_again])) = Ok [mr7; mr7_again] ∧
  failures_are_rpc (events r) = true ∧
  ensure_calls (events r) = [mr7; mr7_again] ∧
  ensure_count 7 (events r) = 2 ∧
  ∃ current new_mrs_found,
    outcome r = Ok (current, new_mrs_found) ∧
    7%Z ∈ current ∧
    length (List.filter (λ x, bool_decide (x = 7%Z)) (elements current)) = 1.
Proof.
  assert (Hnew : (7:Z) ∉ (∅ : gset Z)) by apply not_elem_of_empty.
  assert (Hmany : 1 < length (List.filter (λ mr, bool_decide (iid mr = 7%Z))
                            [mr7; mr7_again])) by (vm_compute; lia).
  assert (Hpoll : outcome (sim_poll (polled [mr7; mr7_again])) = Ok [mr7; mr7_again])
    by (by vm_compute).
  assert (Hrpc : failures_are_rpc (events (sim_cycle ∅ (polled [mr7; mr7_again])))
                 = true) by (by vm_compute).
  destruct (duplicate_entries_repeat_create Sim.env "https://gitlab.example.com" "glpat"
              "42" Sim.stub ∅ None (polled [mr7; mr7_again]) [mr7; mr7_again] 7
              Hpoll Hrpc Hnew Hmany) as (Hcount & _ & Hset).
  split; [exact Hpoll|]. split; [exact Hrpc|]. split; [by vm_compute|].
  split; [exact Hcount|exact Hset].
Defined.

(** ** Scenarios of the specification *)

Example scenario_first_sight :
  let r := sim_cycle ∅ (polled [mr7]) in
  outcome r = Ok ({[7%Z]}, true) ∧
  create_requests (events r) = [client7 "token-0"] ∧
  delete_requests (events r) = [].
Proof. by vm_compute. Qed.

Example scenario_closed :
  let r := sim_cycle {[7%Z]} (Sim.set_registry (polled []) [client7 "token-0"]) in
  outcome r = Ok (∅, false) ∧
  create_requests (events r) = [] ∧
  delete_requests (events r) = ["mr-7"] ∧
  Sim.registry (final r) = [].
Proof. by vm_compute. Qed.

Example scenario_still_open :
  let r := sim_cycle {[7%Z]} (Sim.set_registry (polled [mr7]) [client7 "token-0"]) in
  outcome r = Ok ({[7%Z]}, false) ∧
  registry_calls (events r) = [].
Proof. by vm_compute. Qed.

Example scenario_still_running :
  interpreter (outcome (main Sim.env environ_ok 4 (Sim.set_feed Sim.world0 [Ok [mr7]])))
  = Running.
Proof. by vm_compute. Qed.

(** [CHECK_INTERVAL] is read, and parsed, before the required settings are
    checked. *)
Example scenario_bad_interval :
  let environ : gmap string string := {[ "CHECK_INTERVAL" := "soon" ]} in
  let r := main Sim.env environ 3 Sim.world0 in
  events r = [] ∧
  interpreter (outcome r)
  = Exited 1 (Some (ValueError "invalid literal for int() with base 10: 'soon'")).
Proof. by vm_compute. Qed.

(** * Further properties of the script *)

Lemma created_ok_app tr1 tr2 :
  created_ok (tr1 ++ tr2) = created_ok tr1 ++ created_ok tr2.
Proof. apply omap_app. Qed.

Lemma snapshots_app tr1 tr2 :
  snapshots (tr1 ++ tr2) = snapshots tr1 ++ snapshots tr2.
Proof. apply omap_app. Qed.

Lemma tokens_app tr1 tr2 : tokens (tr1 ++ tr2) = tokens tr1 ++ tokens tr2.
Proof. apply omap_app. Qed.

#[export] Hint Rewrite created_ok_app snapshots_app tokens_app : trace.

Lemma some_in_app {A} (l1 l2 : list A) :
  some_in (l1 ++ l2) = some_in l1 || some_in l2.
Proof. by destruct l1. Qed.

Lemma some_in_true {A} (l : list A) : some_in l = true ↔ l ≠ [].
Proof. by destruct l. Qed.

Lemma created_ok_requested tr c : c ∈ created_ok tr → c ∈ create_requests tr.
Proof.
  induction tr as [|ev tr IH]; [done|].
  destruct ev as [| | | | |? ? [|]| | | | | |]; cbn; try done.
  - intros [->|Hin]%elem_of_cons; [by left|]. right. by apply IH.
  - intros Hin. right. by apply IH.
Qed.

Lemma created_ok_none tr : create_requests tr = [] → created_ok tr = [].
Proof.
  intros Hnone. destruct (created_ok tr) as [|c l] eqn:Hc; [done|].
  assert (Hin : c ∈ create_requests tr).
  { apply created_ok_requested. rewrite Hc. by left. }
  rewrite Hnone in Hin. by apply not_elem_of_nil in Hin.
Qed.

Section Operations.
Context (E : Env).
Implicit Types (w : W E) (dex : DexStub) (mr : MR) (tr : list event).
Implicit Types (known cur : gset Z) (url tok pid : string) (cert : option string).

(** X1.  The existence check sends one listing request and nothing else to
    the registry.  When the listing answers, the check says [True] exactly
    when a client of the list has the id asked for, and then hands back a
    client of the list with that id; when the listing fails with an RPC
    error the check says [(False, None)]; any other exception leaves it. *)
Theorem existence_check_answer dex cid w :
  let r := client_with_id_exists E dex cid w in
  let listing := (ListClients E dex w).1 in
  registry_calls (events r) = [EvListClients dex listing] ∧
  (∀ cs, listing = Ok cs →
     ∃ found,
       outcome r = Ok (bool_decide (cid ∈ api_pb2.id <$> cs), found) ∧
       (∀ c, found = Some c → api_pb2.id c = cid ∧ c ∈ cs) ∧
       (found = None ↔ cid ∉ api_pb2.id <$> cs)) ∧
  (∀ e, listing = Raise e →
     outcome r = if is_RpcError e then Ok (false, None) else Raise e).
Proof.
  unfold client_with_id_exists. unfold_monad; cbn.
  destruct (ListClients E dex w) as [[cs|e] w1]; cbn.
  - destruct (find _ cs) as [c|] eqn:Hfind; cbn.
    + split; [done|]. split; [|done]. intros ? [= <-].
      apply find_some in Hfind as [Hin Hid]. apply bool_decide_eq_true_1 in Hid.
      apply list_elem_of_In in Hin.
      exists (Some c). split_and!.
      * rewrite bool_decide_eq_true_2; [done|].
        apply list_elem_of_fmap. by exists c.
      * by intros ? [= <-].
      * split; [done|]. intros Hno. exfalso. apply Hno.
        apply list_elem_of_fmap. by exists c.
    + split; [done|]. split; [|done]. intros ? [= <-].
      assert (Hno : cid ∉ api_pb2.id <$> cs).
      { intros (c & Hid & Hc)%list_elem_of_fmap. apply list_elem_of_In in Hc.
        pose proof (find_none _ _ Hfind c Hc) as Hc'. cbn in Hc'.
        by apply bool_decide_eq_false_1 in Hc'. }
      exists None. split_and!; [by rewrite bool_decide_eq_false_2|done|done].
  - destruct e; cbn; (split; [done|]); (split; [done|]); by intros ? [= <-].
Qed.

(** X2.  A call of [process_and_create_client] draws one token of 32 bytes,
    sends at most one create request and no delete request, and returns
    [True] exactly when the registry accepted a create request. *)
Theorem create_call_result dex mr w :
  let r := process_and_create_client E dex mr w in
  tokens (events r) = [(32, (token_urlsafe E 32 w).1)] ∧
  (length (create_requests (events r)) ≤ 1)%nat ∧
  delete_requests (events r) = [] ∧
  (outcome r = Ok true ↔ created_ok (events r) ≠ []).
Proof.
  unfold process_and_create_client, generate_client_secret, client_with_id_exists.
  unfold_monad; cbn.
  destruct (token_urlsafe E 32 w) as [s w1]; cbn.
  destruct (ListClients E dex w1) as [[cs|e] w2]; cbn;
    [destruct (find _ cs) as [c|]; cbn|destruct e; cbn];
    repeat match goal with
    | |- context [CreateClient E dex ?c ?w'] =>
        destruct (CreateClient E dex c w') as [[resp|e] w3]; cbn;
        [|destruct e; cbn]
    end;
    (split; [done|]); (split; [lia|]); (split; [done|]); split; done.
Qed.

Lemma process_and_create_client_created dex mr w :
  let r := process_and_create_client E dex mr w in
  outcome r = Ok true ↔ created_ok (events r) ≠ [].
Proof.
  unfold process_and_create_client, generate_client_secret, client_with_id_exists.
  unfold_monad; cbn.
  destruct (token_urlsafe E 32 w) as [s w1]; cbn.
  destruct (ListClients E dex w1) as [[cs|e] w2]; cbn;
    [destruct (find _ cs) as [c|]; cbn|destruct e; cbn];
    repeat match goal with
    | |- context [CreateClient E dex ?c ?w'] =>
        destruct (CreateClient E dex c w') as [[resp|e] w3]; cbn;
        [|destruct e; cbn]
    end;
    split; done.
Qed.

(** *** The shape of a cycle *)

Lemma process_merge_requests_body_shape url tok pid dex known cert w :
  let poll := get_open_merge_requests E url tok pid cert w in
  let body := process_merge_requests_body E url tok pid dex known cert w in
  match outcome poll with
  | Raise e => body = MkRun (Raise e) (final poll) (events poll)
  | Ok mrs =>
      let creating := for_mr_in E dex known mrs ∅ false (final poll) in
      match outcome creating with
      | Raise e =>
          body = MkRun (Raise e) (final creating) (events poll ++ events creating)
      | Ok (cur, found) =>
          if bool_decide (known ∖ cur ≠ ∅) then
            let deleting :=
              for_mr_iid_in E dex (iter_order E (known ∖ cur)) (final creating) in
            ∃ line,
              body = MkRun (match outcome deleting with
                            | Ok _ => Ok (cur, found)
                            | Raise e => Raise e
                            end)
                       (final deleting)
                       (events poll ++ events creating ++ [EvPrint line]
                        ++ events deleting)
          else
            body = MkRun (Ok (cur, found)) (final creating)
                     (events poll ++ events creating)
      end
  end.
Proof.
  cbn zeta. unfold process_merge_requests_body.
  unfold_monad; cbn [outcome final events].
  destruct (get_open_merge_requests E url tok pid cert w) as [[mrs|e0] w0 t0];
    cbn [outcome final events]; [|done].
  destruct (for_mr_in E dex known mrs ∅ false w0) as [[[cur found]|e1] w1 t1];
    cbn [outcome final events]; [|done].
  case_bool_decide; cbn [outcome final events].
  - eexists.
    destruct (for_mr_iid_in E dex (iter_order E (known ∖ cur)) w1)
      as [[[]|e2] w2 t2]; cbn [outcome final events];
      by rewrite ?app_nil_r.
  - by rewrite !app_nil_r.
Qed.

Lemma for_mr_in_result dex known mrs : ∀ cur found w s f,
  let r := for_mr_in E dex known mrs cur found w in
  outcome r = Ok (s, f) →
  s = cur ∪ list_to_set (iid <$> mrs) ∧
  f = found || some_in (created_ok (events r)).
Proof.
  induction mrs as [|mr rest IH]; intros cur found w s f; cbn [for_mr_in].
  { cbn. intros [= <- <-]. by rewrite (right_id_L ∅ (∪)), orb_false_r. }
  cbn [fmap list_fmap list_to_set foldr].
  assert (Hset : ∀ x : gset Z,
             cur ∪ {[iid mr]} ∪ x = cur ∪ ({[iid mr]} ∪ x)).
  { intros x. by rewrite (assoc_L (∪)). }
  case_bool_decide.
  - unfold_monad; cbn [outcome final events].
    pose proof (process_and_create_client_created dex mr w) as Hcreated.
    destruct (process_and_create_client E dex mr w) as [[created|e] w1 t1];
      cbn [outcome final events] in *; [|done].
    specialize (IH (cur ∪ {[iid mr]}) (if created then true else found) w1 s f).
    destruct (for_mr_in E dex known rest _ _ w1) as [o w2 t2];
      cbn [outcome final events] in *.
    intros Ho. destruct (IH Ho) as [-> ->]. split; [by rewrite Hset|].
    autorewrite with trace. rewrite !some_in_app. cbn [created_ok omap some_in orb].
    destruct created.
    + assert (Hne : created_ok t1 ≠ []) by by apply Hcreated.
      apply some_in_true in Hne. rewrite Hne. by rewrite orb_true_r.
    + destruct (created_ok t1) as [|c l] eqn:Hc; [done|].
      assert (Ok false = Ok true :> result bool) by by apply Hcreated.
      done.
  - intros Ho. destruct (IH _ _ _ _ _ Ho) as [-> ->]. by rewrite Hset.
Qed.

Lemma for_mr_in_requests dex known mrs : ∀ cur found w c,
  c ∈ create_requests (events (for_mr_in E dex known mrs cur found w)) →
  ∃ mr, mr ∈ mrs ∧ (iid mr ∉ known) ∧ api_pb2.id c = client_id_of (iid mr).
Proof.
  induction mrs as [|mr rest IH]; intros cur found w c; cbn [for_mr_in].
  { cbn. by intros ?%not_elem_of_nil. }
  case_bool_decide as Hnew.
  - unfold_monad; cbn [outcome final events].
    pose proof (process_and_create_client_request E dex mr w c) as Hreq.
    destruct (process_and_create_client E dex mr w) as [[created|e] w1 t1];
      cbn [outcome final events] in *.
    + specialize (IH (cur ∪ {[iid mr]}) (if created then true else found) w1 c).
      destruct (for_mr_in E dex known rest _ _ w1) as [o w2 t2];
        cbn [outcome final events] in *.
      autorewrite with trace. rewrite !elem_of_app.
      intros [Hin|[Hin|Hin]]; [by inversion Hin| |].
      * exists mr. split; [by left|]. split; [done|]. by rewrite (Hreq Hin).
      * destruct (IH Hin) as (mr' & ? & ? & ?). exists mr'. split; [by right|done].
    + autorewrite with trace. rewrite !elem_of_app.
      intros [Hin|Hin]; [by inversion Hin|].
      exists mr. split; [by left|]. split; [done|]. by rewrite (Hreq Hin).
  - intros Hin. destruct (IH _ _ _ _ Hin) as (mr' & ? & ? & ?).
    exists mr'. split; [by right|done].
Qed.

Lemma for_mr_iid_in_requests dex closed : ∀ w cid,
  cid ∈ delete_requests (events (for_mr_iid_in E dex closed w)) →
  cid ∈ client_id_of <$> closed.
Proof.
  induction closed as [|n rest IH]; intros w cid; cbn [for_mr_iid_in]; [done|].
  unfold_monad; cbn [outcome final events].
  pose proof (delete_client_calls E dex (client_id_of n) w) as (_ & _ & Hd & _).
  destruct (delete_client E dex (client_id_of n) w) as [[deleted|e] w1 t1];
    cbn [outcome final events] in *.
  - specialize (IH w1 cid).
    destruct (for_mr_iid_in E dex rest w1) as [o w2 t2];
      cbn [outcome final events] in *.
    autorewrite with trace. rewrite Hd. cbn [fmap list_fmap app].
    intros [->|Hin]%elem_of_cons; [by left|]. right. by apply IH.
  - rewrite Hd. cbn [fmap list_fmap]. intros [->|Hin]%elem_of_cons; [by left|].
    by apply not_elem_of_nil in Hin.
Qed.

Lemma for_mr_in_known dex known mrs : ∀ cur found w,
  (∀ mr, mr ∈ mrs → iid mr ∈ known) →
  for_mr_in E dex known mrs cur found w
  = MkRun (Ok (cur ∪ list_to_set (iid <$> mrs), found)) w [].
Proof.
  induction mrs as [|mr rest IH]; intros cur found w Hknown; cbn [for_mr_in].
  { cbn. by rewrite (right_id_L ∅ (∪)). }
  rewrite bool_decide_eq_false_2 by (intros Hno; apply Hno, Hknown; by left).
  rewrite IH by (intros mr' ?; apply Hknown; by right).
  cbn [fmap list_fmap list_to_set foldr]. by rewrite (assoc_L (∪)).
Qed.

(** The handlers of [process_merge_requests] add no request and no call. *)
Lemma process_merge_requests_requests url tok pid dex known cert w :
  let body := process_merge_requests_body E url tok pid dex known cert w in
  let r := process_merge_requests E url tok pid dex known cert w in
  create_requests (events r) = create_requests (events body) ∧
  delete_requests (events r) = delete_requests (events body) ∧
  created_ok (events r) = created_ok (events body) ∧
  registry_calls (events r) = registry_calls (events body) ∧
  ensure_calls (events r) = ensure_calls (events body) ∧
  remove_calls (events r) = remove_calls (events body) ∧
  snapshots (events r) = snapshots (events body).
Proof.
  cbn zeta.
  destruct (process_merge_requests_events E url tok pid dex known cert w)
    as [->|[line ->]]; [done|].
  autorewrite with trace. cbn. by rewrite !app_nil_r.
Qed.

(** What a cycle that was not cut short returns. *)
Lemma process_merge_requests_body_result url tok pid dex known cert w s f :
  let body := process_merge_requests_body E url tok pid dex known cert w in
  outcome body = Ok (s, f) →
  (∃ mrs, outcome (get_open_merge_requests E url tok pid cert w) = Ok mrs ∧
          s = list_to_set (iid <$> mrs)) ∧
  f = some_in (created_ok (events body)).
Proof.
  cbn zeta.
  pose proof (process_merge_requests_body_shape url tok pid dex known cert w) as Hs.
  cbn zeta in Hs.
  pose proof (get_open_merge_requests_calls E url tok pid cert w)
    as (_ & _ & Hc0 & _).
  destruct (outcome (get_open_merge_requests E url tok pid cert w))
    as [mrs|e0]; [|by rewrite Hs].
  pose proof (for_mr_in_result dex known mrs ∅ false
                (final (get_open_merge_requests E url tok pid cert w))) as Hres.
  cbn zeta in Hres.
  destruct (outcome (for_mr_in E dex known mrs ∅ false _))
    as [[cur found]|e1]; [|by rewrite Hs].
  destruct (Hres cur found eq_refl) as [Hcur Hfound].
  rewrite (left_id_L ∅ (∪)) in Hcur. cbn [orb] in Hfound.
  case_bool_decide.
  - destruct Hs as [line Hs]. rewrite Hs. cbn [outcome events].
    pose proof (for_mr_iid_in_calls E dex (iter_order E (known ∖ cur))
                  (final (for_mr_in E dex known mrs ∅ false
                            (final (get_open_merge_requests E url tok pid cert w)))))
      as (_ & Hc2 & _).
    destruct (outcome (for_mr_iid_in E dex _ _)) as [[]|e2]; [|done].
    intros [= <- <-]. split; [by eauto|].
    autorewrite with trace.
    rewrite (created_ok_none _ Hc0), (created_ok_none _ Hc2). cbn.
    by rewrite app_nil_r.
  - rewrite Hs. cbn [outcome events]. intros [= <- <-]. split; [by eauto|].
    autorewrite with trace. by rewrite (created_ok_none _ Hc0).
Qed.

(** X3.  The flag a cycle returns is [True] only if the registry accepted a
    create request in that cycle; and in a cycle whose failures are RPC
    errors, an accepted create request makes the flag [True]. *)
Theorem new_mrs_found_means_created url tok pid dex known cert w :
  let r := process_merge_requests E url tok pid dex known cert w in
  (∀ s, outcome r = Ok (s, true) → created_ok (events r) ≠ []) ∧
  (failures_are_rpc (events r) = true → created_ok (events r) ≠ [] →
   ∃ s, outcome r = Ok (s, true)).
Proof.
  intros r.
  pose proof (process_merge_requests_unfold E url tok pid dex known cert w) as Hu.
  pose proof (process_merge_requests_requests url tok pid dex known cert w)
    as (_ & _ & Hcr & _).
  pose proof (process_merge_requests_body_result url tok pid dex known cert w) as Hres.
  cbn zeta in Hu, Hcr, Hres. fold r in Hu, Hcr. rewrite Hcr.
  split.
  - intros s Hr.
    destruct (outcome (process_merge_requests_body E url tok pid dex known cert w))
      as [[s' f]|e] eqn:Hb.
    + rewrite Hu, Hb in Hr. injection Hr as -> ->.
      destruct (Hres s true eq_refl) as [_ Hf]. by apply some_in_true.
    + destruct (is_GitlabError e); [by rewrite Hu in Hr|].
      destruct (is_Exception e); [by rewrite Hu in Hr|].
      by rewrite Hu, Hb in Hr.
  - intros Hrpc Hcreated.
    pose proof (process_merge_requests_body_shape url tok pid dex known cert w) as Hs.
    pose proof (get_open_merge_requests_calls E url tok pid cert w)
      as (_ & _ & Hc0 & _).
    cbn zeta in Hs.
    destruct (outcome (get_open_merge_requests E url tok pid cert w))
      as [mrs|e0] eqn:Hpoll.
    2: { exfalso. apply Hcreated. rewrite Hs. cbn [events].
         by apply created_ok_none. }
    destruct (process_merge_requests_returns E url tok pid dex known cert w mrs
                Hpoll Hrpc) as ([found Hok] & _).
    fold r in Hok.
    destruct (outcome (process_merge_requests_body E url tok pid dex known cert w))
      as [[s' f]|e] eqn:Hb.
    + rewrite Hu, Hb in Hok. injection Hok as -> ->.
      destruct (Hres _ found eq_refl) as [_ Hf].
      apply some_in_true in Hcreated. rewrite Hcreated in Hf. subst found.
      exists (list_to_set (iid <$> mrs)). by rewrite Hu, Hb.
    + exfalso.
      destruct (process_merge_requests_body_returns E url tok pid dex known cert w
                  mrs Hpoll) as ([? Hbody] & _); [|by rewrite Hb in Hbody].
      destruct (process_merge_requests_events E url tok pid dex known cert w)
        as [Heq|[line Heq]]; fold r in Heq; rewrite Heq in Hrpc; [done|].
      autorewrite with trace in Hrpc. by apply andb_prop in Hrpc as [? _].
Qed.

(** X4.  Whatever the registry answers, and even when the cycle is cut short,
    a cycle whose poll returned a snapshot sends create requests only for
    entries of the snapshot whose number is not known, and delete requests
    only for known numbers that are not in the snapshot. *)
Theorem cycle_touches_only_the_difference url tok pid dex known cert w mrs :
  let r := process_merge_requests E url tok pid dex known cert w in
  let current : gset Z := list_to_set (iid <$> mrs) in
  outcome (get_open_merge_requests E url tok pid cert w) = Ok mrs →
  (∀ c, c ∈ create_requests (events r) →
        ∃ mr, mr ∈ mrs ∧ (iid mr ∉ known) ∧ api_pb2.id c = client_id_of (iid mr)) ∧
  (∀ cid, cid ∈ delete_requests (events r) →
          ∃ n, n ∈ known ∖ current ∧ cid = client_id_of n).
Proof.
  intros r current Hpoll.
  pose proof (process_merge_requests_requests url tok pid dex known cert w)
    as (Hc & Hd & _).
  cbn zeta in Hc, Hd. fold r in Hc, Hd. rewrite Hc, Hd. clear Hc Hd.
  pose proof (process_merge_requests_body_shape url tok pid dex known cert w) as Hs.
  pose proof (get_open_merge_requests_calls E url tok pid cert w)
    as (_ & _ & Hc0 & Hd0 & _).
  cbn zeta in Hs. rewrite Hpoll in Hs.
  set (w0 := final (get_open_merge_requests E url tok pid cert w)) in *.
  pose proof (for_mr_in_calls E dex known mrs ∅ false w0) as (_ & Hd1 & _).
  pose proof (for_mr_in_requests dex known mrs ∅ false w0) as Hreq1.
  pose proof (for_mr_in_result dex known mrs ∅ false w0) as Hres.
  cbn zeta in Hres.
  destruct (outcome (for_mr_in E dex known mrs ∅ false w0)) as [[cur found]|e1].
  2: { rewrite Hs. cbn [events]. autorewrite with trace. rewrite Hc0, Hd0, Hd1.
       split; [exact Hreq1|]. by intros ? ?%not_elem_of_nil. }
  destruct (Hres cur found eq_refl) as [Hcur _].
  rewrite (left_id_L ∅ (∪)) in Hcur. subst cur. fold current in Hs.
  case_bool_decide.
  - destruct Hs as [line Hs]. rewrite Hs. cbn [events].
    set (w1 := final (for_mr_in E dex known mrs ∅ false w0)) in *.
    pose proof (for_mr_iid_in_calls E dex (iter_order E (known ∖ current)) w1)
      as (_ & Hc2 & _).
    pose proof (for_mr_iid_in_requests dex (iter_order E (known ∖ current)) w1)
      as Hreq2.
    autorewrite with trace. rewrite Hc0, Hd0, Hd1, Hc2. cbn. rewrite app_nil_r.
    split; [exact Hreq1|].
    intros cid Hin. apply Hreq2, list_elem_of_fmap in Hin as (n & -> & Hn).
    exists n. split; [|done]. by apply elem_of_iter_order in Hn.
  - rewrite Hs. cbn [events]. autorewrite with trace. rewrite Hc0, Hd0, Hd1.
    split; [exact Hreq1|]. by intros ? ?%not_elem_of_nil.
Qed.

Lemma failed_poll_leaves_registry_alone_run url tok pid dex known cert w e :
  let r := process_merge_requests E url tok pid dex known cert w in
  outcome (get_open_merge_requests E url tok pid cert w) = Raise e →
  registry_calls (events r) = [] ∧
  outcome r = if is_Exception e then Ok (known, false) else Raise e.
Proof.
  intros r Hpoll.
  pose proof (process_merge_requests_requests url tok pid dex known cert w)
    as (_ & _ & _ & Hreg & _).
  cbn zeta in Hreg. fold r in Hreg. rewrite Hreg.
  pose proof (process_merge_requests_body_shape url tok pid dex known cert w) as Hs.
  pose proof (process_merge_requests_unfold E url tok pid dex known cert w) as Hu.
  pose proof (get_open_merge_requests_calls E url tok pid cert w)
    as (_ & _ & _ & _ & Hreg0 & _).
  cbn zeta in Hs, Hu. rewrite Hpoll in Hs. rewrite Hs in Hu |- *.
  cbn [outcome events final] in *. fold r in Hu.
  split; [done|].
  destruct e; cbn in *; by rewrite Hu.
Qed.

(** X5.  When the poll raises any exception, a GitLab API error or not, the
    cycle sends nothing to the registry and enters neither operation; it
    returns the previous known set with [False] if the exception is an
    [Exception], and lets it through otherwise. *)
Theorem failed_poll_leaves_registry_alone url tok pid dex known cert w e :
  let r := process_merge_requests E url tok pid dex known cert w in
  outcome (get_open_merge_requests E url tok pid cert w) = Raise e →
  registry_calls (events r) = [] ∧
  ensure_calls (events r) = [] ∧ remove_calls (events r) = [] ∧
  outcome r = if is_Exception e then Ok (known, false) else Raise e.
Proof.
  intros r Hpoll.
  pose proof (process_merge_requests_requests url tok pid dex known cert w)
    as (_ & _ & _ & Hreg & Hens & Hrem & _).
  cbn zeta in Hreg, Hens, Hrem. fold r in Hreg, Hens, Hrem.
  rewrite Hreg, Hens, Hrem.
  pose proof (process_merge_requests_body_shape url tok pid dex known cert w) as Hs.
  pose proof (process_merge_requests_unfold E url tok pid dex known cert w) as Hu.
  pose proof (get_open_merge_requests_calls E url tok pid cert w)
    as (He0 & Hr0 & _ & _ & Hreg0 & _).
  cbn zeta in Hs, Hu. rewrite Hpoll in Hs. rewrite Hs in Hu |- *.
  cbn [outcome events final] in *. fold r in Hu.
  split_and!; [done..|].
  destruct e; cbn in *; by rewrite Hu.
Qed.

Lemma steady_state_is_silent_run url tok pid dex known cert w mrs :
  let poll := get_open_merge_requests E url tok pid cert w in
  let r := process_merge_requests E url tok pid dex known cert w in
  outcome poll = Ok mrs →
  list_to_set (iid <$> mrs) = known →
  r = MkRun (Ok (known, false)) (final poll) (events poll) ∧
  registry_calls (events r) = [].
Proof.
  intros poll r Hpoll Hsame.
  assert (Hrun : r = MkRun (Ok (known, false)) (final poll) (events poll)).
  { pose proof (process_merge_requests_body_shape url tok pid dex known cert w) as Hs.
    pose proof (process_merge_requests_unfold E url tok pid dex known cert w) as Hu.
    cbn zeta in Hs, Hu. fold poll r in Hs, Hu. rewrite Hpoll in Hs.
    rewrite for_mr_in_known in Hs.
    2: { intros mr Hmr. rewrite <-Hsame. apply elem_of_list_to_set.
         apply list_elem_of_fmap. by exists mr. }
    cbn [outcome final events] in Hs.
    rewrite (left_id_L ∅ (∪)), Hsame in Hs.
    rewrite bool_decide_eq_false_2 in Hs.
    2: { intros Hne. apply Hne. apply set_eq. intros n.
         rewrite elem_of_difference. split; [tauto|]. by intros ?%not_elem_of_empty. }
    rewrite app_nil_r in Hs. rewrite Hs in Hu. cbn [outcome] in Hu.
    exact Hu. }
  split; [exact Hrun|]. rewrite Hrun. cbn [events].
  by pose proof (get_open_merge_requests_calls E url tok pid cert w)
    as (_ & _ & _ & _ & Hreg0 & _).
Qed.

(** X6.  A cycle whose snapshot holds exactly the known numbers does nothing
    besides the poll: no registry request, no printed line, and the known
    set is returned with [False]. *)
Theorem steady_state_is_silent url tok pid dex known cert w mrs :
  let poll := get_open_merge_requests E url tok pid cert w in
  let r := process_merge_requests E url tok pid dex known cert w in
  outcome poll = Ok mrs →
  list_to_set (iid <$> mrs) = known →
  r = MkRun (Ok (known, false)) (final poll) (events poll) ∧
  registry_calls (events r) = [] ∧ printed (events r) = [].
Proof.
  intros poll r Hpoll Hsame.
  destruct (steady_state_is_silent_run url tok pid dex known cert w mrs Hpoll Hsame)
    as [Hrun Hreg].
  fold poll r in Hrun, Hreg.
  split; [exact Hrun|]. split; [exact Hreg|]. rewrite Hrun. cbn [events].
  subst poll. clear. unfold get_open_merge_requests. unfold_monad.
  destruct (projects_get E _ pid w) as [[p|e] w1]; cbn; [|done].
  by destruct (mergerequests_list E p "opened" true w1) as [[ms|e] w2].
Qed.

(** X7.  A create or delete request that failed is not sent again while the
    snapshot stays the same: after a cycle whose poll succeeded and whose
    failures were RPC errors, the next cycle, polling the same numbers, sends
    nothing to the registry. *)
Theorem failed_request_is_not_retried url tok pid dex known cert w mrs mrs' :
  let first := process_merge_requests E url tok pid dex known cert w in
  let known' : gset Z := list_to_set (iid <$> mrs) in
  let second := process_merge_requests E url tok pid dex known' cert (final first) in
  outcome (get_open_merge_requests E url tok pid cert w) = Ok mrs →
  failures_are_rpc (events first) = true →
  outcome (get_open_merge_requests E url tok pid cert (final first)) = Ok mrs' →
  list_to_set (iid <$> mrs') = known' →
  (∃ found, outcome first = Ok (known', found)) ∧
  registry_calls (events second) = [] ∧
  outcome second = Ok (known', false).
Proof.
  intros first known' second Hpoll Hrpc Hpoll' Hsame.
  destruct (process_merge_requests_returns E url tok pid dex known cert w mrs
              Hpoll Hrpc) as (Hok & _).
  split; [exact Hok|].
  destruct (steady_state_is_silent_run url tok pid dex known' cert (final first) mrs'
              Hpoll' Hsame) as [Hrun Hreg].
  fold second in Hrun, Hreg. split; [exact Hreg|]. by rewrite Hrun.
Qed.

(** X8.  In every cycle the creating comes first: the trace splits into a
    part without any delete call or request, followed by a part without any
    create call or request. *)
Theorem creates_precede_deletes url tok pid dex known cert w :
  let r := process_merge_requests E url tok pid dex known cert w in
  ∃ pre post,
    events r = pre ++ post ∧
    remove_calls pre = [] ∧ delete_requests pre = [] ∧
    ensure_calls post = [] ∧ create_requests post = [].
Proof.
  intros r.
  assert (Hbody : ∃ pre post,
    events (process_merge_requests_body E url tok pid dex known cert w) = pre ++ post ∧
    remove_calls pre = [] ∧ delete_requests pre = [] ∧
    ensure_calls post = [] ∧ create_requests post = []).
  { pose proof (process_merge_requests_body_shape url tok pid dex known cert w) as Hs.
    pose proof (get_open_merge_requests_calls E url tok pid cert w)
      as (_ & Hr0 & _ & Hd0 & _).
    cbn zeta in Hs.
    destruct (outcome (get_open_merge_requests E url tok pid cert w)) as [mrs|e0].
    2: { rewrite Hs. cbn [events]. eexists _, []. by rewrite app_nil_r. }
    set (w0 := final (get_open_merge_requests E url tok pid cert w)) in *.
    pose proof (for_mr_in_calls E dex known mrs ∅ false w0) as (Hr1 & Hd1 & _).
    destruct (outcome (for_mr_in E dex known mrs ∅ false w0)) as [[cur found]|e1].
    2: { rewrite Hs. cbn [events]. eexists _, []. rewrite app_nil_r.
         split; [done|]. autorewrite with trace. by rewrite Hr0, Hr1, Hd0, Hd1. }
    case_bool_decide.
    - destruct Hs as [line Hs]. rewrite Hs. cbn [events].
      set (w1 := final (for_mr_in E dex known mrs ∅ false w0)) in *.
      pose proof (for_mr_iid_in_calls E dex (iter_order E (known ∖ cur)) w1)
        as (He2 & Hc2 & _).
      eexists (_ ++ _), (_ :: _). split; [by rewrite <-app_assoc|].
      autorewrite with trace. rewrite Hr0, Hr1, Hd0, Hd1.
      split_and!; [done|done| |].
      + change (ensure_calls (?ev :: ?t)) with (ensure_calls ([ev] ++ t)).
        autorewrite with trace. by rewrite He2.
      + change (create_requests (?ev :: ?t)) with (create_requests ([ev] ++ t)).
        autorewrite with trace. by rewrite Hc2.
    - rewrite Hs. cbn [events]. eexists _, []. rewrite app_nil_r.
      split; [done|]. autorewrite with trace. by rewrite Hr0, Hr1, Hd0, Hd1. }
  destruct Hbody as (pre & post & Hev & Hr & Hd & He & Hc).
  destruct (process_merge_requests_events E url tok pid dex known cert w)
    as [Heq|[line Heq]]; fold r in Heq; rewrite Heq, Hev.
  - by exists pre, post.
  - exists pre, (post ++ [EvPrint line]). split; [by rewrite app_assoc|].
    autorewrite with trace. by rewrite He, Hc.
Qed.

(** *** Rounds without a snapshot *)

Lemma get_open_merge_requests_snapshot url tok pid cert w :
  let poll := get_open_merge_requests E url tok pid cert w in
  snapshots (events poll)
  = match outcome poll with Ok mrs => [mrs] | Raise _ => [] end.
Proof.
  cbn zeta. unfold get_open_merge_requests. unfold_monad.
  destruct (projects_get E _ pid w) as [[p|e] w1]; cbn; [|done].
  by destruct (mergerequests_list E p "opened" true w1) as [[ms|e] w2].
Qed.

Lemma process_merge_requests_without_snapshot url tok pid dex known cert w :
  let r := process_merge_requests E url tok pid dex known cert w in
  snapshots (events r) = [] →
  registry_calls (events r) = [] ∧ ∀ s f, outcome r = Ok (s, f) → s = known.
Proof.
  intros r Hnone.
  pose proof (process_merge_requests_requests url tok pid dex known cert w)
    as (_ & _ & _ & _ & _ & _ & Hsn).
  pose proof (process_merge_requests_body_shape url tok pid dex known cert w) as Hs.
  pose proof (get_open_merge_requests_snapshot url tok pid cert w) as Hpoll.
  cbn zeta in Hsn, Hs, Hpoll. fold r in Hsn. rewrite Hsn in Hnone.
  destruct (outcome (get_open_merge_requests E url tok pid cert w))
    as [mrs|e0] eqn:Ho.
  - exfalso.
    assert (Hin : mrs ∈ snapshots
              (events (process_merge_requests_body E url tok pid dex known cert w))).
    { destruct (outcome (for_mr_in E dex known mrs ∅ false _)) as [[cur found]|e1];
        [case_bool_decide; [destruct Hs as [line Hs]|]|];
        rewrite Hs; cbn [events]; autorewrite with trace; rewrite Hpoll;
        by left. }
    rewrite Hnone in Hin. by apply not_elem_of_nil in Hin.
  - destruct (failed_poll_leaves_registry_alone_run url tok pid dex known cert w e0 Ho)
      as (Hreg & Hout).
    fold r in Hreg, Hout. split; [exact Hreg|].
    intros s f Hr. rewrite Hout in Hr. destruct (is_Exception e0); [|done].
    by injection Hr as <- <-.
Qed.

(** X9.  As long as no poll returns a snapshot, the rounds of the loop of
    [main] send nothing to the registry and keep the known set as it was. *)
Theorem known_set_waits_for_a_snapshot n secs url tok pid dex known cert w :
  let r := monitoring_loop E n secs url tok pid dex known cert w in
  snapshots (events r) = [] →
  registry_calls (events r) = [] ∧ ∀ known', outcome r = Ok known' → known' = known.
Proof.
  revert known w. induction n as [|n IH]; intros known w; cbn [monitoring_loop].
  { cbn. intros _. split; [done|]. by intros ? [= <-]. }
  unfold_monad; cbn [outcome final events].
  destruct (sleep E secs w) as [[[]|e] w1]; cbn [outcome final events]; [|done].
  destruct (strftime E "%Y-%m-%d %H:%M:%S" w1) as [now w2];
    cbn [outcome final events].
  pose proof (process_merge_requests_without_snapshot url tok pid dex known cert w2)
    as Hcycle. cbn zeta in Hcycle.
  destruct (process_merge_requests E url tok pid dex known cert w2)
    as [[[known1 new_mrs]|e] w3 t3]; cbn [outcome final events] in *.
  2: { autorewrite with trace. cbn. intros Hnone.
       destruct (Hcycle Hnone) as [-> _]. done. }
  assert (Hround : ∀ w4 t4,
    let r := monitoring_loop E n secs url tok pid dex known1 cert w4 in
    snapshots ([EvSleep secs (Ok ())] ++ [EvStrftime "%Y-%m-%d %H:%M:%S" now] ++
               [EvPrint (nl +:+ "[" +:+ now +:+ "] Checking for new MRs...")] ++
               t3 ++ t4 ++ events r) = [] →
    snapshots t4 = [] → registry_calls t4 = [] →
    registry_calls ([EvSleep secs (Ok ())] ++ [EvStrftime "%Y-%m-%d %H:%M:%S" now] ++
               [EvPrint (nl +:+ "[" +:+ now +:+ "] Checking for new MRs...")] ++
               t3 ++ t4 ++ events r) = [] ∧
    ∀ known', outcome r = Ok known' → known' = known).
  { intros w4 t4. cbn zeta. autorewrite with trace. cbn. intros Hnone Hs4 Hr4.
    rewrite Hs4 in Hnone. cbn in Hnone.
    apply app_eq_nil in Hnone as [Hn3 Hn].
    destruct (Hcycle Hn3) as [-> Hknown].
    assert (known1 = known) as -> by by eapply Hknown.
    destruct (IH known w4 Hn) as [Hreg Hout].
    by rewrite Hr4, Hreg. }
  destruct new_mrs; cbn [negb outcome final events].
  - specialize (Hround w3 []).
    destruct (monitoring_loop E n secs url tok pid dex known1 cert w3)
      as [o w5 t5]; cbn [outcome final events app] in *.
    intros Hnone. by apply Hround.
  - match goal with
    | |- context [EvPrint ?line :: []] => specialize (Hround w3 [EvPrint line])
    end.
    destruct (monitoring_loop E n secs url tok pid dex known1 cert w3)
      as [o w5 t5]; cbn [outcome final events] in *.
    intros Hnone. by apply Hround.
Qed.

(** *** Where the requests go *)

Ltac addressed :=
  repeat first [apply Forall_nil_2 | apply Forall_cons_2; [by cbn|]].

Lemma process_and_create_client_addressed gl pid dex path mr w :
  Forall (addressed_to gl pid dex path) (events (process_and_create_client E dex mr w)).
Proof.
  unfold process_and_create_client, generate_client_secret, client_with_id_exists.
  unfold_monad; cbn.
  destruct (token_urlsafe E 32 w) as [s w1]; cbn.
  destruct (ListClients E dex w1) as [[cs|e] w2]; cbn;
    [destruct (find _ cs) as [c|]; cbn|destruct e; cbn];
    repeat match goal with
    | |- context [CreateClient E dex ?c ?w'] =>
        destruct (CreateClient E dex c w') as [[resp|e] w3]; cbn;
        [|destruct e; cbn]
    end;
    addressed.
Qed.

Lemma delete_client_addressed gl pid dex path cid w :
  Forall (addressed_to gl pid dex path) (events (delete_client E dex cid w)).
Proof.
  unfold delete_client. unfold_monad; cbn.
  destruct (DeleteClient E dex cid w) as [[[]|e] w1]; cbn; [|destruct e; cbn];
    addressed.
Qed.

Lemma for_mr_in_addressed gl pid dex path known mrs : ∀ cur found w,
  Forall (addressed_to gl pid dex path) (events (for_mr_in E dex known mrs cur found w)).
Proof.
  induction mrs as [|mr rest IH]; intros cur found w; cbn [for_mr_in];
    [by constructor|].
  case_bool_decide; [|apply IH].
  unfold_monad; cbn [outcome final events].
  pose proof (process_and_create_client_addressed gl pid dex path mr w) as Hp.
  destruct (process_and_create_client E dex mr w) as [[created|e] w1 t1];
    cbn [outcome final events] in *.
  - specialize (IH (cur ∪ {[iid mr]}) (if created then true else found) w1).
    destruct (for_mr_in E dex known rest _ _ w1) as [o w2 t2];
      cbn [outcome final events] in *.
    apply Forall_cons_2; [done|]. by apply Forall_app_2.
  - by apply Forall_cons_2.
Qed.

Lemma for_mr_iid_in_addressed gl pid dex path closed : ∀ w,
  Forall (addressed_to gl pid dex path) (events (for_mr_iid_in E dex closed w)).
Proof.
  induction closed as [|n rest IH]; intros w; cbn [for_mr_iid_in];
    [by constructor|].
  unfold_monad; cbn [outcome final events].
  pose proof (delete_client_addressed gl pid dex path (client_id_of n) w) as Hd.
  destruct (delete_client E dex (client_id_of n) w) as [[deleted|e] w1 t1];
    cbn [outcome final events] in *; [|done].
  specialize (IH w1).
  destruct (for_mr_iid_in E dex rest w1) as [o w2 t2];
    cbn [outcome final events] in *.
  by apply Forall_app_2.
Qed.

Lemma get_open_merge_requests_addressed url tok pid cert dex path w :
  let gl := {| gl_url := url; private_token := tok;
               ssl_verify := if truthy cert then cert else None |} in
  Forall (addressed_to gl pid dex path)
    (events (get_open_merge_requests E url tok pid cert w)).
Proof.
  cbn zeta. unfold get_open_merge_requests. unfold_monad.
  destruct (truthy cert);
    (destruct (projects_get E _ pid w) as [[p|e] w1]; cbn;
     [destruct (mergerequests_list E p "opened" true w1) as [[ms|e] w2]; cbn|]);
    addressed.
Qed.

Lemma process_merge_requests_addressed url tok pid cert dex path known w :
  let gl := {| gl_url := url; private_token := tok;
               ssl_verify := if truthy cert then cert else None |} in
  Forall (addressed_to gl pid dex path)
    (events (process_merge_requests E url tok pid dex known cert w)).
Proof.
  intros gl.
  assert (Hbody : Forall (addressed_to gl pid dex path)
            (events (process_merge_requests_body E url tok pid dex known cert w))).
  { pose proof (process_merge_requests_body_shape url tok pid dex known cert w) as Hs.
    pose proof (get_open_merge_requests_addressed url tok pid cert dex path w) as H0.
    cbn zeta in Hs, H0. fold gl in H0.
    destruct (outcome (get_open_merge_requests E url tok pid cert w)) as [mrs|e0];
      [|by rewrite Hs].
    set (w0 := final (get_open_merge_requests E url tok pid cert w)) in *.
    pose proof (for_mr_in_addressed gl pid dex path known mrs ∅ false w0) as H1.
    destruct (outcome (for_mr_in E dex known mrs ∅ false w0)) as [[cur found]|e1].
    2: { rewrite Hs. by apply Forall_app_2. }
    case_bool_decide.
    - destruct Hs as [line Hs]. rewrite Hs. cbn [events].
      repeat apply Forall_app_2; try done; [by addressed|].
      apply for_mr_iid_in_addressed.
    - rewrite Hs. by apply Forall_app_2. }
  destruct (process_merge_requests_events E url tok pid dex known cert w)
    as [->|[line ->]]; [done|].
  apply Forall_app_2; [done|]. addressed.
Qed.

Lemma monitoring_loop_addressed n secs url tok pid cert dex path : ∀ known w,
  let gl := {| gl_url := url; private_token := tok;
               ssl_verify := if truthy cert then cert else None |} in
  Forall (addressed_to gl pid dex path)
    (events (monitoring_loop E n secs url tok pid dex known cert w)).
Proof.
  intros known w gl. revert known w.
  induction n as [|n IH]; intros known w; cbn [monitoring_loop]; [by constructor|].
  unfold_monad; cbn [outcome final events].
  destruct (sleep E secs w) as [[[]|e] w1]; cbn [outcome final events];
    [|by addressed].
  destruct (strftime E "%Y-%m-%d %H:%M:%S" w1) as [now w2];
    cbn [outcome final events].
  pose proof (process_merge_requests_addressed url tok pid cert dex path known w2)
    as Hc. cbn zeta in Hc. fold gl in Hc.
  destruct (process_merge_requests E url tok pid dex known cert w2)
    as [[[known1 new_mrs]|e] w3 t3]; cbn [outcome final events] in *.
  2: { repeat (apply Forall_cons_2; [by cbn|]). done. }
  specialize (IH known1 w3).
  destruct new_mrs; cbn [negb outcome final events];
    destruct (monitoring_loop E n secs url tok pid dex known1 cert w3)
      as [o w4 t4]; cbn [outcome final events] in *;
    repeat (apply Forall_cons_2; [by cbn|]);
    repeat apply Forall_app_2; try done; by addressed.
Qed.


(** *** The latest snapshot *)

Lemma process_and_create_client_snapshots dex mr w :
  snapshots (events (process_and_create_client E dex mr w)) = [].
Proof.
  unfold process_and_create_client, generate_client_secret, client_with_id_exists.
  unfold_monad; cbn.
  destruct (token_urlsafe E 32 w) as [s w1]; cbn.
  destruct (ListClients E dex w1) as [[cs|e] w2]; cbn;
    [destruct (find _ cs) as [c|]; cbn|destruct e; cbn];
    repeat match goal with
    | |- context [CreateClient E dex ?c ?w'] =>
        destruct (CreateClient E dex c w') as [[resp|e] w3]; cbn;
        [|destruct e; cbn]
    end;
    done.
Qed.

Lemma for_mr_in_snapshots dex known mrs : ∀ cur found w,
  snapshots (events (for_mr_in E dex known mrs cur found w)) = [].
Proof.
  induction mrs as [|mr rest IH]; intros cur found w; cbn [for_mr_in]; [done|].
  case_bool_decide; [|apply IH].
  unfold_monad; cbn [outcome final events].
  pose proof (process_and_create_client_snapshots dex mr w) as Hp.
  destruct (process_and_create_client E dex mr w) as [[created|e] w1 t1];
    cbn [outcome final events] in *.
  - specialize (IH (cur ∪ {[iid mr]}) (if created then true else found) w1).
    destruct (for_mr_in E dex known rest _ _ w1) as [o w2 t2];
      cbn [outcome final events] in *.
    autorewrite with trace. by rewrite Hp, IH.
  - autorewrite with trace. by rewrite Hp.
Qed.

Lemma for_mr_iid_in_snapshots dex closed : ∀ w,
  snapshots (events (for_mr_iid_in E dex closed w)) = [].
Proof.
  induction closed as [|n rest IH]; intros w; cbn [for_mr_iid_in]; [done|].
  unfold_monad; cbn [outcome final events].
  assert (Hd : snapshots (events (delete_client E dex (client_id_of n) w)) = []).
  { unfold delete_client. unfold_monad; cbn.
    destruct (DeleteClient E dex (client_id_of n) w) as [[[]|e] w1]; cbn; [done|].
    by destruct e. }
  destruct (delete_client E dex (client_id_of n) w) as [[deleted|e] w1 t1];
    cbn [outcome final events] in *; [|done].
  specialize (IH w1).
  destruct (for_mr_iid_in E dex rest w1) as [o w2 t2];
    cbn [outcome final events] in *.
  autorewrite with trace. by rewrite Hd, IH.
Qed.

(** A cycle receives at most one snapshot: the one of its poll. *)
Lemma process_merge_requests_snapshots url tok pid dex known cert w :
  snapshots (events (process_merge_requests E url tok pid dex known cert w))
  = match outcome (get_open_merge_requests E url tok pid cert w) with
    | Ok mrs => [mrs]
    | Raise _ => []
    end.
Proof.
  pose proof (process_merge_requests_requests url tok pid dex known cert w)
    as (_ & _ & _ & _ & _ & _ & ->).
  pose proof (process_merge_requests_body_shape url tok pid dex known cert w) as Hs.
  pose proof (get_open_merge_requests_snapshot url tok pid cert w) as Hpoll.
  cbn zeta in Hs, Hpoll.
  destruct (outcome (get_open_merge_requests E url tok pid cert w)) as [mrs|e0];
    [|by rewrite Hs].
  set (w0 := final (get_open_merge_requests E url tok pid cert w)) in *.
  pose proof (for_mr_in_snapshots dex known mrs ∅ false w0) as H1.
  destruct (outcome (for_mr_in E dex known mrs ∅ false w0)) as [[cur found]|e1].
  2: { rewrite Hs. cbn [events]. autorewrite with trace. by rewrite Hpoll, H1. }
  case_bool_decide.
  - destruct Hs as [line Hs]. rewrite Hs. cbn [events]. autorewrite with trace.
    by rewrite Hpoll, H1, for_mr_iid_in_snapshots.
  - rewrite Hs. cbn [events]. autorewrite with trace. by rewrite Hpoll, H1.
Qed.

(** X16.  After any number of rounds of the loop of [main] in which every
    failure was an RPC error, the known set is the set of the numbers of the
    latest snapshot received, or the set the rounds started from if none was
    received. *)
Theorem known_set_is_the_latest_snapshot n secs url tok pid dex known cert w :
  let r := monitoring_loop E n secs url tok pid dex known cert w in
  failures_are_rpc (events r) = true →
  ∀ known', outcome r = Ok known' →
    known' = match last (snapshots (events r)) with
             | Some mrs => list_to_set (iid <$> mrs)
             | None => known
             end.
Proof.
  revert known w. induction n as [|n IH]; intros known w; cbn [monitoring_loop].
  { cbn. by intros _ ? [= <-]. }
  unfold_monad; cbn [outcome final events].
  destruct (sleep E secs w) as [[[]|e] w1]; cbn [outcome final events]; [|done].
  destruct (strftime E "%Y-%m-%d %H:%M:%S" w1) as [now w2];
    cbn [outcome final events].
  pose proof (process_merge_requests_snapshots url tok pid dex known cert w2) as Hsn.
  pose proof (process_merge_requests_returns E url tok pid dex known cert w2) as Hret.
  pose proof (failed_poll_leaves_registry_alone_run url tok pid dex known cert w2)
    as Hfail.
  cbn zeta in Hret, Hfail.
  destruct (process_merge_requests E url tok pid dex known cert w2)
    as [[[known1 new_mrs]|e] w3 t3]; cbn [outcome final events] in *; [|done].
  assert (Hknown1 : failures_are_rpc t3 = true →
            known1 = match last (snapshots t3) with
                     | Some mrs => list_to_set (iid <$> mrs)
                     | None => known
                     end).
  { intros Hrpc. rewrite Hsn.
    destruct (outcome (get_open_merge_requests E url tok pid cert w2))
      as [mrs|e0].
    - destruct (Hret mrs eq_refl Hrpc) as ([found [= -> ->]] & _). reflexivity.
    - destruct (Hfail e0 eq_refl) as [_ Hout].
      destruct (is_Exception e0); [|done]. injection Hout as -> ->. reflexivity. }
  assert (Hround : ∀ w4 t4,
    let r := monitoring_loop E n secs url tok pid dex known1 cert w4 in
    snapshots t4 = [] →
    failures_are_rpc ([EvSleep secs (Ok ())] ++ [EvStrftime "%Y-%m-%d %H:%M:%S" now] ++
               [EvPrint (nl +:+ "[" +:+ now +:+ "] Checking for new MRs...")] ++
               t3 ++ t4 ++ events r) = true →
    ∀ known', outcome r = Ok known' →
      known' = match last (snapshots
                 ([EvSleep secs (Ok ())] ++ [EvStrftime "%Y-%m-%d %H:%M:%S" now] ++
                  [EvPrint (nl +:+ "[" +:+ now +:+ "] Checking for new MRs...")] ++
                  t3 ++ t4 ++ events r)) with
               | Some mrs => list_to_set (iid <$> mrs)
               | None => known
               end).
  { intros w4 t4. cbn zeta. autorewrite with trace. intros Hs4.
    rewrite !andb_true_iff. intros (_ & _ & _ & Hrpc3 & _ & Hrpc) known' Hout.
    rewrite Hs4.
    change (snapshots [EvSleep secs (Ok ())]) with (@nil (list MR)).
    change (snapshots [EvStrftime "%Y-%m-%d %H:%M:%S" now]) with (@nil (list MR)).
    change (snapshots [EvPrint (nl +:+ "[" +:+ now +:+ "] Checking for new MRs...")])
      with (@nil (list MR)).
    cbn [app]. rewrite last_app.
    rewrite (IH known1 w4 Hrpc known' Hout).
    destruct (last (snapshots (events (monitoring_loop E n secs url tok pid dex
                                         known1 cert w4)))); [done|].
    by apply Hknown1. }
  destruct new_mrs; cbn [negb outcome final events].
  - specialize (Hround w3 []).
    destruct (monitoring_loop E n secs url tok pid dex known1 cert w3)
      as [o w5 t5]; cbn [outcome final events app] in *.
    by apply Hround.
  - match goal with
    | |- context [EvPrint ?line :: []] => specialize (Hround w3 [EvPrint line])
    end.
    destruct (monitoring_loop E n secs url tok pid dex known1 cert w3)
      as [o w5 t5]; cbn [outcome final events] in *.
    by apply Hround.
Qed.

End Operations.

Section Main.
Context (E : Env).
Implicit Types (w : W E) (environ : gmap string string).

(** *** The shape of [main] *)

Lemma main_shape environ n w secs :
  int_of_str E (default "30" (environ !! "CHECK_INTERVAL")) = inr secs →
  forallb truthy [environ !! "GITLAB_TOKEN"; environ !! "GITLAB_URL";
                  environ !! "GITLAB_PROJECT_ID"; environ !! "DEX_HOST"] = true →
  let url := the_str (environ !! "GITLAB_URL") in
  let tok := the_str (environ !! "GITLAB_TOKEN") in
  let pid := the_str (environ !! "GITLAB_PROJECT_ID") in
  let cert := environ !! "GITLAB_CERT_PATH" in
  let setup := setup_dex_client E (the_str (environ !! "DEX_HOST"))
                 (environ !! "DEX_CERT_PATH") w in
  let r := main E environ n w in
  match outcome setup with
  | Raise e => r = MkRun (Raise e) (final setup) (main_banner environ secs ++ events setup)
  | Ok dex =>
      let first := process_merge_requests E url tok pid dex ∅ cert (final setup) in
      match outcome first with
      | Raise e =>
          r = MkRun (Raise e) (final first)
                (main_banner environ secs ++ events setup
                 ++ [EvPrint "Performing initial check..."] ++ events first)
      | Ok (known, _) =>
          let loop := monitoring_loop E n secs url tok pid dex known cert
                        (final first) in
          r = MkRun (match outcome loop with
                     | Raise KeyboardInterrupt => Raise (SystemExit 0)
                     | o => o
                     end)
                (final loop)
                (main_banner environ secs ++ events setup
                 ++ [EvPrint "Performing initial check..."] ++ events first
                 ++ [EvPrint (nl +:+ "Monitoring " +:+ pretty (size known)
                              +:+ " open MR(s)")]
                 ++ events loop
                 ++ match outcome loop with
                    | Raise KeyboardInterrupt => [EvPrint goodbye_message]
                    | _ => []
                    end)
      end
  end.
Proof.
  intros Hint Hall. cbn zeta. unfold main, main_banner. rewrite Hint, Hall.
  cbn [negb]. unfold_monad; cbn [outcome final events].
  destruct (truthy (environ !! "GITLAB_CERT_PATH")),
           (truthy (environ !! "DEX_CERT_PATH"));
    cbn [outcome final events];
    (destruct (setup_dex_client E _ (environ !! "DEX_CERT_PATH") w)
       as [[dex|e] w1 t1]; cbn [outcome final events]; [|done]);
    (destruct (process_merge_requests E _ _ _ dex ∅ _ w1)
       as [[[known found]|e] w2 t2]; cbn [outcome final events]; [|done]);
    (destruct (monitoring_loop E n secs _ _ _ dex known _ w2)
       as [[known'|e] w3 t3]; cbn [outcome final events];
     [by rewrite !app_nil_r|]);
    destruct e; cbn [outcome final events]; by rewrite ?app_nil_r.
Qed.

Lemma main_banner_quiet environ secs :
  sleeps (main_banner environ secs) = [] ∧
  interrupts (main_banner environ secs) = [] ∧
  registry_calls (main_banner environ secs) = [] ∧
  snapshots (main_banner environ secs) = [].
Proof.
  unfold main_banner.
  by destruct (truthy (environ !! "GITLAB_CERT_PATH")),
              (truthy (environ !! "DEX_CERT_PATH")).
Qed.

Lemma main_config_error environ n w secs :
  int_of_str E (default "30" (environ !! "CHECK_INTERVAL")) = inr secs →
  forallb truthy [environ !! "GITLAB_TOKEN"; environ !! "GITLAB_URL";
                  environ !! "GITLAB_PROJECT_ID"; environ !! "DEX_HOST"] = false →
  main E environ n w = MkRun (Raise (SystemExit 1)) w [EvPrint config_error_message].
Proof.
  intros Hint Hall. unfold main. rewrite Hint, Hall. by unfold_monad.
Qed.

Lemma main_bad_interval environ n w msg :
  int_of_str E (default "30" (environ !! "CHECK_INTERVAL")) = inl msg →
  main E environ n w = MkRun (Raise (ValueError msg)) w [].
Proof. intros Hint. unfold main. rewrite Hint. by unfold_monad. Qed.

Lemma truthy_false (o : option string) :
  truthy o = false ↔ o = None ∨ o = Some "".
Proof.
  destruct o as [s|]; cbn; [|by split; [left|]].
  case_bool_decide as Hs; cbn.
  - subst s. by split; [right|].
  - split; [done|]. by intros [|[= ->]].
Qed.

Lemma required_settings_check environ :
  forallb truthy [environ !! "GITLAB_TOKEN"; environ !! "GITLAB_URL";
                  environ !! "GITLAB_PROJECT_ID"; environ !! "DEX_HOST"] = false
  ↔ ∃ k, k ∈ required_settings ∧ (environ !! k = None ∨ environ !! k = Some "").
Proof.
  unfold required_settings. cbn [forallb]. split.
  - intros Hall.
    destruct (truthy (environ !! "GITLAB_TOKEN")) eqn:H1;
      [|exists "GITLAB_TOKEN"; split; [set_solver|by apply truthy_false]].
    destruct (truthy (environ !! "GITLAB_URL")) eqn:H2;
      [|exists "GITLAB_URL"; split; [set_solver|by apply truthy_false]].
    destruct (truthy (environ !! "GITLAB_PROJECT_ID")) eqn:H3;
      [|exists "GITLAB_PROJECT_ID"; split; [set_solver|by apply truthy_false]].
    destruct (truthy (environ !! "DEX_HOST")) eqn:H4;
      [done|exists "DEX_HOST"; split; [set_solver|by apply truthy_false]].
  - intros (k & Hk & Hfalsy). apply truthy_false in Hfalsy.
    repeat (apply elem_of_cons in Hk as [->|Hk];
            [rewrite Hfalsy; cbn; by rewrite ?andb_false_r|]).
    by apply not_elem_of_nil in Hk.
Qed.

(** X10.  Provided [CHECK_INTERVAL] is unset or an integer literal, [main]
    stops with its configuration error (that single line, then status 1,
    nothing requested) exactly when one of the four required settings is
    unset or set to the empty string. *)
Theorem config_error_exactly_when_setting_is_empty environ n w secs :
  int_of_str E (default "30" (environ !! "CHECK_INTERVAL")) = inr secs →
  let r := main E environ n w in
  (events r = [EvPrint config_error_message] ∧ outcome r = Raise (SystemExit 1))
  ↔ ∃ k, k ∈ required_settings ∧ (environ !! k = None ∨ environ !! k = Some "").
Proof.
  intros Hint r. rewrite <-required_settings_check. subst r.
  destruct (forallb truthy _) eqn:Hall.
  - split; [|done]. intros [Hev _]. exfalso.
    pose proof (main_shape environ n w secs Hint Hall) as Hs. cbn zeta in Hs.
    assert (Hfirst : ∃ tail, events (main E environ n w)
              = EvPrint ("Starting MR monitor for project: "
                         +:+ the_str (environ !! "GITLAB_PROJECT_ID")) :: tail).
    { destruct (outcome (setup_dex_client E _ _ w)) as [dex|e];
        [destruct (outcome (process_merge_requests E _ _ _ dex ∅ _ _))
           as [[known found]|e]|];
        rewrite Hs; cbn [events]; unfold main_banner; cbn [app]; eauto. }
    destruct Hfirst as [tail Hfirst]. rewrite Hfirst in Hev.
    injection Hev as Hline _. unfold config_error_message in Hline.
    cbn in Hline. discriminate Hline.
  - split; [done|]. intros _. by rewrite (main_config_error environ n w secs).
Qed.

Lemma monitoring_loop_asleep n secs url tok pid dex known cert w :
  let r := monitoring_loop E n secs url tok pid dex known cert w in
  sleeps (events r) = [] → r = MkRun (Ok known) w [].
Proof.
  destruct n as [|n]; cbn [monitoring_loop]; [done|].
  unfold_monad; cbn [outcome final events].
  destruct (sleep E secs w) as [[[]|e] w1]; cbn [outcome final events]; [|done].
  destruct (strftime E "%Y-%m-%d %H:%M:%S" w1) as [now w2];
    cbn [outcome final events].
  destruct (process_merge_requests E url tok pid dex known cert w2)
    as [[[known1 new_mrs]|e] w3 t3]; cbn [outcome final events]; [|done].
  destruct new_mrs; cbn [negb outcome final events];
    by destruct (monitoring_loop E n secs url tok pid dex known1 cert w3).
Qed.

(** X11.  A [KeyboardInterrupt] raised before the loop is entered, while the
    Dex certificate is read or during the initial check, is not handled: it
    leaves [main], and the process does not end with a status of its own. *)
Theorem interrupt_before_loop_is_unhandled environ n w :
  let r := main E environ n w in
  sleeps (events r) = [] → interrupts (events r) ≠ [] →
  outcome r = Raise KeyboardInterrupt ∧
  interpreter (outcome r) = Interrupted ∧
  exit_status (interpreter (outcome r)) = None.
Proof.
  intros r Hasleep Hint.
  assert (Hout : outcome r = Raise KeyboardInterrupt); [|by rewrite Hout].
  subst r.
  destruct (int_of_str E (default "30" (environ !! "CHECK_INTERVAL")))
    as [msg|secs] eqn:Hparse.
  { by rewrite (main_bad_interval environ n w msg) in Hint. }
  destruct (forallb truthy [environ !! "GITLAB_TOKEN"; environ !! "GITLAB_URL";
                            environ !! "GITLAB_PROJECT_ID"; environ !! "DEX_HOST"])
    eqn:Hall.
  2: { by rewrite (main_config_error environ n w secs) in Hint. }
  pose proof (main_shape environ n w secs Hparse Hall) as Hs. cbn zeta in Hs.
  pose proof (main_banner_quiet environ secs) as (Hbs & Hbi & _).
  pose proof (setup_dex_client_quiet E (the_str (environ !! "DEX_HOST"))
                (environ !! "DEX_CERT_PATH") w) as [Hs1 Hi1].
  unfold interrupt_leaves in Hi1.
  destruct (outcome (setup_dex_client E _ _ w)) as [dex|e1].
  2: { rewrite Hs in Hint |- *. cbn [outcome events] in *.
       autorewrite with trace in Hint. rewrite Hbi in Hint.
       destruct Hi1 as [Hi1|[= ->]]; [by rewrite Hi1 in Hint|done]. }
  destruct Hi1 as [Hi1|?]; [|done].
  match type of Hs with
  | context [process_merge_requests E ?u ?t ?p dex ∅ ?c ?w1] =>
      pose proof (process_merge_requests_quiet E u t p dex ∅ c w1) as [Hs2 Hi2];
      unfold interrupt_leaves in Hi2;
      destruct (outcome (process_merge_requests E u t p dex ∅ c w1))
        as [[known found]|e2]
  end.
  2: { rewrite Hs in Hint |- *. cbn [outcome events] in *.
       autorewrite with trace in Hint. rewrite Hbi, Hi1 in Hint.
       destruct Hi2 as [Hi2|[= ->]]; [by rewrite Hi2 in Hint|done]. }
  destruct Hi2 as [Hi2|?]; [|done].
  exfalso. rewrite Hs in Hasleep, Hint. cbn [events] in *.
  autorewrite with trace in Hasleep, Hint.
  rewrite Hbs, Hs1, Hs2 in Hasleep. rewrite Hbi, Hi1, Hi2 in Hint.
  cbn in Hasleep, Hint.
  apply app_eq_nil in Hasleep as [Hloop _].
  apply monitoring_loop_asleep in Hloop. rewrite Hloop in Hint. by cbn in Hint.
Qed.

(** X12.  With a complete configuration and a Dex certificate configured,
    when the certificate file cannot be read [main] stops right there: the
    exception of the read leaves it, and nothing was requested from GitLab
    or the registry. *)
Theorem unreadable_dex_certificate_stops_main environ n w secs e :
  let path := the_str (environ !! "DEX_CERT_PATH") in
  let r := main E environ n w in
  int_of_str E (default "30" (environ !! "CHECK_INTERVAL")) = inr secs →
  (∀ k, k ∈ required_settings → truthy (environ !! k) = true) →
  truthy (environ !! "DEX_CERT_PATH") = true →
  (open_read E path w).1 = Raise e →
  outcome r = Raise e ∧
  events r = main_banner environ secs ++ [EvOpenRead path (Raise e)] ∧
  (is_Exception e = true →
   interpreter (outcome r) = Exited 1 (Some e)).
Proof.
  intros path r Hint Hreq Hcert Hread.
  assert (Hall : forallb truthy [environ !! "GITLAB_TOKEN"; environ !! "GITLAB_URL";
                   environ !! "GITLAB_PROJECT_ID"; environ !! "DEX_HOST"] = true).
  { cbn [forallb]. unfold required_settings in Hreq.
    rewrite !Hreq; [done|set_solver..]. }
  pose proof (main_shape environ n w secs Hint Hall) as Hs. cbn zeta in Hs.
  fold r in Hs. unfold setup_dex_client in Hs. rewrite Hcert in Hs.
  unfold_monad. fold path in Hs.
  destruct (open_read E path w) as [o w1]. cbn in Hread. subst o.
  cbn [outcome final events] in Hs. rewrite Hs. cbn [outcome events].
  split; [done|]. split; [done|]. by destruct e.
Qed.

Lemma monitoring_loop_sleeps n secs url tok pid dex cert : ∀ known w,
  let r := monitoring_loop E n secs url tok pid dex known cert w in
  Forall (λ ev, ∃ ans, ev = EvSleep secs ans) (sleeps (events r)) ∧
  (length (sleeps (events r)) ≤ n)%nat.
Proof.
  induction n as [|n IH]; intros known w; cbn [monitoring_loop].
  { cbn. split; [constructor|lia]. }
  unfold_monad; cbn [outcome final events].
  destruct (sleep E secs w) as [[[]|e] w1]; cbn [outcome final events].
  2: { cbn. split; [|lia]. constructor; [by eexists|constructor]. }
  destruct (strftime E "%Y-%m-%d %H:%M:%S" w1) as [now w2];
    cbn [outcome final events].
  pose proof (process_merge_requests_quiet E url tok pid dex known cert w2)
    as [Hs3 _].
  destruct (process_merge_requests E url tok pid dex known cert w2)
    as [[[known1 new_mrs]|e] w3 t3]; cbn [outcome final events] in *.
  2: { autorewrite with trace. rewrite Hs3. cbn. split; [|lia].
       constructor; [by eexists|constructor]. }
  specialize (IH known1 w3).
  destruct new_mrs; cbn [negb outcome final events];
    destruct (monitoring_loop E n secs url tok pid dex known1 cert w3)
      as [o w4 t4]; cbn [outcome final events] in *;
    destruct IH as [IH1 IH2];
    autorewrite with trace; rewrite Hs3; cbn; (split; [|lia]);
    (constructor; [by eexists|done]).
Qed.

(** X13.  Every sleep of [main] lasts the number of seconds [CHECK_INTERVAL]
    parses to (the literal ["30"] when it is unset), and [n] rounds of the
    loop sleep at most [n] times. *)
Theorem sleeps_last_the_check_interval environ n w secs :
  let r := main E environ n w in
  int_of_str E (default "30" (environ !! "CHECK_INTERVAL")) = inr secs →
  Forall (λ ev, ∃ ans, ev = EvSleep secs ans) (sleeps (events r)) ∧
  (length (sleeps (events r)) ≤ n)%nat.
Proof.
  intros r Hint. subst r.
  destruct (forallb truthy [environ !! "GITLAB_TOKEN"; environ !! "GITLAB_URL";
                            environ !! "GITLAB_PROJECT_ID"; environ !! "DEX_HOST"])
    eqn:Hall.
  2: { rewrite (main_config_error environ n w secs) by done. cbn.
       split; [constructor|lia]. }
  pose proof (main_shape environ n w secs Hint Hall) as Hs. cbn zeta in Hs.
  pose proof (main_banner_quiet environ secs) as (Hbs & _).
  pose proof (setup_dex_client_quiet E (the_str (environ !! "DEX_HOST"))
                (environ !! "DEX_CERT_PATH") w) as [Hs1 _].
  destruct (outcome (setup_dex_client E _ _ w)) as [dex|e1].
  2: { rewrite Hs. cbn [events]. autorewrite with trace. rewrite Hbs, Hs1. cbn.
       split; [constructor|lia]. }
  match type of Hs with
  | context [process_merge_requests E ?u ?t ?p dex ∅ ?c ?w1] =>
      pose proof (process_merge_requests_quiet E u t p dex ∅ c w1) as [Hs2 _];
      destruct (outcome (process_merge_requests E u t p dex ∅ c w1))
        as [[known found]|e2]
  end.
  2: { rewrite Hs. cbn [events]. autorewrite with trace. rewrite Hbs, Hs1, Hs2. cbn.
       split; [constructor|lia]. }
  rewrite Hs. cbn [events]. autorewrite with trace. rewrite Hbs, Hs1, Hs2.
  cbn [app sleeps List.filter is_sleep].
  match goal with
  | |- context [monitoring_loop E n secs ?u ?t ?p dex known ?c ?w2] =>
      pose proof (monitoring_loop_sleeps n secs u t p dex c known w2) as [Hl1 Hl2];
      destruct (monitoring_loop E n secs u t p dex known c w2) as [o w3 t3]
  end.
  cbn [outcome events] in *.
  assert (Htail : sleeps match o with
                         | Raise KeyboardInterrupt => [EvPrint goodbye_message]
                         | _ => []
                         end = []).
  { destruct o as [|e]; [done|]. by destruct e. }
  fold (sleeps t3). rewrite Htail, app_nil_r. done.
Qed.

Lemma main_banner_addressed gl pid dex path environ secs :
  Forall (addressed_to gl pid dex path) (main_banner environ secs).
Proof.
  unfold main_banner.
  destruct (truthy (environ !! "GITLAB_CERT_PATH")),
           (truthy (environ !! "DEX_CERT_PATH"));
    repeat first [apply Forall_nil_2 | apply Forall_cons_2; [by cbn|]].
Qed.

(** X14.  Every request [main] makes goes where the configuration says: the
    GitLab requests use the configured URL, token, project and (when it is
    non-empty) certificate path, and ask for all the opened merge requests;
    the only file read is the Dex certificate; and every registry request
    goes through the one stub built for [DEX_HOST], with the content of that
    file as root certificates when a certificate is configured. *)
Theorem main_follows_its_configuration environ n w :
  let cert := environ !! "GITLAB_CERT_PATH" in
  let dex_cert := environ !! "DEX_CERT_PATH" in
  let gl := {| gl_url := the_str (environ !! "GITLAB_URL");
               private_token := the_str (environ !! "GITLAB_TOKEN");
               ssl_verify := if truthy cert then cert else None |} in
  let dex := {| target := the_str (environ !! "DEX_HOST");
                root_certificates :=
                  if truthy dex_cert then
                    match (open_read E (the_str dex_cert) w).1 with
                    | Ok ca => Some ca
                    | Raise _ => None
                    end
                  else None |} in
  Forall (addressed_to gl (the_str (environ !! "GITLAB_PROJECT_ID")) dex
            (the_str dex_cert))
    (events (main E environ n w)).
Proof.
  intros cert dex_cert gl dex.
  destruct (int_of_str E (default "30" (environ !! "CHECK_INTERVAL")))
    as [msg|secs] eqn:Hparse.
  { rewrite (main_bad_interval environ n w msg) by done. constructor. }
  destruct (forallb truthy [environ !! "GITLAB_TOKEN"; environ !! "GITLAB_URL";
                            environ !! "GITLAB_PROJECT_ID"; environ !! "DEX_HOST"])
    eqn:Hall.
  2: { rewrite (main_config_error environ n w secs) by done.
       by apply Forall_cons_2; [|constructor]. }
  pose proof (main_shape environ n w secs Hparse Hall) as Hs. cbn zeta in Hs.
  pose proof (main_banner_addressed gl (the_str (environ !! "GITLAB_PROJECT_ID")) dex
                (the_str dex_cert) environ secs) as Hb.
  assert (Hsetup :
    Forall (addressed_to gl (the_str (environ !! "GITLAB_PROJECT_ID")) dex
              (the_str dex_cert))
      (events (setup_dex_client E (the_str (environ !! "DEX_HOST")) dex_cert w)) ∧
    ∀ stub, outcome (setup_dex_client E (the_str (environ !! "DEX_HOST")) dex_cert w)
            = Ok stub → stub = dex).
  { subst dex. unfold setup_dex_client. unfold_monad.
    destruct (truthy dex_cert); cbn.
    - destruct (open_read E (the_str dex_cert) w) as [[ca|e] w1]; cbn.
      + split; [by apply Forall_cons_2; [|constructor]|]. by intros ? [= <-].
      + split; [by apply Forall_cons_2; [|constructor]|]. done.
    - split; [constructor|]. by intros ? [= <-]. }
  destruct Hsetup as [Hsetup Hstub]. fold dex_cert in Hs.
  destruct (outcome (setup_dex_client E _ dex_cert w)) as [stub|e1].
  2: { rewrite Hs. by apply Forall_app_2. }
  rewrite (Hstub stub eq_refl) in Hs. clear Hstub stub.
  fold cert in Hs.
  match type of Hs with
  | context [process_merge_requests E ?u ?t ?p dex ∅ cert ?w1] =>
      pose proof (process_merge_requests_addressed E u t p cert dex
                    (the_str dex_cert) ∅ w1) as Hfirst;
      cbn zeta in Hfirst; fold gl in Hfirst;
      destruct (outcome (process_merge_requests E u t p dex ∅ cert w1))
        as [[known found]|e2]
  end.
  2: { rewrite Hs. cbn [events].
       apply Forall_app_2; [exact Hb|]. apply Forall_app_2; [exact Hsetup|].
       by apply Forall_cons_2. }
  match type of Hs with
  | context [monitoring_loop E n secs ?u ?t ?p dex known cert ?w2] =>
      pose proof (monitoring_loop_addressed E n secs u t p cert dex
                    (the_str dex_cert) known w2) as Hloop;
      cbn zeta in Hloop; fold gl in Hloop
  end.
  rewrite Hs. cbn [events].
  apply Forall_app_2; [exact Hb|]. apply Forall_app_2; [exact Hsetup|].
  apply Forall_cons_2; [done|]. apply Forall_app_2; [exact Hfirst|].
  apply Forall_cons_2; [done|]. apply Forall_app_2; [exact Hloop|].
  destruct (outcome (monitoring_loop E n secs _ _ _ dex known cert _)) as [|e];
    [constructor|].
  destruct e; try constructor; [done|constructor].
Qed.
End Main.

(** ** What leaves a cycle, and where it ends *)

Section Interruption.
Context (E : Env).
Implicit Types (w : W E) (environ : gmap string string).

(** *** The interrupted request is the last thing a run did *)

Lemma interrupt_ends_bind {A B} (m : M E A) (f : A → M E B) w :
  interrupt_ends (m w) → (∀ a w1, interrupt_ends (f a w1)) →
  interrupt_ends (bind E m f w).
Proof.
  unfold interrupt_ends, bind. intros Hm Hf.
  destruct (m w) as [[a|e] w1 t1]; cbn [outcome final events] in *.
  2: { destruct Hm as [Hm|[[= ->] Hm]]; [by left|by right]. }
  specialize (Hf a w1).
  destruct (f a w1) as [o w2 t2]; cbn [outcome final events] in *.
  destruct Hm as [Hm|[? _]]; [|done].
  rewrite interrupts_app, Hm. cbn [app].
  destruct Hf as [Hf|(Ho & before & ev & -> & Hbefore & Hev)]; [by left|].
  right. split; [done|]. exists (t1 ++ before), ev.
  rewrite app_assoc, interrupts_app, Hm, Hbefore. done.
Qed.

Lemma interrupt_ends_try {A} (m : M E A) (h : exn → option (M E A)) w :
  interrupt_ends (m w) → h KeyboardInterrupt = None →
  (∀ e k w1, h e = Some k → interrupts (events (k w1)) = []) →
  interrupt_ends (try_except E m h w).
Proof.
  unfold interrupt_ends, try_except. intros Hm Hki Hh.
  destruct (m w) as [[a|e] w1 t1]; cbn [outcome final events] in *; [exact Hm|].
  destruct (h e) as [k|] eqn:Hhe; cbn [outcome final events]; [|exact Hm].
  specialize (Hh e k w1 Hhe).
  destruct (k w1) as [o w2 t2]; cbn [outcome final events] in *.
  destruct Hm as [Hm|[[= ->] _]]; [|congruence].
  left. by rewrite interrupts_app, Hm, Hh.
Qed.

Lemma interrupt_ends_call {A} (f : W E → result A * W E) (ev : result A → event) w :
  (∀ r, raised (ev r) = raised_by r) → interrupt_ends (call E f ev w).
Proof.
  unfold interrupt_ends, call. intros Hev.
  destruct (f w) as [r w1]; cbn [outcome final events].
  destruct r as [a|e].
  - left. cbn. unfold is_interrupt. by rewrite Hev.
  - assert (Hi : is_interrupt (ev (Raise e))
                 = match e with KeyboardInterrupt => true | _ => false end)
      by (unfold is_interrupt; by rewrite Hev).
    destruct e; try (left; cbn; by rewrite Hi).
    right. split; [done|]. by exists [], (ev (Raise KeyboardInterrupt)).
Qed.

(** One step through a piece of the script. *)
Ltac interrupt_ends_step :=
  lazymatch goal with
  | |- interrupt_ends (mbind _ _ _) => apply interrupt_ends_bind; [|intros ? ?]
  | |- interrupt_ends (bind _ _ _ _) => apply interrupt_ends_bind; [|intros ? ?]
  | |- interrupt_ends (call _ _ _ _) => apply interrupt_ends_call; by intros []
  | |- interrupt_ends (try_except _ _ _ _) =>
      apply interrupt_ends_try;
      [ | done
        | let e := fresh "e" in let Hh := fresh "Hh" in
          intros e ? ? Hh; destruct e; cbn in Hh; try done;
          injection Hh as <-; done ]
  | |- interrupt_ends (mret _ _) => by left
  | |- interrupt_ends (ret _ _ _) => by left
  | |- interrupt_ends (print _ _ _) => by left
  | |- interrupt_ends (enter _ _ _) => by left
  | |- interrupt_ends (ask _ _ _ _) =>
      left; unfold ask;
      match goal with |- context [let '(_, _) := ?x in _] => by destruct x end
  | |- interrupt_ends (@raise _ _ _ _) => by left
  | |- interrupt_ends ((if ?b then _ else _) _) => destruct b
  | |- interrupt_ends (match ?x with _ => _ end _) => destruct x
  end.

Lemma get_open_merge_requests_interrupt_ends url tok pid cert w :
  interrupt_ends (get_open_merge_requests E url tok pid cert w).
Proof. unfold get_open_merge_requests. repeat interrupt_ends_step. Qed.

Lemma client_with_id_exists_interrupt_ends dex cid w :
  interrupt_ends (client_with_id_exists E dex cid w).
Proof. unfold client_with_id_exists. repeat interrupt_ends_step. Qed.

Lemma delete_client_interrupt_ends dex cid w :
  interrupt_ends (delete_client E dex cid w).
Proof. unfold delete_client. repeat interrupt_ends_step. Qed.

Lemma process_and_create_client_interrupt_ends dex mr w :
  interrupt_ends (process_and_create_client E dex mr w).
Proof.
  unfold process_and_create_client, generate_client_secret.
  repeat first [apply client_with_id_exists_interrupt_ends | interrupt_ends_step].
Qed.

Lemma for_mr_in_interrupt_ends dex known mrs : ∀ cur found w,
  interrupt_ends (for_mr_in E dex known mrs cur found w).
Proof.
  induction mrs as [|mr rest IH]; intros cur found w; cbn [for_mr_in];
    repeat first [apply IH | apply process_and_create_client_interrupt_ends
                 | interrupt_ends_step].
Qed.

Lemma for_mr_iid_in_interrupt_ends dex closed : ∀ w,
  interrupt_ends (for_mr_iid_in E dex closed w).
Proof.
  induction closed as [|n rest IH]; intros w; cbn [for_mr_iid_in];
    repeat first [apply IH | apply delete_client_interrupt_ends
                 | interrupt_ends_step].
Qed.

Lemma process_merge_requests_body_interrupt_ends url tok pid dex known cert w :
  interrupt_ends (process_merge_requests_body E url tok pid dex known cert w).
Proof.
  unfold process_merge_requests_body.
  repeat first [apply get_open_merge_requests_interrupt_ends
               | apply for_mr_in_interrupt_ends
               | apply for_mr_iid_in_interrupt_ends
               | interrupt_ends_step].
Qed.

Lemma process_merge_requests_interrupt_ends url tok pid dex known cert w :
  interrupt_ends (process_merge_requests E url tok pid dex known cert w).
Proof.
  unfold process_merge_requests.
  repeat first [apply process_merge_requests_body_interrupt_ends
               | interrupt_ends_step].
Qed.

Lemma monitoring_loop_interrupt_ends n secs url tok pid dex cert : ∀ known w,
  interrupt_ends (monitoring_loop E n secs url tok pid dex known cert w).
Proof.
  induction n as [|n IH]; intros known w; cbn [monitoring_loop];
    repeat first [apply IH | apply process_merge_requests_interrupt_ends
                 | interrupt_ends_step].
Qed.

(** A trace holds one interrupted request at most once it is known that none
    comes before or after it. *)
Lemma interrupt_unique (before : list event) ev after before' ev' after' :
  before ++ ev :: after = before' ++ ev' :: after' →
  is_interrupt ev = true →
  interrupts before' = [] → interrupts after' = [] →
  before = before' ∧ ev = ev' ∧ after = after'.
Proof.
  intros Heq Hev Hb Ha. revert before Heq Hb.
  induction before' as [|x rest IH]; intros before Heq Hb.
  - destruct before as [|y before]; cbn in Heq.
    + by injection Heq as -> ->.
    + injection Heq as -> Hafter. exfalso.
      rewrite <-Hafter, interrupts_app in Ha. cbn in Ha. rewrite Hev in Ha.
      by destruct (interrupts before).
  - cbn in Hb. destruct (is_interrupt x) eqn:Hx; [done|].
    destruct before as [|y before]; cbn in Heq.
    + injection Heq as -> _. congruence.
    + injection Heq as -> Heq. by destruct (IH _ Heq Hb) as (-> & -> & ->).
Qed.

(** Once the loop of [main] was entered, the interrupted request is the last
    one: the farewell alone follows, and [main] exits with status 0. *)
Lemma main_interrupted_in_loop environ n w before ev after :
  let r := main E environ n w in
  events r = before ++ ev :: after →
  sleeps (events r) ≠ [] → is_interrupt ev = true →
  outcome r = Raise (SystemExit 0) ∧ after = [EvPrint goodbye_message].
Proof.
  intros r Hev Hslept Hint. subst r.
  destruct (int_of_str E (default "30" (environ !! "CHECK_INTERVAL")))
    as [msg|secs] eqn:Hparse.
  { by rewrite (main_bad_interval E environ n w msg) in Hslept. }
  destruct (forallb truthy [environ !! "GITLAB_TOKEN"; environ !! "GITLAB_URL";
                            environ !! "GITLAB_PROJECT_ID"; environ !! "DEX_HOST"])
    eqn:Hall.
  2: { by rewrite (main_config_error E environ n w secs) in Hslept. }
  pose proof (main_shape E environ n w secs Hparse Hall) as Hs. cbn zeta in Hs.
  pose proof (main_banner_quiet environ secs) as (Hbs & Hbi & _).
  pose proof (setup_dex_client_quiet E (the_str (environ !! "DEX_HOST"))
                (environ !! "DEX_CERT_PATH") w) as [Hs1 Hi1].
  unfold interrupt_leaves in Hi1.
  destruct (outcome (setup_dex_client E _ _ w)) as [dex|e1].
  2: { exfalso. rewrite Hs in Hslept. cbn [events] in Hslept.
       autorewrite with trace in Hslept. by rewrite Hbs, Hs1 in Hslept. }
  destruct Hi1 as [Hi1|?]; [|done].
  match type of Hs with
  | context [process_merge_requests E ?u ?t ?p dex ∅ ?c ?w1] =>
      pose proof (process_merge_requests_quiet E u t p dex ∅ c w1) as [Hs2 Hi2];
      unfold interrupt_leaves in Hi2;
      destruct (outcome (process_merge_requests E u t p dex ∅ c w1))
        as [[known found]|e2]
  end.
  2: { exfalso. rewrite Hs in Hslept. cbn [events] in Hslept.
       autorewrite with trace in Hslept. by rewrite Hbs, Hs1, Hs2 in Hslept. }
  destruct Hi2 as [Hi2|?]; [|done].
  match type of Hs with
  | context [monitoring_loop E n secs ?u ?t ?p dex known ?c ?w2] =>
      pose proof (monitoring_loop_interrupt_ends n secs u t p dex c known w2)
        as Hloop;
      unfold interrupt_ends in Hloop;
      destruct (monitoring_loop E n secs u t p dex known c w2) as [o w3 t3]
  end.
  cbn [outcome final events] in *.
  rewrite Hs in Hev |- *. cbn [outcome events] in *. clear Hs Hslept.
  destruct Hloop as [Hquiet|(-> & before' & ev' & -> & Hquiet & Hint')].
  - exfalso.
    assert (Hnone : interrupts (before ++ ev :: after) = []).
    { rewrite <-Hev. autorewrite with trace. rewrite Hbi, Hi1, Hi2, Hquiet.
      by destruct o as [|[]]. }
    rewrite interrupts_app in Hnone. cbn in Hnone. rewrite Hint in Hnone.
    by destruct (interrupts before).
  - split; [done|].
    rewrite !app_assoc in Hev. rewrite <-(app_assoc _ [ev']) in Hev. cbn [app] in Hev.
    symmetry in Hev. apply interrupt_unique in Hev as (_ & _ & Hafter); try done.
    autorewrite with trace. by rewrite Hbi, Hi1, Hi2, Hquiet.
Qed.

(** C9, as amended.  [process_merge_requests] catches every exception of
    class [Exception] raised within the cycle, not only the GitLab API errors:
    it prints the line of the handler that matches ([GitLab API error: ...]
    for a [GitlabError], [Error processing merge requests: ...] for any
    other) and returns the previous known set with [False].  An exception
    that is not an [Exception], so [KeyboardInterrupt] or [SystemExit], is
    not caught: it leaves the cycle as the body raised it, with nothing
    printed, and nothing else leaves a cycle.  Raised in a round of the loop
    of [main] it ends the loop there, whatever the number of rounds to come.
    And in [main], once the loop was entered, a request answered with
    [KeyboardInterrupt] is the last one: the handler of [main] prints the
    farewell, nothing else follows, and [main] exits with status 0. *)
Theorem cycle_catches_every_Exception url tok pid dex known cert :
  let body := process_merge_requests_body E url tok pid dex known cert in
  let cycle := process_merge_requests E url tok pid dex known cert in
  (∀ w e, outcome (body w) = Raise e → is_Exception e = true →
     cycle w = MkRun (Ok (known, false)) (final (body w))
                 (events (body w) ++
                  [EvPrint ((if is_GitlabError e then "GitLab API error: "
                             else "Error processing merge requests: ")
                            +:+ exn_str e)])) ∧
  (∀ e, is_Exception e = false ↔
        e = KeyboardInterrupt ∨ ∃ code, e = SystemExit code) ∧
  (∀ w e, outcome (body w) = Raise e → is_Exception e = false →
     cycle w = body w ∧ outcome (cycle w) = Raise e) ∧
  (∀ w e, outcome (cycle w) = Raise e →
     is_Exception e = false ∧ outcome (body w) = Raise e ∧ cycle w = body w) ∧
  (∀ n secs w0 w1 now w e,
     sleep E secs w0 = (Ok tt, w1) →
     strftime E "%Y-%m-%d %H:%M:%S" w1 = (now, w) →
     outcome (cycle w) = Raise e →
     let loop := monitoring_loop E (S n) secs url tok pid dex known cert w0 in
     outcome loop = Raise e ∧
     events loop
     = [EvSleep secs (Ok tt); EvStrftime "%Y-%m-%d %H:%M:%S" now;
        EvPrint (nl +:+ "[" +:+ now +:+ "] Checking for new MRs...")]
       ++ events (cycle w)) ∧
  (∀ environ n w before ev after,
     let r := main E environ n w in
     events r = before ++ ev :: after →
     sleeps (events r) ≠ [] → is_interrupt ev = true →
     outcome r = Raise (SystemExit 0) ∧ after = [EvPrint goodbye_message]).
Proof.
  intros body cycle.
  assert (Hu : ∀ w,
    match outcome (body w) with
    | Ok a => cycle w = body w
    | Raise e =>
        if is_GitlabError e then
          cycle w = MkRun (Ok (known, false)) (final (body w))
                      (events (body w) ++ [EvPrint ("GitLab API error: " +:+ exn_str e)])
        else if is_Exception e then
          cycle w = MkRun (Ok (known, false)) (final (body w))
                      (events (body w) ++
                         [EvPrint ("Error processing merge requests: " +:+ exn_str e)])
        else cycle w = body w
    end).
  { intros w. exact (process_merge_requests_unfold E url tok pid dex known cert w). }
  split_and!.
  - intros w e He Hexn. specialize (Hu w). rewrite He in Hu.
    destruct (is_GitlabError e); [exact Hu|]. by rewrite Hexn in Hu.
  - intros e. split.
    + destruct e; cbn; try done; [by left|right; eauto].
    + by intros [->|[code ->]].
  - intros w e He Hexn. specialize (Hu w). rewrite He in Hu.
    assert (Hg : is_GitlabError e = false) by (by destruct e).
    rewrite Hg, Hexn in Hu. by rewrite Hu.
  - intros w e He. specialize (Hu w).
    destruct (outcome (body w)) as [a|e'] eqn:Hb.
    + rewrite Hu, Hb in He. done.
    + destruct (is_GitlabError e') eqn:Hg; [by rewrite Hu in He|].
      destruct (is_Exception e') eqn:Hexn; [by rewrite Hu in He|].
      rewrite Hu, Hb in He. by injection He as <-.
  - intros n secs w0 w1 now w e Hsleep Hnow He. cbn [monitoring_loop].
    unfold_monad; cbn [outcome final events]. rewrite Hsleep, Hnow.
    cbn [outcome final events]. fold cycle.
    destruct (cycle w) as [o w2 t2]. cbn [outcome events] in He. subst o. done.
  - intros environ n w before ev after. apply main_interrupted_in_loop.
Qed.

End Interruption.

(** A connection error of the HTTP layer, which is not a [GitlabError], is
    caught; a [KeyboardInterrupt] and a [SystemExit] raised by the poll are
    not, and end the loop; in [main], the poll of the first round of the loop
    is interrupted. *)
Lemma cycle_catches_every_Exception_witness :
  let reset :=
    Sim.set_feed Sim.world0 [Raise (OtherException "Connection reset by peer")] in
  let exiting := Sim.set_feed Sim.world0 [Raise (SystemExit 3)] in
  (outcome (sim_cycle {[7%Z]} reset) = Ok ({[7%Z]}, false) ∧
   printed (events (sim_cycle {[7%Z]} reset))
   = ["Error processing merge requests: Connection reset by peer"]) ∧
  (outcome (sim_cycle {[7%Z]} interrupted_at_start) = Raise KeyboardInterrupt ∧
   printed (events (sim_cycle {[7%Z]} interrupted_at_start)) = []) ∧
  outcome (sim_cycle {[7%Z]} exiting) = Raise (SystemExit 3) ∧
  outcome (sim_loop 5 {[7%Z]} interrupted_at_start) = Raise KeyboardInterrupt ∧
  outcome (sim_loop 5 {[7%Z]} exiting) = Raise (SystemExit 3) ∧
  (let r := main Sim.env environ_ok 5 interrupted_polling in
   sleeps (events r) = [EvSleep 30 (Ok tt)] ∧
   outcome r = Raise (SystemExit 0) ∧
   ∃ before,
     events r = before ++ [EvMergeRequestsList "opened" true (Raise KeyboardInterrupt);
                           EvPrint goodbye_message]).
Proof.
  cbv zeta.
  destruct (cycle_catches_every_Exception Sim.env "https://gitlab.example.com" "glpat"
              "42" Sim.stub {[7%Z]} None)
    as (Hcaught & _ & Hleaves & _ & Hround & Hmain).
  pose (reset := Sim.set_feed Sim.world0
                   [Raise (OtherException "Connection reset by peer")]).
  pose (exiting := Sim.set_feed Sim.world0 [Raise (SystemExit 3)]).
  assert (Hreset : outcome (process_merge_requests_body Sim.env
                              "https://gitlab.example.com" "glpat" "42" Sim.stub
                              {[7%Z]} None reset)
                   = Raise (OtherException "Connection reset by peer"))
    by (by vm_compute).
  assert (Hint : outcome (process_merge_requests_body Sim.env
                            "https://gitlab.example.com" "glpat" "42" Sim.stub
                            {[7%Z]} None interrupted_at_start)
                 = Raise KeyboardInterrupt)
    by (by vm_compute).
  assert (Hexit : outcome (process_merge_requests_body Sim.env
                             "https://gitlab.example.com" "glpat" "42" Sim.stub
                             {[7%Z]} None exiting)
                  = Raise (SystemExit 3))
    by (by vm_compute).
  pose proof (Hcaught reset _ Hreset eq_refl) as Hc.
  pose proof (Hleaves interrupted_at_start _ Hint eq_refl) as [Hi1 Hi2].
  pose proof (Hleaves exiting _ Hexit eq_refl) as [_ He2].
  split_and!.
  - unfold sim_cycle. fold reset. by rewrite Hc.
  - unfold sim_cycle. fold reset. rewrite Hc. by vm_compute.
  - exact Hi2.
  - unfold sim_cycle. rewrite Hi1. by vm_compute.
  - exact He2.
  - exact (proj1 (Hround 4%nat 30%Z interrupted_at_start interrupted_at_start
                    "2024-01-01 00:00:00" interrupted_at_start KeyboardInterrupt
                    eq_refl eq_refl Hi2)).
  - exact (proj1 (Hround 4%nat 30%Z exiting exiting "2024-01-01 00:00:00" exiting
                    (SystemExit 3) eq_refl eq_refl He2)).
  - by vm_compute.
  - set (r := main Sim.env environ_ok 5 interrupted_polling).
    set (k := 19%nat).
    assert (Hev : events r
                  = take k (events r)
                    ++ EvMergeRequestsList "opened" true (Raise KeyboardInterrupt)
                       :: drop (S k) (events r))
      by (by vm_compute).
    assert (Hslept : sleeps (events r) ≠ []) by (by vm_compute).
    exact (proj1 (Hmain environ_ok 5%nat interrupted_polling _ _ _ Hev Hslept eq_refl)).
  - set (r := main Sim.env environ_ok 5 interrupted_polling).
    set (k := 19%nat).
    assert (Hev : events r
                  = take k (events r)
                    ++ EvMergeRequestsList "opened" true (Raise KeyboardInterrupt)
                       :: drop (S k) (events r))
      by (by vm_compute).
    assert (Hslept : sleeps (events r) ≠ []) by (by vm_compute).
    destruct (Hmain environ_ok 5%nat interrupted_polling _ _ _ Hev Hslept eq_refl)
      as [_ Hafter].
    exists (take k (events r)). rewrite Hev at 1. by rewrite Hafter.
Defined.

(** ** The derived names *)

Lemma list_ascii_of_string_app (a b : string) :
  Stdlib.Strings.String.list_ascii_of_string (a +:+ b)
  = Stdlib.Strings.String.list_ascii_of_string a
    ++ Stdlib.Strings.String.list_ascii_of_string b.
Proof.
  induction a as [|c a IH]; [done|].
  change (Stdlib.Strings.String.list_ascii_of_string (String c a +:+ b))
    with (c :: Stdlib.Strings.String.list_ascii_of_string (a +:+ b)).
  by rewrite IH.
Qed.

Lemma string_app_inv_tail (a b s : string) : a +:+ s = b +:+ s → a = b.
Proof.
  intros Heq. apply (f_equal Stdlib.Strings.String.list_ascii_of_string) in Heq.
  rewrite !list_ascii_of_string_app in Heq. apply app_inv_tail in Heq.
  rewrite <-(Stdlib.Strings.String.string_of_list_ascii_of_string a),
    <-(Stdlib.Strings.String.string_of_list_ascii_of_string b).
  by rewrite Heq.
Qed.

(** X15.  Different merge requests never share a client: distinct numbers
    give distinct client ids and distinct redirect URIs. *)
Theorem derived_names_are_distinct (n m : Z) :
  n ≠ m →
  client_id_of n ≠ client_id_of m ∧ redirect_uri_of n ≠ redirect_uri_of m.
Proof.
  intros Hne. split; intros Heq; apply Hne.
  - unfold client_id_of in Heq. apply (inj (String.app "mr-")) in Heq.
    by apply (inj pretty) in Heq.
  - unfold redirect_uri_of in Heq. apply (inj (String.app "https://mr-")) in Heq.
    apply string_app_inv_tail in Heq. by apply (inj pretty) in Heq.
Qed.

(** ** Runs of the further properties *)

(** The check finds the client of merge request 7 in the registry. *)
Lemma existence_check_answer_witness :
  let r := client_with_id_exists Sim.env Sim.stub "mr-7" registry_with_7 in
  (ListClients Sim.env Sim.stub registry_with_7).1 = Ok [client7 "old-token"] ∧
  outcome r = Ok (true, Some (client7 "old-token")) ∧
  ∃ found,
    outcome r = Ok (bool_decide ("mr-7" ∈ api_pb2.id <$> [client7 "old-token"]), found) ∧
    (∀ c, found = Some c → api_pb2.id c = "mr-7" ∧ c ∈ [client7 "old-token"]) ∧
    (found = None ↔ "mr-7" ∉ api_pb2.id <$> [client7 "old-token"]).
Proof.
  assert (Hlist : (ListClients Sim.env Sim.stub registry_with_7).1
                  = Ok [client7 "old-token"]) by (by vm_compute).
  destruct (existence_check_answer Sim.env Sim.stub "mr-7" registry_with_7)
    as (_ & Hok & _).
  split; [exact Hlist|]. split; [by vm_compute|].
  exact (Hok [client7 "old-token"] Hlist).
Defined.

(** The first sight of merge request 7: a client is created, the flag is
    [True]. *)
Lemma new_mrs_found_means_created_witness :
  let r := sim_cycle ∅ (polled [mr7]) in
  outcome r = Ok ({[7%Z]}, true) ∧
  failures_are_rpc (events r) = true ∧
  created_ok (events r) ≠ [] ∧
  ∃ s, outcome r = Ok (s, true).
Proof.
  assert (Hout : outcome (sim_cycle ∅ (polled [mr7])) = Ok ({[7%Z]}, true))
    by (by vm_compute).
  assert (Hrpc : failures_are_rpc (events (sim_cycle ∅ (polled [mr7]))) = true)
    by (by vm_compute).
  destruct (new_mrs_found_means_created Sim.env "https://gitlab.example.com" "glpat"
              "42" Sim.stub ∅ None (polled [mr7])) as [Honly Hif].
  pose proof (Honly _ Hout) as Hcreated.
  split; [exact Hout|]. split; [exact Hrpc|]. split; [exact Hcreated|].
  exact (Hif Hrpc Hcreated).
Defined.

(** Known: 3 and 7; open: 7 and 9; the registry is empty. *)
Lemma cycle_touches_only_the_difference_witness :
  let r := sim_cycle {[3; 7]}%Z (polled [mr7; mr9]) in
  outcome (sim_poll (polled [mr7; mr9])) = Ok [mr7; mr9] ∧
  api_pb2.id <$> create_requests (events r) = ["mr-9"] ∧
  delete_requests (events r) = ["mr-3"] ∧
  (∀ c, c ∈ create_requests (events r) →
        ∃ mr, mr ∈ [mr7; mr9] ∧ (iid mr ∉ ({[3; 7]}%Z : gset Z)) ∧
              api_pb2.id c = client_id_of (iid mr)) ∧
  (∀ cid, cid ∈ delete_requests (events r) →
          ∃ n, n ∈ ({[3; 7]}%Z : gset Z) ∖ list_to_set (iid <$> [mr7; mr9]) ∧
               cid = client_id_of n).
Proof.
  assert (Hpoll : outcome (sim_poll (polled [mr7; mr9])) = Ok [mr7; mr9])
    by (by vm_compute).
  split; [exact Hpoll|]. split; [by vm_compute|]. split; [by vm_compute|].
  exact (cycle_touches_only_the_difference Sim.env "https://gitlab.example.com"
           "glpat" "42" Sim.stub {[3; 7]}%Z None (polled [mr7; mr9]) [mr7; mr9] Hpoll).
Defined.

(** The HTTP connection to GitLab is reset while 7 is known. *)
Lemma failed_poll_leaves_registry_alone_witness :
  let w := Sim.set_feed Sim.world0 [Raise (OtherException "Connection reset by peer")] in
  let r := sim_cycle {[7%Z]} w in
  outcome (sim_poll w) = Raise (OtherException "Connection reset by peer") ∧
  registry_calls (events r) = [] ∧
  ensure_calls (events r) = [] ∧ remove_calls (events r) = [] ∧
  outcome r = Ok ({[7%Z]}, false).
Proof.
  assert (Hpoll : outcome (sim_poll (Sim.set_feed Sim.world0
                    [Raise (OtherException "Connection reset by peer")]))
                  = Raise (OtherException "Connection reset by peer"))
    by (by vm_compute).
  split; [exact Hpoll|].
  exact (failed_poll_leaves_registry_alone Sim.env "https://gitlab.example.com"
           "glpat" "42" Sim.stub {[7%Z]} None _ _ Hpoll).
Defined.

(** 7 is known and still open. *)
Lemma steady_state_is_silent_witness :
  let w := Sim.set_registry (polled [mr7]) [client7 "token-0"] in
  let r := sim_cycle {[7%Z]} w in
  outcome (sim_poll w) = Ok [mr7] ∧
  list_to_set (iid <$> [mr7]) = ({[7%Z]} : gset Z) ∧
  r = MkRun (Ok ({[7%Z]}, false)) (final (sim_poll w)) (events (sim_poll w)) ∧
  registry_calls (events r) = [] ∧ printed (events r) = [].
Proof.
  assert (Hpoll : outcome (sim_poll (Sim.set_registry (polled [mr7])
                                       [client7 "token-0"])) = Ok [mr7])
    by (by vm_compute).
  assert (Hsame : list_to_set (iid <$> [mr7]) = ({[7%Z]} : gset Z))
    by (by vm_compute).
  split; [exact Hpoll|]. split; [exact Hsame|].
  exact (steady_state_is_silent Sim.env "https://gitlab.example.com" "glpat" "42"
           Sim.stub {[7%Z]} None _ [mr7] Hpoll Hsame).
Defined.

(** The create for 7 and the delete for 3 are refused in the first cycle; the
    second cycle, which sees 7 again, does not try them again. *)
Lemma failed_request_is_not_retried_witness :
  let first := sim_cycle {[3%Z]} writes_refused_twice in
  let second := sim_cycle (list_to_set (iid <$> [mr7])) (final first) in
  outcome (sim_poll writes_refused_twice) = Ok [mr7] ∧
  failures_are_rpc (events first) = true ∧
  created_ok (events first) = [] ∧
  outcome (sim_poll (final first)) = Ok [mr7_again] ∧
  (∃ found, outcome first = Ok (list_to_set (iid <$> [mr7]), found)) ∧
  registry_calls (events second) = [] ∧
  outcome second = Ok (list_to_set (iid <$> [mr7]), false).
Proof.
  assert (Hpoll : outcome (sim_poll writes_refused_twice) = Ok [mr7])
    by (by vm_compute).
  assert (Hrpc : failures_are_rpc (events (sim_cycle {[3%Z]} writes_refused_twice))
                 = true) by (by vm_compute).
  assert (Hpoll' : outcome (sim_poll (final (sim_cycle {[3%Z]} writes_refused_twice)))
                   = Ok [mr7_again]) by (by vm_compute).
  assert (Hsame : list_to_set (iid <$> [mr7_again])
                  = (list_to_set (iid <$> [mr7]) : gset Z)) by (by vm_compute).
  split; [exact Hpoll|]. split; [exact Hrpc|]. split; [by vm_compute|].
  split; [exact Hpoll'|].
  exact (failed_request_is_not_retried Sim.env "https://gitlab.example.com" "glpat"
           "42" Sim.stub {[3%Z]} None writes_refused_twice [mr7] [mr7_again]
           Hpoll Hrpc Hpoll' Hsame).
Defined.

(** Three rounds while GitLab is down and 7 is known. *)
Lemma known_set_waits_for_a_snapshot_witness :
  let r := sim_loop 3 {[7%Z]} gitlab_down in
  snapshots (events r) = [] ∧
  length (sleeps (events r)) = 3 ∧
  outcome r = Ok {[7%Z]} ∧
  registry_calls (events r) = [] ∧
  ∀ known', outcome r = Ok known' → known' = {[7%Z]}.
Proof.
  assert (Hnone : snapshots (events (sim_loop 3 {[7%Z]} gitlab_down)) = [])
    by (by vm_compute).
  split; [exact Hnone|]. split; [by vm_compute|]. split; [by vm_compute|].
  exact (known_set_waits_for_a_snapshot Sim.env 3 30 "https://gitlab.example.com"
           "glpat" "42" Sim.stub {[7%Z]} None gitlab_down Hnone).
Defined.

(** Two rounds: 7 and 9 are open, then 9 alone. *)
Lemma known_set_is_the_latest_snapshot_witness :
  let r := sim_loop 2 ∅ two_snapshots in
  failures_are_rpc (events r) = true ∧
  snapshots (events r) = [[mr7; mr9]; [mr9]] ∧
  outcome r = Ok {[9%Z]} ∧
  ∀ known', outcome r = Ok known' →
    known' = match last (snapshots (events r)) with
             | Some mrs => list_to_set (iid <$> mrs)
             | None => ∅
             end.
Proof.
  assert (Hrpc : failures_are_rpc (events (sim_loop 2 ∅ two_snapshots)) = true)
    by (by vm_compute).
  split; [exact Hrpc|]. split; [by vm_compute|]. split; [by vm_compute|].
  exact (known_set_is_the_latest_snapshot Sim.env 2 30 "https://gitlab.example.com"
           "glpat" "42" Sim.stub ∅ None two_snapshots Hrpc).
Defined.

(** [DEX_HOST] set to the empty string is a configuration error. *)
Lemma config_error_exactly_when_setting_is_empty_witness :
  let r := main Sim.env environ_empty_host 3 Sim.world0 in
  int_of_str Sim.env (default "30" (environ_empty_host !! "CHECK_INTERVAL")) = inr 30%Z ∧
  environ_empty_host !! "DEX_HOST" = Some "" ∧
  events r = [EvPrint config_error_message] ∧ outcome r = Raise (SystemExit 1).
Proof.
  assert (Hint : int_of_str Sim.env (default "30" (environ_empty_host !! "CHECK_INTERVAL"))
                 = inr 30%Z) by (by vm_compute).
  assert (Hhost : environ_empty_host !! "DEX_HOST" = Some "") by (by vm_compute).
  split; [exact Hint|]. split; [exact Hhost|].
  apply (config_error_exactly_when_setting_is_empty Sim.env environ_empty_host 3
           Sim.world0 30 Hint).
  exists "DEX_HOST". split; [|by right].
  unfold required_settings. apply list_elem_of_In. cbn. tauto.
Defined.

(** Ctrl+C during the initial check. *)
Lemma interrupt_before_loop_is_unhandled_witness :
  let r := main Sim.env environ_ok 5 interrupted_at_start in
  sleeps (events r) = [] ∧
  interrupts (events r)
  = [EvMergeRequestsList "opened" true (Raise KeyboardInterrupt)] ∧
  outcome r = Raise KeyboardInterrupt ∧
  interpreter (outcome r) = Interrupted ∧
  exit_status (interpreter (outcome r)) = None.
Proof.
  assert (Hs : sleeps (events (main Sim.env environ_ok 5 interrupted_at_start)) = [])
    by (by vm_compute).
  assert (Hi : interrupts (events (main Sim.env environ_ok 5 interrupted_at_start))
               = [EvMergeRequestsList "opened" true (Raise KeyboardInterrupt)])
    by (by vm_compute).
  split; [exact Hs|]. split; [exact Hi|].
  apply (interrupt_before_loop_is_unhandled Sim.env environ_ok 5 interrupted_at_start Hs).
  by rewrite Hi.
Defined.

(** The Dex certificate is configured but cannot be read. *)
Lemma unreadable_dex_certificate_stops_main_witness :
  let r := main sim_env_unreadable environ_with_cert 3 Sim.world0 in
  let e := OtherException "[Errno 2] No such file or directory: '/etc/dex/ca.pem'" in
  int_of_str sim_env_unreadable (default "30" (environ_with_cert !! "CHECK_INTERVAL"))
  = inr 60%Z ∧
  truthy (environ_with_cert !! "DEX_CERT_PATH") = true ∧
  outcome r = Raise e ∧
  events r = main_banner environ_with_cert 60 ++ [EvOpenRead "/etc/dex/ca.pem" (Raise e)] ∧
  (is_Exception e = true → interpreter (outcome r) = Exited 1 (Some e)).
Proof.
  assert (Hint : int_of_str sim_env_unreadable
                   (default "30" (environ_with_cert !! "CHECK_INTERVAL")) = inr 60%Z)
    by (by vm_compute).
  assert (Hreq : ∀ k, k ∈ required_settings →
                      truthy (environ_with_cert !! k) = true).
  { intros k Hk. unfold required_settings in Hk.
    repeat (apply elem_of_cons in Hk as [->|Hk]; [by vm_compute|]).
    by apply not_elem_of_nil in Hk. }
  assert (Hcert : truthy (environ_with_cert !! "DEX_CERT_PATH") = true)
    by (by vm_compute).
  assert (Hread : (open_read sim_env_unreadable
                     (the_str (environ_with_cert !! "DEX_CERT_PATH")) Sim.world0).1
                  = Raise (OtherException
                             "[Errno 2] No such file or directory: '/etc/dex/ca.pem'"))
    by (by vm_compute).
  split; [exact Hint|]. split; [exact Hcert|].
  exact (unreadable_dex_certificate_stops_main sim_env_unreadable environ_with_cert 3
           Sim.world0 60 _ Hint Hreq Hcert Hread).
Defined.

(** [CHECK_INTERVAL=60], three rounds. *)
Lemma sleeps_last_the_check_interval_witness :
  let r := main Sim.env environ_with_cert 3 (polled [mr7]) in
  int_of_str Sim.env (default "30" (environ_with_cert !! "CHECK_INTERVAL")) = inr 60%Z ∧
  sleeps (events r) = [EvSleep 60 (Ok tt); EvSleep 60 (Ok tt); EvSleep 60 (Ok tt)] ∧
  Forall (λ ev, ∃ ans, ev = EvSleep 60 ans) (sleeps (events r)) ∧
  (length (sleeps (events r)) ≤ 3)%nat.
Proof.
  assert (Hint : int_of_str Sim.env (default "30" (environ_with_cert !! "CHECK_INTERVAL"))
                 = inr 60%Z) by (by vm_compute).
  split; [exact Hint|]. split; [by vm_compute|].
  exact (sleeps_last_the_check_interval Sim.env environ_with_cert 3 (polled [mr7]) 60
           Hint).
Defined.

(** Merge requests 7 and 9. *)
Lemma derived_names_are_distinct_witness :
  (7:Z) ≠ 9%Z ∧
  client_id_of 7 ≠ client_id_of 9 ∧ redirect_uri_of 7 ≠ redirect_uri_of 9.
Proof.
  assert (Hne : (7:Z) ≠ 9%Z) by done.
  split; [exact Hne|]. exact (derived_names_are_distinct 7 9 Hne).
Defined.
